(** * Plugin acquisition utilities (utils.py): a shallow embedding

    The Python module fetches a plugin's source tree from a hosting API,
    writes it on disk, installs its requirements, builds it and looks for
    its main file.  The embedding below follows utils.py function by
    function.  Python [str] values (names, paths, URLs, base64 text) are
    Rocq strings; file contents are lists of bytes; the file system, the
    network, the process table and the interpreter's import system are an
    explicit world threaded through a state-and-exception monad. *)

From Stdlib Require Import ZArith NArith Ascii Lia.
From Stdlib.Strings Require Import Byte.
From stdpp Require Import gmap strings list fin_maps.

(** ** Python string operations *)

Module PyStr.

(** [c in cs] for a character and a string used as a character set. *)
Fixpoint mem_char (c : ascii) (cs : string) : bool :=
  match cs with
  | EmptyString => false
  | String d cs' => if Ascii.eqb c d then true else mem_char c cs'
  end.

(** [s.startswith(p)] *)
Definition startswith (p s : string) : bool := String.prefix p s.

(** [sub in s] *)
Fixpoint contains (sub s : string) : bool :=
  if String.prefix sub s then true
  else match s with
       | EmptyString => false
       | String _ s' => contains sub s'
       end.

(** [s.endswith(p)] *)
Fixpoint endswith (p s : string) : bool :=
  if String.eqb p s then true
  else match s with
       | EmptyString => false
       | String _ s' => endswith p s'
       end.

(** [s[:-1]]: the string without its last character. *)
Fixpoint drop_last (s : string) : string :=
  match s with
  | EmptyString => EmptyString
  | String c EmptyString => EmptyString
  | String c s' => String c (drop_last s')
  end.

(** [s.split(sep)] for a non-empty separator.  [skip] counts the
    characters of a separator occurrence still to be stepped over, [acc]
    is the field being read. *)
Fixpoint split_go (sep : string) (skip : nat) (acc : string) (s : string)
  : list string :=
  match s with
  | EmptyString => [acc]
  | String c s' =>
      match skip with
      | S k => split_go sep k acc s'
      | O =>
          if String.prefix sep s
          then acc :: split_go sep (String.length sep - 1) EmptyString s'
          else split_go sep 0 (acc +:+ String c EmptyString) s'
      end
  end.

Definition split (sep s : string) : list string := split_go sep 0 "" s.

(** [sep.join(l)] *)
Definition join (sep : string) (l : list string) : string :=
  String.concat sep l.

(** [l[i]] on a list of strings; [None] stands for IndexError. *)
Definition item (l : list string) (i : nat) : option string := l !! i.

(** [l[:-1]] *)
Definition but_last (l : list string) : list string := removelast l.

(** [os.path.join(a, b)] of posixpath. *)
Definition path_join (a b : string) : string :=
  if startswith "/" b then b
  else if String.eqb a "" || endswith "/" a then a +:+ b
  else a +:+ "/" +:+ b.

End PyStr.

(** ** Regular expressions

    The two patterns of utils.py use literals, [.], character sets,
    [^], [$], concatenation, alternation and [+]/[*].  [ends r pos s]
    lists the remainders of [s] after each way [r] can match at its
    beginning, [pos] being the number of characters before [s] in the
    subject.  A backtracking matcher finds a match exactly when one
    exists, so truthiness of [re.search]/[re.findall] is [search]. *)

Module Re.

Inductive regex : Type :=
| Chr (c : ascii)            (* a literal character *)
| Any                        (* [.]: any character but newline *)
| Set_ (cs : string)         (* [[...]] *)
| Bol                        (* [^] *)
| Eol                        (* [$] *)
| Seq (r1 r2 : regex)
| Alt (r1 r2 : regex)
| Star (r : regex)
| Plus (r : regex).

Definition newline : ascii := "010"%char.

(** Literal string as a sequence of [Chr]; the empty literal is [Star]
    of nothing useful, so it is only used on non-empty strings. *)
Fixpoint lit (s : string) : regex :=
  match s with
  | EmptyString => Star (Set_ "")
  | String c EmptyString => Chr c
  | String c s' => Seq (Chr c) (lit s')
  end.

Definition state : Type := nat * string.

(** Iterate [step] zero or more times, following only iterations that
    consume input. *)
Fixpoint star_iter (step : state -> list state) (fuel : nat) (st : state)
  : list state :=
  st :: match fuel with
        | O => []
        | S f =>
            flat_map
              (fun st' =>
                 if Nat.ltb (String.length (snd st')) (String.length (snd st))
                 then star_iter step f st' else [])
              (step st)
        end.

Fixpoint ends (r : regex) (st : state) : list state :=
  match r with
  | Chr c =>
      match snd st with
      | String d s' => if Ascii.eqb c d then [(S (fst st), s')] else []
      | EmptyString => []
      end
  | Any =>
      match snd st with
      | String d s' => if Ascii.eqb d newline then [] else [(S (fst st), s')]
      | EmptyString => []
      end
  | Set_ cs =>
      match snd st with
      | String d s' => if PyStr.mem_char d cs then [(S (fst st), s')] else []
      | EmptyString => []
      end
  | Bol => match fst st with O => [st] | S _ => [] end
  | Eol =>
      match snd st with
      | EmptyString => [st]
      | String d EmptyString => if Ascii.eqb d newline then [st] else []
      | _ => []
      end
  | Seq r1 r2 => flat_map (ends r2) (ends r1 st)
  | Alt r1 r2 => ends r1 st ++ ends r2 st
  | Star r1 => star_iter (ends r1) (String.length (snd st)) st
  | Plus r1 =>
      flat_map (star_iter (ends r1) (String.length (snd st))) (ends r1 st)
  end.

Definition matches_at (r : regex) (st : state) : bool :=
  match ends r st with [] => false | _ :: _ => true end.

Fixpoint search_from (r : regex) (pos : nat) (s : string) : bool :=
  if matches_at r (pos, s) then true
  else match s with
       | EmptyString => false
       | String _ s' => search_from r (S pos) s'
       end.

(** [bool(re.search(r, s))], also [bool(re.findall(r, s))]. *)
Definition search (r : regex) (s : string) : bool := search_from r 0 s.

End Re.

(** ** Bytes, base64 and UTF-8 *)

Module Codec.

Definition b2n (b : byte) : N := N_of_ascii (ascii_of_byte b).
Definition n2b (n : N) : byte := byte_of_ascii (ascii_of_N n).

(** The base64 alphabet: the value of a character, if it has one. *)
Definition b64_value (c : ascii) : option N :=
  let n := N_of_ascii c in
  if (65 <=? n)%N && (n <=? 90)%N then Some (n - 65)%N          (* A-Z *)
  else if (97 <=? n)%N && (n <=? 122)%N then Some (n - 71)%N    (* a-z *)
  else if (48 <=? n)%N && (n <=? 57)%N then Some (n + 4)%N      (* 0-9 *)
  else if (n =? 43)%N then Some 62%N                            (* + *)
  else if (n =? 47)%N then Some 63%N                            (* / *)
  else None.

(** [binascii.a2b_base64] in its default, non-strict mode: characters
    outside the alphabet are skipped, a pad sequence that completes a
    quad ends the decoding, and input that stops inside a quad is an
    error ([None], binascii.Error). *)
Fixpoint a2b_go (s : string) (quad_pos : nat) (leftchar : N) (pads : nat)
  (out : list byte) : option (list byte) :=
  match s with
  | EmptyString => if Nat.eqb quad_pos 0 then Some (rev out) else None
  | String c s' =>
      if Ascii.eqb c "="%char then
        if Nat.leb 2 quad_pos then
          if Nat.leb 4 (quad_pos + S pads) then Some (rev out)
          else a2b_go s' quad_pos leftchar (S pads) out
        else a2b_go s' quad_pos leftchar pads out
      else
        match b64_value c with
        | None => a2b_go s' quad_pos leftchar pads out
        | Some v =>
            match quad_pos with
            | 0 => a2b_go s' 1 v 0 out
            | 1 => a2b_go s' 2 (N.land v 15) 0
                     (n2b (N.lor (N.shiftl leftchar 2) (N.shiftr v 4)) :: out)
            | 2 => a2b_go s' 3 (N.land v 3) 0
                     (n2b (N.lor (N.shiftl leftchar 4) (N.shiftr v 2)) :: out)
            | _ => a2b_go s' 0 0 0
                     (n2b (N.lor (N.shiftl leftchar 6) v) :: out)
            end
        end
  end.

Fixpoint is_ascii (s : string) : bool :=
  match s with
  | EmptyString => true
  | String c s' => (N_of_ascii c <? 128)%N && is_ascii s'
  end.

(** Outcome of [base64.b64decode(s)] on a [str]: a non-ASCII character
    is a ValueError, malformed input a binascii.Error. *)
Inductive b64_result : Type :=
| B64Bytes (bs : list byte)
| B64NotAscii
| B64Malformed.

Definition b64decode (s : string) : b64_result :=
  if is_ascii s then
    match a2b_go s 0 0 0 [] with
    | Some bs => B64Bytes bs
    | None => B64Malformed
    end
  else B64NotAscii.

(** Continuation byte [10xxxxxx]: its six payload bits. *)
Definition cont (b : byte) : option N :=
  let n := b2n b in
  if (128 <=? n)%N && (n <=? 191)%N then Some (n - 128)%N else None.

(** One step of the strict UTF-8 decoder of [bytes.decode("utf-8")]:
    the code point at the head of [bs] and the number of bytes it
    takes.  Overlong forms, surrogates, code points above U+10FFFF,
    stray continuation bytes and truncated sequences are refused. *)
Definition utf8_head (bs : list byte) : option (N * nat) :=
  match bs with
  | [] => None
  | b0 :: t =>
      let n0 := b2n b0 in
      if (n0 <? 128)%N then Some (n0, 1)
      else if (194 <=? n0)%N && (n0 <=? 223)%N then
        match t with
        | b1 :: _ =>
            match cont b1 with
            | Some c1 => Some (((n0 - 192) * 64 + c1)%N, 2)
            | None => None
            end
        | _ => None
        end
      else if (224 <=? n0)%N && (n0 <=? 239)%N then
        match t with
        | b1 :: b2 :: _ =>
            match cont b1, cont b2 with
            | Some c1, Some c2 =>
                let cp := ((n0 - 224) * 4096 + c1 * 64 + c2)%N in
                if (cp <? 2048)%N then None
                else if (55296 <=? cp)%N && (cp <=? 57343)%N then None
                else Some (cp, 3)
            | _, _ => None
            end
        | _ => None
        end
      else if (240 <=? n0)%N && (n0 <=? 244)%N then
        match t with
        | b1 :: b2 :: b3 :: _ =>
            match cont b1, cont b2, cont b3 with
            | Some c1, Some c2, Some c3 =>
                let cp := ((n0 - 240) * 262144 + c1 * 4096 + c2 * 64 + c3)%N in
                if (cp <? 65536)%N then None
                else if (1114111 <? cp)%N then None
                else Some (cp, 4)
            | _, _, _ => None
            end
        | _ => None
        end
      else None
  end.

(** [bs.decode("utf-8")]: the code points, or [None] for
    UnicodeDecodeError.  [fuel] bounds the number of code points. *)
Fixpoint utf8_decode_go (fuel : nat) (bs : list byte) : option (list N) :=
  match bs with
  | [] => Some []
  | _ :: _ =>
      match fuel with
      | O => None
      | S f =>
          match utf8_head bs with
          | None => None
          | Some (cp, k) =>
              match utf8_decode_go f (drop k bs) with
              | Some cps => Some (cp :: cps)
              | None => None
              end
          end
      end
  end.

Definition utf8_decode (bs : list byte) : option (list N) :=
  utf8_decode_go (length bs) bs.

(** The UTF-8 encoding of one code point. *)
Definition utf8_encode1 (cp : N) : list byte :=
  if (cp <? 128)%N then [n2b cp]
  else if (cp <? 2048)%N then
    [n2b (192 + cp / 64); n2b (128 + cp mod 64)]%N
  else if (cp <? 65536)%N then
    [n2b (224 + cp / 4096); n2b (128 + (cp / 64) mod 64);
     n2b (128 + cp mod 64)]%N
  else
    [n2b (240 + cp / 262144); n2b (128 + (cp / 4096) mod 64);
     n2b (128 + (cp / 64) mod 64); n2b (128 + cp mod 64)]%N.

(** [text.encode("utf-8")] *)
Definition utf8_encode (cps : list N) : list byte :=
  flat_map utf8_encode1 cps.

End Codec.

(** ** The world: file system, packages, network and processes *)

Module Py.

(** The exceptions the module can meet. *)
Inductive exn : Type :=
| IndexError
| KeyError
| TypeError
| AssertionError
| RecursionError
| ValueError (msg : string)
| BinasciiError
| UnicodeDecodeError
| URLError
| FileNotFoundError
| NotADirectoryError
| IsADirectoryError
| FileExistsError
| OSError
| PermissionError
| CalledProcessError
| ImportError
| ModuleNotFoundError
| AttributeError
| InvalidVersion
| PyException (msg : string).

Inductive res (A : Type) : Type :=
| Ok (a : A)
| Raise (e : exn).
Arguments Ok {A} a.
Arguments Raise {A} e.

(** A file-system object.  [mode] holds the permission bits. *)
Inductive node : Type :=
| Dir
| File (content : list byte) (mode : Z).

(** The state the module reads and changes.
    - [fs]: the objects of the file system, keyed by their absolute path
      as a list of components; the root [[]] is always a directory;
    - [pkgs]: the importable top-level modules, each with its
      [__version__] attribute if it has one;
    - [requests]: the URLs requested so far, oldest first;
    - [procs]: the argument vectors of the subprocesses started so far. *)
Record World : Type := mkWorld {
  fs : gmap (list string) node;
  pkgs : gmap string (option string);
  requests : list string;
  procs : list (list string)
}.

(** One record of a tree listing, of a blob and of a contents listing
    (the JSON shapes of the hosting API). *)
Record TreeEntry : Type := mkTreeEntry {
  te_path : string;
  te_mode : string;
  te_url : string
}.

Record Blob : Type := mkBlob {
  blob_encoding : string;
  blob_content : string
}.

(** [ce_download_url]: [None] when the key is absent, [Some None] when
    it is [null].  [ce_submodule]: is the key "submodule_git_url" there. *)
Record ContentsEntry : Type := mkContentsEntry {
  ce_name : string;
  ce_download_url : option (option string);
  ce_submodule : bool
}.

Inductive Contents : Type :=
| ContentsList (l : list ContentsEntry)
| ContentsObject (submodule_git_url : option string) (git_url : option string).

(** What the code does not own: the process environment, the remote
    API, the external programs and packaging.version.  A remote call
    answers [None] on a transport or JSON failure.  [is_program] tells
    the file contents the kernel accepts as a program (a binary format
    or a "#!" line); the working directory, as [os.getcwd] gives it,
    has no NUL character. *)
Record Env : Type := mkEnv {
  cwd : string;
  cwd_no_nul : PyStr.mem_char "000"%char cwd = false;
  path_dirs : list string;
  is_program : list byte -> bool;
  sys_executable : string;
  create_mode : Z;
  tree_api : string -> option (list TreeEntry);
  blob_api : string -> option Blob;
  contents_api : string -> option Contents;
  raw_get : string -> option (list byte);
  proc_run : list string -> World -> Z * World;
  Version : Type;
  version_parse : string -> option Version;
  version_gt : Version -> Version -> bool
}.

Existing Class Env.

Definition M (A : Type) : Type := World -> res A * World.

Definition ret {A} (a : A) : M A := fun w => (Ok a, w).
Definition raise {A} (e : exn) : M A := fun w => (Raise e, w).
Definition bind {A B} (m : M A) (k : A -> M B) : M B :=
  fun w => match m w with
           | (Ok a, w') => k a w'
           | (Raise e, w') => (Raise e, w')
           end.

(** [try: m except <the exceptions h accepts>: ...] *)
Definition catch {A} (m : M A) (h : exn -> option (M A)) : M A :=
  fun w => match m w with
           | (Ok a, w') => (Ok a, w')
           | (Raise e, w') =>
               match h e with
               | Some k => k w'
               | None => (Raise e, w')
               end
           end.

Definition get_world : M World := fun w => (Ok w, w).
Definition set_fs (f : gmap (list string) node) : M unit :=
  fun w => (Ok tt, mkWorld f (pkgs w) (requests w) (procs w)).

Declare Scope py_scope.
Delimit Scope py_scope with py.
Notation "x <- m ;; k" := (bind m (fun x => k))
  (at level 100, m at next level, right associativity) : py_scope.
Notation "m ;;; k" := (bind m (fun _ => k))
  (at level 100, right associativity) : py_scope.
Local Open Scope py_scope.

(** [for x in l: body x] *)
Fixpoint for_each {A} (l : list A) (body : A -> M unit) : M unit :=
  match l with
  | [] => ret tt
  | x :: l' => body x ;;; for_each l' body
  end.

(** *** Paths *)

Definition nonempty (s : string) : bool := negb (String.eqb s "").

(** The components of a path string. *)
Definition comps (p : string) : list string :=
  List.filter nonempty (PyStr.split "/" p).

(** The absolute component list a path string denotes.  The
    components "." and ".." get no special treatment. *)
Definition resolve (E : Env) (p : string) : list string :=
  if PyStr.startswith "/" p then comps p else comps (cwd E) ++ comps p.

Definition lookup_node (f : gmap (list string) node) (k : list string)
  : option node :=
  match k with
  | [] => Some Dir
  | _ :: _ => f !! k
  end.

(** The names of the objects directly inside directory [k], in the
    order of the keys; [os.listdir] promises no order. *)
Definition children (f : gmap (list string) node) (k : list string)
  : list string :=
  omap (fun kv : list string * node =>
          match reverse (fst kv) with
          | n :: rp => if decide (reverse rp = k) then Some n else None
          | [] => None
          end)
       (map_to_list f).

(** A name a directory can hold: not empty and without a slash. *)
Definition wf_name (n : string) : bool :=
  nonempty n && negb (PyStr.mem_char "/" n).

(** Every component of every path of the file system is such a name. *)
Definition wf_fs (f : gmap (list string) node) : bool :=
  forallb (fun kv : list string * node => forallb wf_name (fst kv))
          (map_to_list f).

Section WithEnv.
Context {E : Env}.

(** [os.path.isdir], [os.path.isfile] *)
Definition isdir (p : string) : M bool :=
  fun w => (Ok match lookup_node (fs w) (resolve E p) with
               | Some Dir => true
               | _ => false
               end, w).

Definition isfile (p : string) : M bool :=
  fun w => (Ok match lookup_node (fs w) (resolve E p) with
               | Some (File _ _) => true
               | _ => false
               end, w).

(** [os.listdir] *)
Definition listdir (p : string) : M (list string) :=
  fun w => match lookup_node (fs w) (resolve E p) with
           | Some Dir => (Ok (children (fs w) (resolve E p)), w)
           | Some (File _ _) => (Raise NotADirectoryError, w)
           | None => (Raise FileNotFoundError, w)
           end.

(** Create the directories [done ++ [c1]], [done ++ [c1; c2]], ... that
    do not exist yet. *)
Fixpoint mkdirs (f : gmap (list string) node) (done todo : list string)
  : res (gmap (list string) node) :=
  match todo with
  | [] => Ok f
  | c :: todo' =>
      let k := done ++ [c] in
      match lookup_node f k with
      | Some Dir => mkdirs f k todo'
      | Some (File _ _) =>
          Raise match todo' with
                | [] => FileExistsError
                | _ :: _ => NotADirectoryError
                end
      | None => mkdirs (<[k := Dir]> f) k todo'
      end
  end.

(** [os.makedirs(p, exist_ok=True)] *)
Definition makedirs (p : string) : M unit :=
  if String.eqb p "" then raise FileNotFoundError
  else
    w <- get_world ;;
    match mkdirs (fs w) [] (resolve E p) with
    | Ok f => set_fs f
    | Raise e => raise e
    end.

(** A string with a NUL character, which no system call takes. *)
Definition has_nul (s : string) : bool := PyStr.mem_char "000"%char s.

(** [open(p, 'w')] or [open(p, 'wb')]: the file is created, or
    emptied if it exists. *)
Definition open_w (p : string) : M unit :=
  if String.eqb p "" then raise FileNotFoundError
  else if has_nul p then raise (ValueError "embedded null byte")
  else if PyStr.endswith "/" p then raise IsADirectoryError
  else
    w <- get_world ;;
    let k := resolve E p in
    match lookup_node (fs w) k with
    | Some Dir => raise IsADirectoryError
    | Some (File _ m) => set_fs (<[k := File [] m]> (fs w))
    | None =>
        match lookup_node (fs w) (removelast k) with
        | Some Dir => set_fs (<[k := File [] (create_mode E)]> (fs w))
        | Some (File _ _) => raise NotADirectoryError
        | None => raise FileNotFoundError
        end
    end.

(** [open(p, 'a')]: the file is created if it is not there and its
    content is kept if it is. *)
Definition open_a (p : string) : M unit :=
  if String.eqb p "" then raise FileNotFoundError
  else if has_nul p then raise (ValueError "embedded null byte")
  else if PyStr.endswith "/" p then raise IsADirectoryError
  else
    w <- get_world ;;
    let k := resolve E p in
    match lookup_node (fs w) k with
    | Some Dir => raise IsADirectoryError
    | Some (File _ _) => ret tt
    | None =>
        match lookup_node (fs w) (removelast k) with
        | Some Dir => set_fs (<[k := File [] (create_mode E)]> (fs w))
        | Some (File _ _) => raise NotADirectoryError
        | None => raise FileNotFoundError
        end
    end.

(** [f.write(bs)] then the closing of a file opened by [open_w]. *)
Definition write_bytes (p : string) (bs : list byte) : M unit :=
  w <- get_world ;;
  let k := resolve E p in
  match lookup_node (fs w) k with
  | Some (File c m) => set_fs (<[k := File (c ++ bs) m]> (fs w))
  | _ => raise OSError
  end.

(** [os.chmod(p, os.stat(p).st_mode | bits)] *)
Definition chmod_or (p : string) (bits : Z) : M unit :=
  w <- get_world ;;
  let k := resolve E p in
  match lookup_node (fs w) k with
  | Some (File c m) => set_fs (<[k := File c (Z.lor m bits)]> (fs w))
  | Some Dir => ret tt
  | None => raise FileNotFoundError
  end.

Definition is_prefix_of (a b : list string) : bool :=
  bool_decide (take (length a) b = a).

(** Move the object at [src], with all it contains, to [dst]. *)
Definition move_tree (f : gmap (list string) node) (src dst : list string)
  : gmap (list string) node :=
  list_to_map
    (List.map (fun kv : list string * node =>
                 if is_prefix_of src (fst kv)
                 then (dst ++ drop (length src) (fst kv), snd kv)
                 else kv)
              (map_to_list f)).

(** [os.rename(src, dst)] *)
Definition rename (src dst : string) : M unit :=
  w <- get_world ;;
  let ks := resolve E src in
  let kd := resolve E dst in
  match ks, lookup_node (fs w) ks with
  | [], _ => raise OSError
  | _, None => raise FileNotFoundError
  | _, Some sn =>
      match lookup_node (fs w) (removelast kd) with
      | None => raise FileNotFoundError
      | Some (File _ _) => raise NotADirectoryError
      | Some Dir =>
          if bool_decide (ks = kd) then ret tt
          else
            match sn, lookup_node (fs w) kd with
            | File _ _, Some Dir =>
                if is_prefix_of kd ks then raise OSError
                else raise IsADirectoryError
            | File _ _, _ => set_fs (move_tree (delete kd (fs w)) ks kd)
            | Dir, Some (File _ _) => raise NotADirectoryError
            | Dir, Some Dir =>
                if is_prefix_of ks kd then raise OSError
                else match children (fs w) kd with
                     | [] => set_fs (move_tree (delete kd (fs w)) ks kd)
                     | _ :: _ => raise OSError
                     end
            | Dir, None =>
                if is_prefix_of ks kd then raise OSError
                else set_fs (move_tree (fs w) ks kd)
            end
      end
  end.

(** [os.rmdir] *)
Definition rmdir (p : string) : M unit :=
  w <- get_world ;;
  let k := resolve E p in
  match k, lookup_node (fs w) k with
  | [], _ => raise OSError
  | _, None => raise FileNotFoundError
  | _, Some (File _ _) => raise NotADirectoryError
  | _, Some Dir =>
      match children (fs w) k with
      | [] => set_fs (delete k (fs w))
      | _ :: _ => raise OSError
      end
  end.

(** *** Network *)

Definition log_request (url : string) : M unit :=
  fun w => (Ok tt, mkWorld (fs w) (pkgs w) (requests w ++ [url]) (procs w)).

Definition answer {A} (r : option A) : M A :=
  match r with
  | Some a => ret a
  | None => raise URLError
  end.

(** [json.loads(urllib.request.urlopen(url).read().decode("utf-8"))] at
    a tree, a blob and a contents endpoint. *)
Definition get_tree (url : string) : M (list TreeEntry) :=
  log_request url ;;; answer (tree_api E url).

Definition get_blob (url : string) : M Blob :=
  log_request url ;;; answer (blob_api E url).

Definition get_contents (url : string) : M Contents :=
  log_request url ;;; answer (contents_api E url).

(** [urllib.request.urlretrieve(url, dest)] *)
Definition urlretrieve (url dest : string) : M unit :=
  log_request url ;;;
  bs <- answer (raw_get E url) ;;
  open_w dest ;;;
  write_bytes dest bs.

(** *** Subprocesses *)

(** What [execve] answers for the file at [k]: [None] when the file
    is run, or the error.  A file needs one of the execute bits 0o111
    and a content the kernel accepts. *)
Definition exec_error (f : gmap (list string) node) (k : list string)
  : option exn :=
  match lookup_node f k with
  | None => Some FileNotFoundError
  | Some Dir => Some PermissionError
  | Some (File c m) =>
      if Z.eqb (Z.land m 73) 0 then Some PermissionError
      else if is_program E c then None
      else Some OSError
  end.

Definition is_exec_file (f : gmap (list string) node) (k : list string) : bool :=
  match exec_error f k with
  | None => true
  | Some _ => false
  end.

(** The files [subprocess] tries for [prog], in order: a name with a
    slash is taken as it is, any other is joined to each directory of
    the execution path. *)
Definition exec_candidates (prog : string) : list string :=
  if PyStr.contains "/" prog then [prog]
  else List.map (fun d => PyStr.path_join d prog) (path_dirs E).

(** The program file that is run for [prog]: the first candidate that
    can be executed. *)
Definition which (f : gmap (list string) node) (prog : string) : option string :=
  List.find (fun p => is_exec_file f (resolve E p)) (exec_candidates prog).

(** The error when no candidate can be executed: that of the first
    candidate that exists, FileNotFoundError when none does. *)
Fixpoint exec_failure (f : gmap (list string) node) (cands : list string) : exn :=
  match cands with
  | [] => FileNotFoundError
  | p :: cands' =>
      match exec_error f (resolve E p) with
      | Some FileNotFoundError | None => exec_failure f cands'
      | Some e => e
      end
  end.

Definition log_proc (argv : list string) (w : World) : World :=
  mkWorld (fs w) (pkgs w) (requests w) (procs w ++ [argv]).

(** Start [argv] and wait for it: its exit status.  The arguments are
    converted before anything is looked for. *)
Definition spawn (argv : list string) : M Z :=
  match argv with
  | [] => raise IndexError
  | prog :: _ =>
      if existsb has_nul argv then raise (ValueError "embedded null byte")
      else
        w <- get_world ;;
        match which (fs w) prog with
        | None => raise (exec_failure (fs w) (exec_candidates prog))
        | Some _ =>
            fun w0 => let r := proc_run E argv (log_proc argv w0) in
                      (Ok (fst r), snd r)
        end
  end.

(** [subprocess.check_output(argv)], its output dropped. *)
Definition check_output (argv : list string) : M unit :=
  st <- spawn argv ;;
  if Z.eqb st 0 then ret tt else raise CalledProcessError.

(** [subprocess.call(argv)] *)
Definition call (argv : list string) : M Z := spawn argv.

(** [os.path.abspath(p)] for a path without "." and ".." *)
Definition abspath (p : string) : string := PyStr.path_join (cwd E) p.

(** *** The import system and packaging.version

    [pkgs] holds the modules the interpreter can import, by name, each
    with its [__version__] if it has one. *)

(** [name.rpartition('.')[0]]: the text before the last dot. *)
Definition parent_name (name : string) : string :=
  PyStr.join "." (PyStr.but_last (PyStr.split "." name)).

(** [importlib.util.find_spec(name) is None].  A module that can be
    imported is found.  For any other name, a leading dot is refused
    (no package is given), and the parent package of a dotted name is
    imported first, which fails when it is missing; a parent that is
    there is taken to be a package. *)
Definition find_spec_is_none (name : string) : M bool :=
  w <- get_world ;;
  match pkgs w !! name with
  | Some _ => ret false
  | None =>
      if PyStr.startswith "." name then raise ImportError
      else if String.eqb (parent_name name) "" then ret true
      else
        match pkgs w !! parent_name name with
        | Some _ => ret true
        | None => raise ModuleNotFoundError
        end
  end.

(** [importlib.import_module(name).__version__] *)
Definition import_module_version (name : string) : M string :=
  w <- get_world ;;
  match pkgs w !! name with
  | None => raise ModuleNotFoundError
  | Some None => raise AttributeError
  | Some (Some v) => ret v
  end.

(** [version.parse(s)] *)
Definition parse (s : string) : M (Version E) :=
  match version_parse E s with
  | Some v => ret v
  | None => raise InvalidVersion
  end.

End WithEnv.
End Py.

(** ** utils.py *)

Module Utils.
Import Py.
Local Open Scope py_scope.

Section WithEnv.
Context {E : Env}.

(** [plug_debug]: the line is appended to plugin_debug.log in the
    working directory, as UTF-8 text. *)
Definition plug_debug (line : string) : M unit :=
  let p := PyStr.path_join (cwd E) "plugin_debug.log" in
  open_a p ;;; write_bytes p (String.list_byte_of_string line).

(** [create_dir]: the directory is made by the external [mkdir -p],
    whose exit status [subprocess.call] returns and the code drops. *)
Definition create_dir (abs_path : string) : M unit :=
  d <- isdir abs_path ;;
  if negb d then (_ <- call ["mkdir"; "-p"; abs_path] ;; ret tt) else ret tt.

(** [stat.S_IEXEC], 0o100 *)
Definition S_IEXEC : Z := 64.

Definition make_executable (abs_path : string) : M unit :=
  chmod_or abs_path S_IEXEC.

Definition b64decode (s : string) : M (list byte) :=
  match Codec.b64decode s with
  | Codec.B64Bytes bs => ret bs
  | Codec.B64NotAscii => raise (ValueError "string argument should contain only ASCII characters")
  | Codec.B64Malformed => raise BinasciiError
  end.

(** [content.decode("utf-8")] *)
Definition decode_utf8 (bs : list byte) : M (list N) :=
  match Codec.utf8_decode bs with
  | Some text => ret text
  | None => raise UnicodeDecodeError
  end.

(** [write_file].  The file is opened in text mode before the payload
    is decoded; the text written is encoded as UTF-8 (the encoding of
    the locale) and newlines are left as they are (a POSIX system). *)
Definition write_file (file_path b64_string : string) : M unit :=
  open_w file_path ;;;
  content <- b64decode b64_string ;;
  text <- decode_utf8 content ;;
  write_bytes file_path (Codec.utf8_encode text).

(** The pattern [^.*\.cpp|\.c|\.go$].  Alternation binds weakest, so
    its three branches are [^.*\.cpp], [\.c] and [\.go$]. *)
Definition source_file_pattern : Re.regex :=
  Re.Alt (Re.Seq Re.Bol (Re.Seq (Re.Star Re.Any) (Re.lit ".cpp")))
         (Re.Alt (Re.lit ".c")
                 (Re.Seq (Re.lit ".go") Re.Eol)).

(** The condition of the list comprehension of [get_main_file]. *)
Definition is_candidate (install_path f : string) : M bool :=
  isf <- isfile (PyStr.path_join install_path f) ;;
  ret (isf && negb (Re.search source_file_pattern
                              (PyStr.path_join install_path f))).

Fixpoint candidates (install_path : string) (content : list string)
  : M (list string) :=
  match content with
  | [] => ret []
  | f :: content' =>
      keep <- is_candidate install_path f ;;
      rest <- candidates install_path content' ;;
      ret (if keep then f :: rest else rest)
  end.

(** The inner loop: does some possible filename occur in [filename]. *)
Fixpoint matches_any (possible_filenames : list string) (filename : string)
  : bool :=
  match possible_filenames with
  | [] => false
  | possible_filename :: rest =>
      if PyStr.contains possible_filename filename then true
      else matches_any rest filename
  end.

(** The outer loop over the candidate files. *)
Fixpoint scan (possible_filenames : list string) (install_path : string)
  (files : list string) : option string :=
  match files with
  | [] => None
  | filename :: files' =>
      if matches_any possible_filenames filename
      then Some (PyStr.path_join install_path filename)
      else scan possible_filenames install_path files'
  end.

(** [get_main_file]: [None] is the "not found" result. *)
Definition get_main_file (possible_filenames : list string)
  (install_path : string) : M (option string) :=
  content <- listdir install_path ;;
  r <- match content with
       | [c0] =>
           let tmp_file := PyStr.path_join install_path c0 in
           d <- isdir tmp_file ;;
           if negb d then ret (inl tmp_file)
           else
             inner <- listdir tmp_file ;;
             for_each inner
               (fun f => rename (PyStr.path_join tmp_file f)
                                (PyStr.path_join install_path f)) ;;;
             rmdir tmp_file ;;;
             content' <- listdir install_path ;;
             ret (inr content')
       | _ => ret (inr content)
       end ;;
  match r with
  | inl main => ret (Some main)
  | inr content =>
      files <- candidates install_path content ;;
      ret (scan possible_filenames install_path files)
  end.

(** The body of the loop of [dl_github_repo]. *)
Definition dl_github_element (install_path : string) (element : TreeEntry)
  : M unit :=
  match te_path element with
  | EmptyString => raise IndexError
  | String c0 _ =>
      if Ascii.eqb c0 "."%char then ret tt
      else if String.eqb (te_mode element) "040000" then ret tt
      else
        let abs_path := PyStr.path_join install_path (te_path element) in
        (if Nat.ltb 1 (length (PyStr.split "/" (te_path element))) then
           let subdirs :=
             PyStr.join "/" (PyStr.but_last (PyStr.split "/" abs_path)) in
           makedirs (PyStr.path_join install_path subdirs)
         else ret tt) ;;;
        blob_json <- get_blob (te_url element) ;;
        (if String.eqb (blob_encoding blob_json) "base64" then ret tt
         else raise AssertionError) ;;;
        write_file abs_path (blob_content blob_json) ;;;
        if String.eqb (te_mode element) "100755"
        then make_executable abs_path
        else ret tt
  end.

Definition dl_github_repo (install_path url : string) : M unit :=
  tree <- get_tree (url +:+ "?recursive=1") ;;
  for_each tree (dl_github_element install_path).

(** The pattern [[api.github.com/repos/]+[/contents/]+]: two character
    sets, each repeated once or more. *)
Definition contents_url_pattern : Re.regex :=
  Re.Seq (Re.Plus (Re.Set_ "api.github.com/repos/"))
         (Re.Plus (Re.Set_ "/contents/")).

(** The URL of a sub-folder:
    [url + name if url[:-1] == '/' else url + '/' + name]. *)
Definition child_url (url name : string) : string :=
  if String.eqb (PyStr.drop_last url) "/" then url +:+ name
  else url +:+ "/" +:+ name.

(** [dl_folder_from_github]; [depth] is the number of nested calls the
    interpreter still allows. *)
Fixpoint dl_folder_from_github (depth : nat) (install_path url : string)
  : M unit :=
  match depth with
  | O => raise RecursionError
  | S depth' =>
      if negb (Re.search contents_url_pattern url)
      then raise (ValueError "Unsupported url")
      else
        json_content <- get_contents url ;;
        match json_content with
        | ContentsObject (Some _) (Some git_url) =>
            dl_github_repo install_path git_url
        | ContentsObject (Some _) None => raise KeyError
        | ContentsObject None _ => raise (ValueError "Could not parse json")
        | ContentsList l =>
            for_each l
              (fun i =>
                 match ce_download_url i with
                 | Some (Some download_url) =>
                     urlretrieve download_url
                       (PyStr.path_join install_path (ce_name i))
                 | Some None =>
                     let new_install_path :=
                       PyStr.path_join install_path (ce_name i) in
                     create_dir new_install_path ;;;
                     dl_folder_from_github depth' new_install_path
                       (child_url url (ce_name i))
                 | None =>
                     if ce_submodule i
                     then raise TypeError (* a list indexed by a string *)
                     else ret tt
                 end)
        end
  end.

(** [pip install package] with the running interpreter. *)
Definition run_pip (package : string) : M unit :=
  check_output [sys_executable E; "-m"; "pip"; "install"; package].

Definition first_field (sep s : string) : string :=
  match PyStr.split sep s with
  | x :: _ => x
  | [] => ""
  end.

(** The name [pip_install] looks up: the text before "==", or before
    ">=" when the line has one. *)
Definition package_name_of (package : string) : string :=
  let package_name := first_field "==" package in
  if PyStr.contains ">=" package then first_field ">=" package
  else package_name.

Definition pip_install (package : string) : M unit :=
  let package_name := package_name_of package in
  none <- find_spec_is_none package_name ;;
  (if none then run_pip package else ret tt) ;;;
  if PyStr.contains "==" package then
    match PyStr.item (PyStr.split "==" package) 1 with
    | None => raise IndexError
    | Some declared =>
        package_version <- parse declared ;;
        catch
          (v <- import_module_version package_name ;;
           installed_version <- parse v ;;
           if version_gt E package_version installed_version
           then run_pip package
           else ret tt)
          (fun e => match e with
                    | AttributeError => Some (ret tt)
                    | _ => None
                    end)
    end
  else ret tt.

(** Universal newlines of a file read in text mode: "\r\n" and "\r"
    become "\n". *)
Fixpoint universal_newlines (s : string) : string :=
  match s with
  | EmptyString => EmptyString
  | String c s' =>
      if Ascii.eqb c "013"%char then
        match s' with
        | String d s'' =>
            if Ascii.eqb d "010"%char then String d (universal_newlines s'')
            else String "010"%char (universal_newlines s')
        | EmptyString => String "010"%char EmptyString
        end
      else String c (universal_newlines s')
  end.

(** The lines of a text, each with its newline, as the iteration over
    a file yields them. *)
Fixpoint lines_go (acc : string) (s : string) : list string :=
  match s with
  | EmptyString => if String.eqb acc "" then [] else [acc]
  | String c s' =>
      if Ascii.eqb c "010"%char
      then (acc +:+ String c EmptyString) :: lines_go "" s'
      else lines_go (acc +:+ String c EmptyString) s'
  end.

(** [open(p, 'r')] and the lines read from it.  A file that is not
    UTF-8 fails here as a whole; the interpreter decodes by blocks and
    fails at the faulty block. *)
Definition read_lines (p : string) : M (list string) :=
  w <- get_world ;;
  match lookup_node (fs w) (resolve E p) with
  | None => raise FileNotFoundError
  | Some Dir => raise IsADirectoryError
  | Some (File c _) =>
      match Codec.utf8_decode c with
      | None => raise UnicodeDecodeError
      | Some _ =>
          ret (lines_go "" (universal_newlines (String.string_of_list_byte c)))
      end
  end.

Definition handle_requirements (directory : string) : M unit :=
  content <- listdir directory ;;
  for_each content
    (fun filename =>
       if PyStr.contains "requirements" filename then
         ls <- read_lines (PyStr.path_join directory filename) ;;
         for_each ls
           (fun line =>
              if String.eqb line (String "010"%char EmptyString)
                 || String.eqb line " "
              then ret tt
              else pip_install line)
       else ret tt).

(** The first loop of [handle_compilation]: run [make] and return at
    the first name that is "Makefile"; [otherwise] is the rest of the
    function. *)
Fixpoint makefile_loop (content : list string) (otherwise : M unit) : M unit :=
  match content with
  | [] => otherwise
  | name :: content' =>
      if String.eqb name "Makefile" then check_output ["make"]
      else makefile_loop content' otherwise
  end.

Definition go_build : M unit :=
  catch
    (let go_bin := abspath "go" in check_output [go_bin; "build"])
    (fun e => match e with
              | FileNotFoundError | CalledProcessError =>
                  Some (raise (PyException
                    "Could not 'go build' the plugin, is golang installed ?"))
              | _ => None
              end).

Definition handle_compilation (directory : string) : M unit :=
  content <- listdir directory ;;
  makefile_loop content
    (for_each (List.filter (PyStr.contains ".") content)
       (fun filename =>
          match PyStr.item (PyStr.split "." filename) 1 with
          | None => raise IndexError
          | Some second =>
              if String.eqb second "go" then go_build else ret tt
          end)).

End WithEnv.
End Utils.

(** ** Concrete environments and worlds *)

Module Examples.
Import Py Utils.

(** A version as the numbers between the dots; [None] when the text
    has anything but digits and dots.  It only serves the examples. *)
Fixpoint digits_go (cur : option nat) (s : string) : option (list nat) :=
  match s with
  | EmptyString => match cur with Some n => Some [n] | None => None end
  | String c s' =>
      if Ascii.eqb c "."%char then
        match cur, digits_go None s' with
        | Some n, Some l => Some (n :: l)
        | _, _ => None
        end
      else
        match Ascii.is_nat c with
        | Some d => digits_go (Some (10 * default 0 cur + d)) s'
        | None => None
        end
  end.

Fixpoint release_gt (a b : list nat) : bool :=
  match a, b with
  | [], _ => false
  | x :: a', [] => negb (Nat.eqb x 0) || release_gt a' []
  | x :: a', y :: b' =>
      if Nat.ltb y x then true
      else if Nat.ltb x y then false
      else release_gt a' b'
  end.

(** A shell script, mode 0o755. *)
Definition exe : node := File (String.list_byte_of_string "#!/bin/sh") 493.
Definition plain (bs : list byte) : node := File bs 420.   (* mode 0o644 *)

(** A system with python3, make, go and mkdir in /usr/bin, a home
    directory and an empty plugin directory /plugins/p. *)
Definition base_fs : gmap (list string) node :=
  list_to_map
    [ (["usr"], Dir); (["usr"; "bin"], Dir);
      (["usr"; "bin"; "python3"], exe); (["usr"; "bin"; "make"], exe);
      (["usr"; "bin"; "go"], exe); (["usr"; "bin"; "mkdir"], exe);
      (["home"], Dir); (["home"; "user"], Dir);
      (["plugins"], Dir); (["plugins"; "p"], Dir) ].

Definition world_of (f : gmap (list string) node) : World := mkWorld f ∅ [] [].

(** An environment without a remote: every request fails, every
    program exits with status 0 and changes nothing. *)
Definition offline : Env := {|
  cwd := "/home/user";
  cwd_no_nul := eq_refl;
  path_dirs := ["/usr/bin"];
  is_program := fun c => match c with
                         | x23 :: x21 :: _ => true    (* "#!" *)
                         | _ => false
                         end;
  sys_executable := "/usr/bin/python3";
  create_mode := 420;
  tree_api := fun _ => None;
  blob_api := fun _ => None;
  contents_api := fun _ => None;
  raw_get := fun _ => None;
  proc_run := fun _ w => (0%Z, w);
  Version := list nat;
  version_parse := digits_go None;
  version_gt := release_gt
|}.

Definition with_tree (tree : list (string * list TreeEntry))
  (blobs : list (string * Blob)) : Env := {|
  cwd := cwd offline;
  cwd_no_nul := cwd_no_nul offline;
  path_dirs := path_dirs offline;
  is_program := is_program offline;
  sys_executable := sys_executable offline;
  create_mode := create_mode offline;
  tree_api := fun u => snd <$> List.find (fun kv => String.eqb (fst kv) u) tree;
  blob_api := fun u => snd <$> List.find (fun kv => String.eqb (fst kv) u) blobs;
  contents_api := contents_api offline;
  raw_get := raw_get offline;
  proc_run := proc_run offline;
  Version := Version offline;
  version_parse := version_parse offline;
  version_gt := version_gt offline
|}.

Definition with_contents (contents : list (string * Contents)) : Env := {|
  cwd := cwd offline;
  cwd_no_nul := cwd_no_nul offline;
  path_dirs := path_dirs offline;
  is_program := is_program offline;
  sys_executable := sys_executable offline;
  create_mode := create_mode offline;
  tree_api := tree_api offline;
  blob_api := blob_api offline;
  contents_api :=
    fun u => snd <$> List.find (fun kv => String.eqb (fst kv) u) contents;
  raw_get := raw_get offline;
  proc_run := proc_run offline;
  Version := Version offline;
  version_parse := version_parse offline;
  version_gt := version_gt offline
|}.

Definition tree_url : string := "https://api.example/trees/main".

(** A repository with the file a/b/c.py, whose blob is "hello". *)
Definition nested_tree : list TreeEntry :=
  [ mkTreeEntry "a" "040000" "https://api.example/blobs/0";
    mkTreeEntry "a/b" "040000" "https://api.example/blobs/1";
    mkTreeEntry "a/b/c.py" "100644" "https://api.example/blobs/2" ].

Definition nested_repo : Env :=
  with_tree [("https://api.example/trees/main?recursive=1", nested_tree)]
            [("https://api.example/blobs/2", mkBlob "base64" "aGVsbG8=")].

(** A repository with one file whose blob is the single byte 0xff. *)
Definition binary_repo : Env :=
  with_tree [("https://api.example/trees/main?recursive=1",
              [mkTreeEntry "logo.bin" "100644" "https://api.example/blobs/3"])]
            [("https://api.example/blobs/3", mkBlob "base64" "/w==")].

(** A repository whose listing is one directory entry. *)
Definition empty_dir_repo : Env :=
  with_tree [("https://api.example/trees/main?recursive=1",
              [mkTreeEntry "assets" "040000" "https://api.example/blobs/4"])]
            [].

(** A repository whose only blob has the encoding tag "utf-16". *)
Definition utf16_repo : Env :=
  with_tree [("https://api.example/trees/main?recursive=1",
              [mkTreeEntry "readme" "100644" "https://api.example/blobs/5"])]
            [("https://api.example/blobs/5", mkBlob "utf-16" "aGVsbG8=")].

(** A contents endpoint whose URL ends with a slash and lists one
    sub-folder. *)
Definition folder_url : string := "https://api.github.com/repos/o/r/contents/d/".

Definition folder_remote : Env :=
  with_contents
    [ (folder_url, ContentsList [mkContentsEntry "sub" (Some None) false]);
      ("https://api.github.com/repos/o/r/contents/d//sub", ContentsList []);
      ("https://api.github.com/repos/o/r/contents/d/sub", ContentsList []) ].

(** Plugin directories. *)
Definition css_plugin : gmap (list string) node :=
  <[ ["plugins"; "p"; "main.css"] := plain [] ]>
    (<[ ["plugins"; "p"; "notes.txt"] := plain [] ]> base_fs).

Definition cache_plugin : gmap (list string) node :=
  list_to_map
    [ (["home"], Dir); (["home"; "user"], Dir);
      (["home"; "user"; ".cache"], Dir);
      (["home"; "user"; ".cache"; "p"], Dir);
      (["home"; "user"; ".cache"; "p"; "main.py"], plain []);
      (["home"; "user"; ".cache"; "p"; "helper.py"], plain []) ].

(** A plugin directory holding the single directory wrapper, and one
    holding the single file plugin.rb. *)
Definition wrapped_plugin : gmap (list string) node :=
  list_to_map
    [ (["plugins"], Dir); (["plugins"; "p"], Dir);
      (["plugins"; "p"; "wrapper"], Dir);
      (["plugins"; "p"; "wrapper"; "main.py"], plain []);
      (["plugins"; "p"; "wrapper"; "readme.md"], plain []) ].

Definition unwrapped_plugin : gmap (list string) node :=
  list_to_map
    [ (["plugins"], Dir); (["plugins"; "p"], Dir);
      (["plugins"; "p"; "main.py"], plain []);
      (["plugins"; "p"; "readme.md"], plain []) ].

Definition single_file_plugin : gmap (list string) node :=
  list_to_map
    [ (["plugins"], Dir); (["plugins"; "p"], Dir);
      (["plugins"; "p"; "plugin.rb"], plain []) ].

Definition go_plugin (name : string) : gmap (list string) node :=
  <[ ["plugins"; "p"; name] := plain [] ]> base_fs.

(** The same with a program named go in the working directory. *)
Definition go_plugin_local_go (name : string) : gmap (list string) node :=
  <[ ["home"; "user"; "go"] := exe ]> (go_plugin name).

(** An interpreter where pip installs the distribution PyYAML, whose
    module is named yaml. *)
Definition pip_env : Env := {|
  cwd := cwd offline;
  cwd_no_nul := cwd_no_nul offline;
  path_dirs := path_dirs offline;
  is_program := is_program offline;
  sys_executable := sys_executable offline;
  create_mode := create_mode offline;
  tree_api := tree_api offline;
  blob_api := blob_api offline;
  contents_api := contents_api offline;
  raw_get := raw_get offline;
  proc_run := fun argv w =>
    if bool_decide (argv = ["/usr/bin/python3"; "-m"; "pip"; "install"; "PyYAML==5.1"])
    then (0%Z, mkWorld (fs w) (<["yaml" := Some "5.1"]> (pkgs w))
                       (requests w) (procs w))
    else (0%Z, w);
  Version := Version offline;
  version_parse := version_parse offline;
  version_gt := version_gt offline
|}.

(** An interpreter with a module requests that has no [__version__]. *)
Definition requests_world : World :=
  mkWorld base_fs {[ "requests" := None ]} [] [].

(** A repository with one executable script. *)
Definition exec_repo : Env :=
  with_tree [("https://api.example/trees/main?recursive=1",
              [mkTreeEntry "run.sh" "100755" "https://api.example/blobs/6"])]
            [("https://api.example/blobs/6", mkBlob "base64" "aGVsbG8=")].

(** A contents endpoint that lists two files, one of them binary. *)
Definition files_url : string := "https://api.github.com/repos/o/r/contents/img".

Definition files_listing : list ContentsEntry :=
  [ mkContentsEntry "logo.png" (Some (Some "https://raw.example/logo.png")) false;
    mkContentsEntry "LICENSE" (Some (Some "https://raw.example/LICENSE")) false ].

Definition files_remote : Env := {|
  cwd := cwd offline;
  cwd_no_nul := cwd_no_nul offline;
  path_dirs := path_dirs offline;
  is_program := is_program offline;
  sys_executable := sys_executable offline;
  create_mode := create_mode offline;
  tree_api := tree_api offline;
  blob_api := blob_api offline;
  contents_api :=
    fun u => if String.eqb u files_url then Some (ContentsList files_listing)
             else None;
  raw_get :=
    fun u => if String.eqb u "https://raw.example/logo.png"
             then Some [xff; xd8; xff]
             else if String.eqb u "https://raw.example/LICENSE"
                  then Some (String.list_byte_of_string "MIT")
                  else None;
  proc_run := proc_run offline;
  Version := Version offline;
  version_parse := version_parse offline;
  version_gt := version_gt offline
|}.

(** A plugin directory with several files. *)
Definition mixed_plugin : gmap (list string) node :=
  list_to_map
    [ (["plugins"], Dir); (["plugins"; "p"], Dir);
      (["plugins"; "p"; "README.md"], plain []);
      (["plugins"; "p"; "plugin_main.py"], plain []);
      (["plugins"; "p"; "main.go"], plain []);
      (["plugins"; "p"; "lib"], Dir) ].

Definition makefile_plugin : gmap (list string) node :=
  <[ ["plugins"; "p"; "Makefile"] := plain [] ]> (go_plugin "main.go").

Definition newline_string : string := String "010"%char EmptyString.

(** A plugin directory whose requirements.txt holds the line
    "requests", an empty line and a line of two spaces. *)
Definition requirements_plugin : gmap (list string) node :=
  <[ ["plugins"; "p"; "requirements.txt"] :=
       plain (String.list_byte_of_string
                ("requests" +:+ newline_string +:+ newline_string
                 +:+ "  " +:+ newline_string)) ]> base_fs.

(** A world whose debug log holds "a". *)
Definition log_world : World :=
  world_of (<[ ["home"; "user"; "plugin_debug.log"] :=
                 plain (String.list_byte_of_string "a") ]> base_fs).

(** An interpreter with the module requests at version 1.0. *)
Definition old_requests_world : World :=
  mkWorld base_fs {[ "requests" := Some "1.0" ]} [] [].

End Examples.

(** ** Vocabulary of the statements *)

Section Vocabulary.
Import Py Utils.
Context {E : Env}.

(** Every object of [f] is still there in [f']. *)
Definition extends (f f' : gmap (list string) node) : Prop :=
  forall k n, lookup_node f k = Some n -> lookup_node f' k = Some n.

(** Every object of [f] is still there in [f'], except perhaps the
    file at [t]. *)
Definition stable_except (t : list string) (f f' : gmap (list string) node)
  : Prop :=
  forall k n, lookup_node f k = Some n -> n = Dir \/ k <> t ->
              lookup_node f' k = Some n.

(** [m] changes the file system within [R], whatever its outcome. *)
Definition pres {A : Type} (R : relation (gmap (list string) node)) (m : M A)
  : Prop :=
  forall w r w', m w = (r, w') -> R (fs w) (fs w').

(** What [dl_github_element] does to an entry it fetches, once the
    parent directories are made. *)
Definition fetch_element (abs_path : string) (element : TreeEntry) : M unit :=
  (blob_json <- get_blob (te_url element) ;;
   (if String.eqb (blob_encoding blob_json) "base64" then ret tt
    else raise AssertionError) ;;;
   write_file abs_path (blob_content blob_json) ;;;
   if String.eqb (te_mode element) "100755"
   then make_executable abs_path
   else ret tt)%py.

(** The directories [dl_github_element] makes for an entry. *)
Definition make_parents (install_path : string) (element : TreeEntry) : M unit :=
  let abs_path := PyStr.path_join install_path (te_path element) in
  if Nat.ltb 1 (length (PyStr.split "/" (te_path element))) then
    makedirs (PyStr.path_join install_path
                (PyStr.join "/" (PyStr.but_last (PyStr.split "/" abs_path))))
  else ret tt.

Definition hidden (element : TreeEntry) : bool :=
  PyStr.startswith "." (te_path element).

Definition is_dir_entry (element : TreeEntry) : bool :=
  String.eqb (te_mode element) "040000".

(** OSError and its subclasses. *)
Definition os_error (e : exn) : Prop :=
  e = OSError \/ e = FileNotFoundError \/ e = NotADirectoryError
  \/ e = IsADirectoryError \/ e = FileExistsError \/ e = PermissionError.

(** The errors a subprocess call raises: an argument cannot be passed
    (ValueError), the program is missing or cannot be run (OSError and
    its subclasses), or it exits with a non-zero status. *)
Definition installer_error (e : exn) : Prop :=
  e = CalledProcessError \/ os_error e \/ exists msg, e = ValueError msg.

(** A module name that is not empty and has no dot: [find_spec] looks
    it up without importing anything. *)
Definition top_level (name : string) : bool :=
  negb (String.eqb name "") && negb (PyStr.mem_char "." name).

(** A path without the components "." and "..": such paths name the
    same file exactly when they have the same components. *)
Definition dot_free (p : string) : bool :=
  forallb (fun c => negb (String.eqb c "." || String.eqb c ".."))
          (PyStr.split "/" p).

End Vocabulary.

(** ** More vocabulary *)

Section VocabularyMore.
Import Py Utils.

(** The entries of a tree listing whose blob [dl_github_repo] requests:
    neither hidden nor a directory. *)
Definition fetched (element : TreeEntry) : bool :=
  negb (hidden element) && negb (is_dir_entry element).

(** A computation that sends nothing over the network. *)
Definition keeps_requests {A : Type} (m : M A) : Prop :=
  forall w r w', m w = (r, w') -> requests w' = requests w.

(** The joined paths the pattern of [get_main_file] rejects. *)
Definition excluded (s : string) : bool :=
  PyStr.contains ".c" s
  || PyStr.endswith ".go" s
  || PyStr.endswith (".go" +:+ String Re.newline "") s.

(** Is some character of the first set of the URL pattern directly
    followed by a character of its second set. *)
Fixpoint adjacent_pair (s : string) : bool :=
  match s with
  | String c1 t =>
      match t with
      | String c2 _ =>
          (PyStr.mem_char c1 "api.github.com/repos/"
           && PyStr.mem_char c2 "/contents/")
          || adjacent_pair t
      | EmptyString => false
      end
  | EmptyString => false
  end.

(** Are all characters of [s] in the set [cs]. *)
Fixpoint all_in (cs : string) (s : string) : bool :=
  match s with
  | EmptyString => true
  | String c s' => PyStr.mem_char c cs && all_in cs s'
  end.

(** The entries of a folder listing that carry a download URL. *)
Definition is_file_entry (i : ContentsEntry) : bool :=
  match ce_download_url i with
  | Some (Some _) => true
  | _ => false
  end.

(** The message of the exception of the Go branch. *)
Definition go_build_message : string :=
  "Could not 'go build' the plugin, is golang installed ?".

(** Is the second dot-separated field of a name "go". *)
Definition second_field_is_go (filename : string) : bool :=
  match PyStr.item (PyStr.split "." filename) 1 with
  | Some second => String.eqb second "go"
  | None => false
  end.

(** The lines of a requirements file that are installed. *)
Definition is_requirement (line : string) : bool :=
  negb (String.eqb line (String "010"%char EmptyString) || String.eqb line " ").

Context {E : Env}.

(** [os.path.isfile] as a predicate of the world. *)
Definition is_plain_file (w : World) (p : string) : bool :=
  match lookup_node (fs w) (resolve E p) with
  | Some (File _ _) => true
  | _ => false
  end.

(** The files [get_main_file] scans. *)
Definition scanned (install_path : string) (w : World) (f : string) : bool :=
  is_plain_file w (PyStr.path_join install_path f)
  && negb (excluded (PyStr.path_join install_path f)).

(** The body of the loop of [dl_folder_from_github] over a list. *)
Definition folder_entry (depth' : nat) (install_path url : string)
  (i : ContentsEntry) : M unit :=
  match ce_download_url i with
  | Some (Some download_url) =>
      urlretrieve download_url (PyStr.path_join install_path (ce_name i))
  | Some None =>
      let new_install_path := PyStr.path_join install_path (ce_name i) in
      bind (create_dir new_install_path)
           (fun _ => dl_folder_from_github depth' new_install_path
                       (child_url url (ce_name i)))
  | None => if ce_submodule i then raise TypeError else ret tt
  end.

(** The log file of [plug_debug]. *)
Definition debug_log : list string :=
  resolve E (PyStr.path_join (cwd E) "plugin_debug.log").

End VocabularyMore.

(** * Facts *)

Import Py Utils.

(** ** Strings and paths *)

Section StringFacts.

Lemma prefix_nil s : String.prefix "" s = true.
Proof. by destruct s. Qed.

Lemma prefix_app_l p a b : String.prefix p a = true -> String.prefix p (a +:+ b) = true.
Proof.
  revert a. induction p as [|c p IH]; intros a; [intros _; apply prefix_nil|].
  destruct a as [|d a]; [done|]. simpl. destruct (ascii_dec c d); [apply IH|done].
Qed.

Lemma contains_cons sub c s :
  PyStr.contains sub (String c s)
  = if String.prefix sub (String c s) then true else PyStr.contains sub s.
Proof. reflexivity. Qed.

Lemma contains_app_l sub a b :
  PyStr.contains sub a = true -> PyStr.contains sub (a +:+ b) = true.
Proof.
  induction a as [|c a IH].
  - destruct sub; [intros _|done]. destruct b; simpl; done.
  - change (String c a +:+ b) with (String c (a +:+ b)). rewrite !contains_cons.
    destruct (String.prefix sub (String c a)) eqn:P.
    + intros _. apply (prefix_app_l _ _ b) in P.
      change (String c a +:+ b) with (String c (a +:+ b)) in P. by rewrite P.
    + intros H. destruct (String.prefix sub (String c (a +:+ b))); [done|]. by apply IH.
Qed.

Lemma app_cons c (a b : string) : String c a +:+ b = String c (a +:+ b).
Proof. reflexivity. Qed.

Lemma app_assoc_s (a b c : string) : (a +:+ b) +:+ c = a +:+ (b +:+ c).
Proof. induction a as [|x a IH]; [done|]. by rewrite !app_cons, IH. Qed.

Lemma path_join_rel a f :
  PyStr.startswith "/" f = false ->
  PyStr.path_join a f = a +:+ f \/ PyStr.path_join a f = a +:+ "/" +:+ f.
Proof. intros H. unfold PyStr.path_join. rewrite H. destruct (_ || _); auto. Qed.

Lemma contains_path_join sub a f :
  PyStr.startswith "/" f = false -> PyStr.contains sub a = true ->
  PyStr.contains sub (PyStr.path_join a f) = true.
Proof.
  intros Hf Ha. destruct (path_join_rel a f Hf) as [-> | ->]; by apply contains_app_l.
Qed.

(** split on "/" *)
Lemma prefix_cons a p b s :
  String.prefix (String a p) (String b s)
  = if ascii_dec a b then String.prefix p s else false.
Proof. reflexivity. Qed.

Lemma split_go_cons sep acc c s :
  PyStr.split_go sep 0 acc (String c s)
  = if String.prefix sep (String c s)
    then acc :: PyStr.split_go sep (String.length sep - 1) "" s
    else PyStr.split_go sep 0 (acc +:+ String c "") s.
Proof. reflexivity. Qed.

Lemma split_go_slash acc s :
  PyStr.split_go "/" 0 acc (String "/" s) = acc :: PyStr.split_go "/" 0 "" s.
Proof.
  rewrite split_go_cons, prefix_cons, prefix_nil.
  by destruct (ascii_dec "/" "/").
Qed.

Lemma split_go_other acc c s : c <> "/"%char ->
  PyStr.split_go "/" 0 acc (String c s) = PyStr.split_go "/" 0 (acc +:+ String c "") s.
Proof.
  intros H. rewrite split_go_cons, prefix_cons.
  destruct (ascii_dec "/" c); [congruence|done].
Qed.

Lemma split_go_app acc x y :
  PyStr.split_go "/" 0 acc (x +:+ String "/" y)
  = PyStr.split_go "/" 0 acc x ++ PyStr.split_go "/" 0 "" y.
Proof.
  revert acc. induction x as [|c x IH]; intros acc.
  - change ("" +:+ String "/" y) with (String "/" y). by rewrite split_go_slash.
  - change (String c x +:+ String "/" y) with (String c (x +:+ String "/" y)).
    destruct (ascii_dec c "/") as [->|Hc].
    + rewrite !split_go_slash. rewrite <- app_comm_cons. f_equal. apply IH.
    + rewrite !split_go_other by done. apply IH.
Qed.

Lemma split_app x y :
  PyStr.split "/" (x +:+ "/" +:+ y) = PyStr.split "/" x ++ PyStr.split "/" y.
Proof. apply split_go_app. Qed.

Lemma comps_app x y : comps (x +:+ "/" +:+ y) = comps x ++ comps y.
Proof. unfold comps. rewrite split_app. apply List.filter_app. Qed.


Lemma mem_char_cons c d s :
  PyStr.mem_char c (String d s) = if Ascii.eqb c d then true else PyStr.mem_char c s.
Proof. reflexivity. Qed.

Lemma mem_char_app c a b :
  PyStr.mem_char c (a +:+ b) = PyStr.mem_char c a || PyStr.mem_char c b.
Proof.
  induction a as [|d a IH]; [done|]. rewrite app_cons, !mem_char_cons, IH.
  by destruct (Ascii.eqb c d).
Qed.

Lemma split_go_no_slash acc s :
  PyStr.mem_char "/" s = false ->
  PyStr.split_go "/" 0 acc s = [acc +:+ s].
Proof.
  revert acc. induction s as [|c s IH]; intros acc H.
  - simpl. f_equal. induction acc as [|x acc IHa]; [done|]. by rewrite app_cons, <- IHa.
  - rewrite mem_char_cons in H. destruct (Ascii.eqb_spec "/" c) as [|Hc]; [done|].
    rewrite split_go_other by congruence. rewrite IH by done.
    by rewrite app_assoc_s.
Qed.

Lemma split_go_fields acc s x :
  PyStr.mem_char "/" acc = false ->
  x ∈ PyStr.split_go "/" 0 acc s -> PyStr.mem_char "/" x = false.
Proof.
  revert acc. induction s as [|c s IH]; intros acc Hacc.
  - simpl. intros ->%list_elem_of_singleton. done.
  - destruct (ascii_dec c "/") as [->|Hc].
    + rewrite split_go_slash. intros [->|H]%elem_of_cons; [done|]. by apply (IH "").
    + rewrite split_go_other by done. apply IH.
      rewrite mem_char_app, Hacc, mem_char_cons.
      destruct (Ascii.eqb_spec "/" c); [congruence|done].
Qed.

Lemma split_fields s x : x ∈ PyStr.split "/" s -> PyStr.mem_char "/" x = false.
Proof. by apply split_go_fields. Qed.

Lemma split_go_nonnil acc s : PyStr.split_go "/" 0 acc s <> [].
Proof.
  revert acc. induction s as [|c s IH]; intros acc; [done|].
  destruct (ascii_dec c "/") as [->|Hc].
  - by rewrite split_go_slash.
  - rewrite split_go_other by done. apply IH.
Qed.

Lemma split_nonnil s : PyStr.split "/" s <> [].
Proof. apply split_go_nonnil. Qed.

Lemma join_cons x y l :
  PyStr.join "/" (x :: y :: l) = x +:+ "/" +:+ PyStr.join "/" (y :: l).
Proof. reflexivity. Qed.

Lemma split_join l :
  l <> [] -> Forall (fun x => PyStr.mem_char "/" x = false) l ->
  PyStr.split "/" (PyStr.join "/" l) = l.
Proof.
  induction l as [|x l IH]; [done|]. intros _ Hl.
  apply Forall_cons in Hl as [Hx Hl]. destruct l as [|y l].
  - unfold PyStr.split. simpl. by rewrite split_go_no_slash.
  - rewrite join_cons, split_app, IH by done.
    unfold PyStr.split. by rewrite split_go_no_slash.
Qed.

End StringFacts.

(** ** The UTF-8 codec *)

Section CodecFacts.
Import Codec.

Lemma n2b_b2n b : n2b (b2n b) = b.
Proof. unfold n2b, b2n. rewrite ascii_N_embedding. apply byte_of_ascii_of_byte. Qed.
Lemma b2n_lt b : (b2n b < 256)%N.
Proof. apply N_ascii_bounded. Qed.
Lemma cont_Some b c : cont b = Some c -> (b2n b = 128 + c /\ c < 64)%N.
Proof. unfold cont. intros H. destruct (_ && _) eqn:E; [|done]. inversion H; subst. apply andb_prop in E as [E1 E2].
  apply N.leb_le in E1, E2. lia. Qed.
Lemma n2b_eq n b : n = b2n b -> n2b n = b.
Proof. intros ->. apply n2b_b2n. Qed.

Lemma divmod_spec (x q r d : N) :
  (x = q * d + r -> r < d -> x / d = q /\ x mod d = r)%N.
Proof.
  intros -> Hr. split.
  - symmetry. apply (N.div_unique _ _ _ r); lia.
  - symmetry. apply (N.mod_unique _ _ q); lia.
Qed.

Ltac lead_case E :=
  apply andb_prop in E as [?Ea ?Eb]; apply N.leb_le in Ea, Eb.
Ltac ltb_case :=
  match goal with
  | |- context [(?a <? ?b)%N] =>
      let F := fresh "F" in
      destruct (a <? b)%N eqn:F;
      [apply N.ltb_lt in F | apply N.ltb_ge in F]; try done; try lia
  | |- context [(?a <=? ?b)%N] =>
      let F := fresh "F" in
      destruct (a <=? b)%N eqn:F;
      [apply N.leb_le in F | apply N.leb_gt in F]; try done; try lia
  end.

Lemma utf8_head_encode bs cp k :
  utf8_head bs = Some (cp, k) -> utf8_encode1 cp = take k bs /\ 0 < k <= length bs.
Proof.
  unfold utf8_head. destruct bs as [|b0 t]; [done|].
  pose proof (b2n_lt b0) as Hb0. cbv zeta.
  destruct (b2n b0 <? 128)%N eqn:E0.
  { intros [= <- <-]. unfold utf8_encode1. rewrite E0, n2b_b2n. simpl. split; [done|lia]. }
  apply N.ltb_ge in E0.
  destruct (_ && _) eqn:E1.
  { lead_case E1.
    destruct t as [|b1 t]; [done|]. destruct (cont b1) as [c1|] eqn:C1; [|done].
    apply cont_Some in C1 as [C1 C1'].
    intros [= <- <-]. unfold utf8_encode1. repeat ltb_case.
    destruct (divmod_spec ((b2n b0 - 192) * 64 + c1) (b2n b0 - 192) c1 64)
      as [D1 M1]; [lia..|].
    simpl. split; [|lia]. repeat f_equal; apply n2b_eq; lia. }
  clear E1. destruct (_ && _) eqn:E1.
  { lead_case E1.
    destruct t as [|b1 [|b2 t]]; [done..|].
    destruct (cont b1) as [c1|] eqn:C1; [|done].
    destruct (cont b2) as [c2|] eqn:C2; [|done].
    apply cont_Some in C1 as [C1 C1'], C2 as [C2 C2'].
    ltb_case. destruct (_ && _) eqn:E2; [done|].
    intros [= <- <-]. unfold utf8_encode1. repeat ltb_case.
    set (a := (b2n b0 - 224)%N) in *.
    set (cp := (a * 4096 + c1 * 64 + c2)%N) in *.
    destruct (divmod_spec cp a (c1 * 64 + c2) 4096) as [D1 _]; [lia..|].
    destruct (divmod_spec cp (a * 64 + c1) c2 64) as [D2 M2]; [lia..|].
    destruct (divmod_spec (a * 64 + c1) a c1 64) as [_ M3]; [lia..|].
    rewrite D1, D2, M2, M3.
    simpl. split; [|lia]. repeat f_equal; apply n2b_eq; lia. }
  clear E1. destruct (_ && _) eqn:E1; [|done].
  lead_case E1.
  destruct t as [|b1 [|b2 [|b3 t]]]; [done..|].
  destruct (cont b1) as [c1|] eqn:C1; [|done].
  destruct (cont b2) as [c2|] eqn:C2; [|done].
  destruct (cont b3) as [c3|] eqn:C3; [|done].
  apply cont_Some in C1 as [C1 C1'], C2 as [C2 C2'], C3 as [C3 C3'].
  do 2 ltb_case.
  intros [= <- <-]. unfold utf8_encode1. repeat ltb_case.
  set (a := (b2n b0 - 240)%N) in *.
  set (cp := (a * 262144 + c1 * 4096 + c2 * 64 + c3)%N) in *.
  destruct (divmod_spec cp a (c1 * 4096 + c2 * 64 + c3) 262144) as [D1 _]; [lia..|].
  destruct (divmod_spec cp (a * 64 + c1) (c2 * 64 + c3) 4096) as [D2 _]; [lia..|].
  destruct (divmod_spec (a * 64 + c1) a c1 64) as [_ M2]; [lia..|].
  destruct (divmod_spec cp (a * 4096 + c1 * 64 + c2) c3 64) as [D3 M3]; [lia..|].
  destruct (divmod_spec (a * 4096 + c1 * 64 + c2) (a * 64 + c1) c2 64) as [_ M4]; [lia..|].
  rewrite D1, D2, M2, D3, M3, M4.
  simpl. split; [|lia]. repeat f_equal; apply n2b_eq; lia.
Qed.

Lemma utf8_decode_go_encode fuel bs cps :
  utf8_decode_go fuel bs = Some cps -> utf8_encode cps = bs.
Proof.
  revert bs cps. induction fuel as [|f IH]; intros bs cps.
  - destruct bs; simpl; [by intros [= <-]|done].
  - destruct bs as [|b t]; [by intros [= <-]|].
    cbn [utf8_decode_go]. destruct (utf8_head (b :: t)) as [[cp k]|] eqn:H; [|done].
    destruct (utf8_decode_go f (drop k (b :: t))) as [r|] eqn:R; [|done].
    intros [= <-]. apply utf8_head_encode in H as [H _]. apply IH in R.
    unfold utf8_encode in *. cbn [flat_map]. rewrite H, R. apply take_drop.
Qed.

End CodecFacts.

(** ** The two patterns *)

Section ReFacts.

Lemma ends_alt r1 r2 st : Re.ends (Re.Alt r1 r2) st = Re.ends r1 st ++ Re.ends r2 st.
Proof. reflexivity. Qed.

Lemma ends_dot_c pos rest :
  Re.ends (Re.lit ".c") (pos, String "." (String "c" rest)) = [(S (S pos), rest)].
Proof. reflexivity. Qed.

Lemma prefix_dot_c s :
  String.prefix ".c" s = true -> exists rest, s = String "." (String "c" rest).
Proof.
  destruct s as [|a [|b rest]]; [done| |].
  - rewrite prefix_cons. by destruct (ascii_dec "." a).
  - rewrite !prefix_cons. destruct (ascii_dec "." a) as [<-|]; [|done].
    destruct (ascii_dec "c" b) as [<-|]; [|done]. eauto.
Qed.

Lemma matches_at_dot_c pos s :
  String.prefix ".c" s = true -> Re.matches_at source_file_pattern (pos, s) = true.
Proof.
  intros [rest ->]%prefix_dot_c. unfold Re.matches_at, source_file_pattern.
  rewrite !ends_alt, ends_dot_c.
  by destruct (Re.ends _ _).
Qed.

Lemma search_from_cons r pos c s :
  Re.search_from r pos (String c s)
  = if Re.matches_at r (pos, String c s) then true else Re.search_from r (S pos) s.
Proof. reflexivity. Qed.

Lemma search_from_dot_c pos s :
  PyStr.contains ".c" s = true -> Re.search_from source_file_pattern pos s = true.
Proof.
  revert pos. induction s as [|c s IH]; intros pos; [done|].
  rewrite contains_cons, search_from_cons.
  destruct (String.prefix ".c" (String c s)) eqn:P.
  - intros _. by rewrite matches_at_dot_c.
  - intros H. destruct (Re.matches_at _ _); [done|]. by apply IH.
Qed.

Lemma search_dot_c s :
  PyStr.contains ".c" s = true -> Re.search source_file_pattern s = true.
Proof. apply search_from_dot_c. Qed.

End ReFacts.

(** ** The file system and the entry-point resolver *)

Section FsFacts.
Context {E : Env}.

Lemma children_lookup (f : gmap (list string) node) k n :
  n ∈ children f k -> exists v, f !! (k ++ [n]) = Some v.
Proof.
  unfold children. intros [[key v] [Hin Hn]]%list_elem_of_omap.
  simpl in Hn. destruct (reverse key) as [|m rp] eqn:Hr; [done|].
  case_decide as Hk; [|done]. injection Hn as ->. exists v.
  apply elem_of_map_to_list in Hin.
  assert (key = k ++ [n]) as <-; [|done].
  rewrite <- (reverse_involutive key), Hr, reverse_cons. by rewrite Hk.
Qed.

Lemma wf_fs_lookup (f : gmap (list string) node) k v n :
  wf_fs f = true -> f !! k = Some v -> n ∈ k -> wf_name n = true.
Proof.
  unfold wf_fs. rewrite forallb_forall. intros Hwf Hk Hn.
  specialize (Hwf (k, v)). simpl in Hwf.
  rewrite forallb_forall in Hwf. apply Hwf.
  - apply list_elem_of_In. by apply elem_of_map_to_list.
  - by apply list_elem_of_In.
Qed.

Lemma wf_children (f : gmap (list string) node) k n :
  wf_fs f = true -> n ∈ children f k -> wf_name n = true.
Proof.
  intros Hwf [v Hv]%children_lookup. apply (wf_fs_lookup f _ v n Hwf Hv).
  apply elem_of_app. right. by apply list_elem_of_singleton.
Qed.

Lemma wf_name_relative n : wf_name n = true -> PyStr.startswith "/" n = false.
Proof.
  unfold wf_name. intros [_ H]%andb_prop. apply negb_true_iff in H.
  destruct n as [|c n]; [done|]. unfold PyStr.startswith. rewrite prefix_cons.
  rewrite mem_char_cons in H. destruct (Ascii.eqb_spec "/" c); [done|].
  by destruct (ascii_dec "/" c).
Qed.

Lemma listdir_ok p w content w' :
  listdir p w = (Ok content, w') ->
  w' = w /\ content = children (fs w) (resolve E p).
Proof.
  unfold listdir. destruct (lookup_node _ _) as [[|]|]; [|done..].
  by intros [= <- <-].
Qed.

Lemma candidates_all_excluded install content w :
  (forall f, f ∈ content ->
     Re.search source_file_pattern (PyStr.path_join install f) = true) ->
  candidates install content w = (Ok [], w).
Proof.
  induction content as [|f content IH]; intros H; [done|].
  cbn [candidates]. unfold bind at 1. unfold is_candidate, bind at 1, isfile at 1.
  rewrite (H f) by (apply elem_of_cons; auto). rewrite andb_false_r.
  unfold ret at 1. unfold bind. rewrite IH; [done|].
  intros g Hg. apply H. apply elem_of_cons; auto.
Qed.

(** C10.  The pattern is matched against the joined path.  When the
    install path itself contains ".c" and the directory holds two or
    more children, every file is left out of the scan and the result is
    "not found", whatever the files and the possible file names. *)
Theorem get_main_file_dot_c_install_path possible_filenames install_path w content :
  wf_fs (fs w) = true ->
  PyStr.contains ".c" install_path = true ->
  listdir install_path w = (Ok content, w) ->
  2 <= length content ->
  get_main_file possible_filenames install_path w = (Ok None, w).
Proof.
  intros Hwf Hc Hl Hlen. unfold get_main_file. unfold bind at 1. rewrite Hl.
  destruct content as [|a [|b rest]]; [simpl in Hlen; lia..|].
  unfold bind at 1. unfold ret at 1. unfold bind.
  rewrite candidates_all_excluded; [done|].
  intros f Hf. apply search_dot_c, contains_path_join; [|done].
  apply wf_name_relative. apply listdir_ok in Hl as [_ Heq].
  rewrite Heq in Hf. by apply (wf_children (fs w) (resolve E install_path)).
Qed.

End FsFacts.

(** ** Sequencing *)

Section MonadFacts.

Lemma bind_ok {A B} (m : M A) (k : A -> M B) w b w' :
  bind m k w = (Ok b, w') ->
  exists a w1, m w = (Ok a, w1) /\ k a w1 = (Ok b, w').
Proof.
  unfold bind. destruct (m w) as [[a|e] w1]; [eauto|done].
Qed.

Lemma bind_any {A B} (m : M A) (k : A -> M B) w r w' :
  bind m k w = (r, w') ->
  (exists e, m w = (Raise e, w') /\ r = Raise e)
  \/ (exists a w1, m w = (Ok a, w1) /\ k a w1 = (r, w')).
Proof.
  unfold bind. destruct (m w) as [[a|e] w1]; [eauto|].
  intros [= <- <-]. eauto.
Qed.

Lemma for_each_cons {A} (x : A) l (body : A -> M unit) :
  for_each (x :: l) body = bind (body x) (fun _ => for_each l body).
Proof. reflexivity. Qed.

Lemma for_each_app_ok {A} (pre post : list A) (body : A -> M unit) w w' :
  for_each (pre ++ post) body w = (Ok tt, w') ->
  exists w1, for_each pre body w = (Ok tt, w1)
             /\ for_each post body w1 = (Ok tt, w').
Proof.
  revert w. induction pre as [|x pre IH]; intros w H.
  - exists w. by split.
  - rewrite <- app_comm_cons, for_each_cons in H.
    apply bind_ok in H as ([] & w1 & Hx & Hrest).
    destruct (IH _ Hrest) as (w2 & Hpre & Hpost).
    exists w2. split; [|done]. rewrite for_each_cons. unfold bind. by rewrite Hx.
Qed.

Lemma for_each_filter {A} (keep : A -> bool) l (body : A -> M unit) w :
  (forall x w0, keep x = false -> body x w0 = (Ok tt, w0)) ->
  for_each l body w = for_each (List.filter keep l) body w.
Proof.
  intros Hskip. revert w. induction l as [|x l IH]; intros w; [done|].
  cbn [List.filter]. destruct (keep x) eqn:K.
  - rewrite !for_each_cons. unfold bind. destruct (body x w) as [[[]|e] w1]; [apply IH|done].
  - rewrite for_each_cons. unfold bind. rewrite (Hskip x w K). apply IH.
Qed.

(** A property of the file system that every step of a loop keeps is
    kept by the loop, whatever its outcome. *)
Lemma for_each_invariant {A} (P : World -> Prop) l (body : A -> M unit) w r w' :
  (forall x w0 r0 w1, x ∈ l -> P w0 -> body x w0 = (r0, w1) -> P w1) ->
  P w -> for_each l body w = (r, w') -> P w'.
Proof.
  revert w. induction l as [|x l IH]; intros w Hstep HP.
  - by intros [= <- <-].
  - rewrite for_each_cons. intros H.
    assert (P (snd (body x w))) as HP1.
    { destruct (body x w) as [r0 w1] eqn:Hx. eapply Hstep; [|done..].
      apply elem_of_cons; auto. }
    apply bind_any in H as [(e & Hx & _)|([] & w1 & Hx & Hrest)].
    + by rewrite Hx in HP1.
    + rewrite Hx in HP1. eapply IH; [|done..].
      intros y w0 r0 w2 Hy. apply Hstep. apply elem_of_cons; auto.
Qed.

End MonadFacts.

(** ** What the file-system operations keep *)

Section Preservation.
Context {E : Env}.

Lemma extends_refl f : extends f f.
Proof. by intros k n. Qed.

Lemma extends_trans f1 f2 f3 : extends f1 f2 -> extends f2 f3 -> extends f1 f3.
Proof. intros H1 H2 k n H. by apply H2, H1. Qed.

Lemma stable_refl t f : stable_except t f f.
Proof. by intros k n. Qed.

Lemma stable_trans t f1 f2 f3 :
  stable_except t f1 f2 -> stable_except t f2 f3 -> stable_except t f1 f3.
Proof. intros H1 H2 k n H Hn. apply H2; [|done]. by apply H1. Qed.

Lemma extends_stable t f f' : extends f f' -> stable_except t f f'.
Proof. intros H k n Hk _. by apply H. Qed.

Lemma lookup_node_insert (f : gmap (list string) node) k v k0 :
  k <> [] ->
  lookup_node (<[k := v]> f) k0
  = if decide (k = k0) then Some v else lookup_node f k0.
Proof.
  intros Hk. destruct k0 as [|c k0].
  - by case_decide.
  - cbn [lookup_node]. rewrite lookup_insert. by repeat case_decide.
Qed.

Lemma lookup_node_nil_dir (f : gmap (list string) node) k n :
  lookup_node f k = Some n -> n <> Dir -> k <> [].
Proof. intros H Hn ->. simpl in H. congruence. Qed.

Local Abbreviation fsrel := (relation (gmap (list string) node)).

Lemma pres_ret {A : Type} (R : fsrel) (a : A) : (forall f, R f f) -> pres R (ret a).
Proof. intros HR w r w' [= <- <-]. apply HR. Qed.

Lemma pres_raise {A : Type} (R : fsrel) e : (forall f, R f f) -> pres R (@raise A e).
Proof. intros HR w r w' [= <- <-]. apply HR. Qed.

Lemma pres_bind {A B : Type} (R : fsrel) (m : M A) (k : A -> M B) :
  (forall f1 f2 f3, R f1 f2 -> R f2 f3 -> R f1 f3) ->
  pres R m -> (forall a, pres R (k a)) -> pres R (bind m k).
Proof.
  intros Htr Hm Hk w r w' H.
  apply bind_any in H as [(e & Hx & _)|(a & w1 & Hx & Hrest)].
  - by apply Hm in Hx.
  - eapply Htr; [by apply Hm in Hx|by apply Hk in Hrest].
Qed.

Lemma set_fs_fs f w r w' : set_fs f w = (r, w') -> fs w' = f.
Proof. by intros [= <- <-]. Qed.

Lemma mkdirs_extends f done todo f' :
  mkdirs f done todo = Ok f' -> extends f f'.
Proof.
  revert f done. induction todo as [|c todo IH]; intros f done.
  - intros [= <-]. apply extends_refl.
  - cbn [mkdirs]. destruct (lookup_node f (done ++ [c])) as [[|]|] eqn:L; [|done|].
    + apply IH.
    + intros H. apply IH in H. eapply extends_trans; [|done].
      intros k n Hk. rewrite lookup_node_insert by (by destruct done).
      case_decide; [congruence|done].
Qed.

(** After [mkdirs], each directory on the way is there. *)
Lemma mkdirs_made f done todo f' pre c post :
  mkdirs f done todo = Ok f' -> todo = pre ++ c :: post ->
  lookup_node f' (done ++ pre ++ [c]) = Some Dir.
Proof.
  revert f done pre. induction todo as [|x todo IH]; intros f done pre H Heq.
  - by destruct pre.
  - cbn [mkdirs] in H. destruct pre as [|y pre].
    + injection Heq as -> ->. simpl.
      destruct (lookup_node f (done ++ [c])) as [[|]|] eqn:L; [| done |].
      * by apply (mkdirs_extends _ _ _ _ H).
      * apply (mkdirs_extends _ _ _ _ H).
        rewrite lookup_node_insert by (by destruct done). by case_decide.
    + injection Heq as -> ->.
      replace (done ++ (y :: pre) ++ [c]) with ((done ++ [y]) ++ pre ++ [c])
        by (by rewrite <- app_assoc).
      destruct (lookup_node f (done ++ [y])) as [[|]|]; [|done|]; by eapply IH.
Qed.

Lemma pres_makedirs p : pres extends (makedirs p).
Proof.
  unfold makedirs. destruct (String.eqb p ""); [by apply pres_raise, extends_refl|].
  intros w r w'. unfold bind, get_world.
  destruct (mkdirs (fs w) [] (resolve E p)) as [f|e] eqn:Hm.
  - intros [= <- <-]. by apply mkdirs_extends in Hm.
  - intros [= <- <-]. apply extends_refl.
Qed.

Lemma pres_open_w p : pres (stable_except (resolve E p)) (open_w p).
Proof.
  unfold open_w. destruct (String.eqb p ""); [by apply pres_raise, stable_refl|].
  destruct (has_nul p); [by apply pres_raise, stable_refl|].
  destruct (PyStr.endswith "/" p); [by apply pres_raise, stable_refl|].
  intros w r w'. unfold bind, get_world.
  destruct (lookup_node (fs w) (resolve E p)) as [[|c m]|] eqn:L.
  - intros [= <- <-]. apply stable_refl.
  - intros [= <- <-]. intros k n Hk Hn. cbn [fs].
    rewrite lookup_node_insert by (eapply lookup_node_nil_dir; done).
    case_decide; [|done]. subst k. destruct Hn; congruence.
  - destruct (lookup_node (fs w) (removelast (resolve E p))) as [[|]|];
      intros [= <- <-]; try apply stable_refl.
    intros k n Hk Hn. cbn [fs].
    rewrite lookup_node_insert by (intros Hnil; by rewrite Hnil in L).
    case_decide; [congruence|done].
Qed.

Lemma pres_write_bytes p bs : pres (stable_except (resolve E p)) (write_bytes p bs).
Proof.
  intros w r w'. unfold write_bytes, bind, get_world.
  destruct (lookup_node (fs w) (resolve E p)) as [[|c m]|] eqn:L;
    intros [= <- <-]; try apply stable_refl.
  intros k n Hk Hn. cbn [fs].
  rewrite lookup_node_insert by (eapply lookup_node_nil_dir; done).
  case_decide; [|done]. subst k. destruct Hn; congruence.
Qed.

Lemma pres_chmod_or p bits : pres (stable_except (resolve E p)) (chmod_or p bits).
Proof.
  intros w r w'. unfold chmod_or, bind, get_world.
  destruct (lookup_node (fs w) (resolve E p)) as [[|c m]|] eqn:L;
    intros [= <- <-]; try apply stable_refl.
  intros k n Hk Hn. cbn [fs].
  rewrite lookup_node_insert by (eapply lookup_node_nil_dir; done).
  case_decide; [|done]. subst k. destruct Hn; congruence.
Qed.

Lemma pres_get_blob (R : fsrel) url : (forall f, R f f) -> pres R (get_blob url).
Proof.
  intros HR w r w'. unfold get_blob, bind, log_request, answer.
  destruct (blob_api E url); intros [= <- <-]; apply HR.
Qed.

Lemma pres_weaken {A : Type} (R R' : fsrel) (m : M A) :
  (forall f f', R f f' -> R' f f') -> pres R m -> pres R' m.
Proof. intros HRR Hm w r w' H. apply HRR. by apply Hm in H. Qed.

Lemma pres_write_file p c : pres (stable_except (resolve E p)) (write_file p c).
Proof.
  unfold write_file.
  apply pres_bind; [apply stable_trans|apply pres_open_w|]. intros _.
  apply pres_bind; [apply stable_trans| |].
  { unfold b64decode. destruct (Codec.b64decode c);
      [apply pres_ret|apply pres_raise..]; apply stable_refl. }
  intros bs. apply pres_bind; [apply stable_trans| |].
  { unfold decode_utf8. destruct (Codec.utf8_decode bs);
      [apply pres_ret|apply pres_raise]; apply stable_refl. }
  intros text. apply pres_write_bytes.
Qed.

Lemma hidden_cons element c0 rest :
  te_path element = String c0 rest -> hidden element = Ascii.eqb c0 ".".
Proof.
  intros H. unfold hidden, PyStr.startswith. rewrite H, prefix_cons, prefix_nil.
  destruct (ascii_dec "." c0) as [<-|Hn]; [done|].
  symmetry. apply Ascii.eqb_neq. congruence.
Qed.

Lemma dl_github_element_fetched install_path element :
  hidden element = false -> is_dir_entry element = false ->
  te_path element <> "" ->
  dl_github_element install_path element
  = bind (make_parents install_path element)
         (fun _ => fetch_element
                     (PyStr.path_join install_path (te_path element)) element).
Proof.
  intros Hh Hd Hp. unfold dl_github_element.
  destruct (te_path element) as [|c0 rest] eqn:Hpath; [done|].
  rewrite (hidden_cons _ _ _ Hpath) in Hh. rewrite Hh.
  unfold is_dir_entry in Hd. rewrite Hd.
  unfold make_parents, fetch_element. by rewrite Hpath.
Qed.

Lemma dl_github_element_skipped install_path element w :
  te_path element <> "" ->
  hidden element || is_dir_entry element = true ->
  dl_github_element install_path element w = (Ok tt, w).
Proof.
  intros Hp H. unfold dl_github_element.
  destruct (te_path element) as [|c0 rest] eqn:Hpath; [done|].
  rewrite (hidden_cons _ _ _ Hpath) in H. unfold is_dir_entry in H.
  destruct (Ascii.eqb c0 "."); [done|]. simpl in H. by rewrite H.
Qed.

Lemma pres_make_parents install_path element :
  pres extends (make_parents install_path element).
Proof.
  unfold make_parents. destruct (Nat.ltb _ _); [apply pres_makedirs|].
  apply pres_ret, extends_refl.
Qed.

Lemma pres_fetch_element abs_path element :
  pres (stable_except (resolve E abs_path)) (fetch_element abs_path element).
Proof.
  unfold fetch_element. apply pres_bind; [apply stable_trans| |].
  { apply pres_get_blob, stable_refl. }
  intros blob. apply pres_bind; [apply stable_trans| |].
  { destruct (String.eqb _ _); [apply pres_ret|apply pres_raise]; apply stable_refl. }
  intros _. apply pres_bind; [apply stable_trans|apply pres_write_file|].
  intros _. destruct (String.eqb _ _); [apply pres_chmod_or|apply pres_ret, stable_refl].
Qed.

(** One tree entry changes nothing but the file it names, and adds
    directories. *)
Lemma pres_dl_github_element install_path element :
  pres (stable_except (resolve E (PyStr.path_join install_path (te_path element))))
       (dl_github_element install_path element).
Proof.
  destruct (te_path element) as [|c0 rest] eqn:Hp.
  { unfold dl_github_element. rewrite Hp. apply pres_raise, stable_refl. }
  destruct (hidden element || is_dir_entry element) eqn:Hs.
  - intros w r w' H. rewrite dl_github_element_skipped in H by (done || congruence).
    injection H as <- <-. apply stable_refl.
  - apply orb_false_elim in Hs as [Hh Hd].
    rewrite dl_github_element_fetched by (done || congruence).
    apply pres_bind; [apply stable_trans| |].
    + eapply pres_weaken; [apply extends_stable|apply pres_make_parents].
    + intros _. rewrite <- Hp. apply pres_fetch_element.
Qed.

(** *** What a successful fetch leaves *)

Lemma open_w_ok p w w' :
  open_w p w = (Ok tt, w') ->
  exists m, lookup_node (fs w') (resolve E p) = Some (File [] m).
Proof.
  unfold open_w. destruct (String.eqb p ""); [done|].
  destruct (has_nul p); [done|].
  destruct (PyStr.endswith "/" p); [done|].
  unfold bind, get_world.
  destruct (lookup_node (fs w) (resolve E p)) as [[|c m]|] eqn:L; [done| |].
  - intros [= <-]. exists m. cbn [fs].
    rewrite lookup_node_insert by (eapply lookup_node_nil_dir; done).
    by case_decide.
  - destruct (lookup_node (fs w) (removelast (resolve E p))) as [[|]|]; [|done..].
    intros [= <-]. exists (create_mode E). cbn [fs].
    rewrite lookup_node_insert by (intros Hnil; by rewrite Hnil in L).
    by case_decide.
Qed.

Lemma write_bytes_ok p bs w w' c m :
  lookup_node (fs w) (resolve E p) = Some (File c m) ->
  write_bytes p bs w = (Ok tt, w') ->
  lookup_node (fs w') (resolve E p) = Some (File (c ++ bs) m).
Proof.
  intros L. unfold write_bytes, bind, get_world. rewrite L.
  intros [= <-]. cbn [fs].
  rewrite lookup_node_insert by (eapply lookup_node_nil_dir; done).
  by case_decide.
Qed.

Lemma chmod_or_keeps_content p bits w r w' c m :
  lookup_node (fs w) (resolve E p) = Some (File c m) ->
  chmod_or p bits w = (r, w') ->
  exists m', lookup_node (fs w') (resolve E p) = Some (File c m').
Proof.
  intros L. unfold chmod_or, bind, get_world. rewrite L.
  intros [= <- <-]. exists (Z.lor m bits). cbn [fs].
  rewrite lookup_node_insert by (eapply lookup_node_nil_dir; done).
  by case_decide.
Qed.

Lemma b64decode_ok s w bs w' :
  b64decode s w = (Ok bs, w') -> w' = w /\ Codec.b64decode s = Codec.B64Bytes bs.
Proof.
  unfold b64decode. destruct (Codec.b64decode s); [|done..].
  by intros [= <- <-].
Qed.

Lemma decode_utf8_ok bs w text w' :
  decode_utf8 bs w = (Ok text, w') -> w' = w /\ Codec.utf8_decode bs = Some text.
Proof.
  unfold decode_utf8. destruct (Codec.utf8_decode bs); [|done].
  by intros [= <- <-].
Qed.

(** A successful [write_file] leaves exactly the decoded bytes. *)
Lemma write_file_ok p c w w' :
  write_file p c w = (Ok tt, w') ->
  exists bs m, Codec.b64decode c = Codec.B64Bytes bs
               /\ is_Some (Codec.utf8_decode bs)
               /\ lookup_node (fs w') (resolve E p) = Some (File bs m).
Proof.
  unfold write_file. intros H.
  apply bind_ok in H as ([] & w1 & Hopen & H).
  apply bind_ok in H as (bs & w2 & Hb & H).
  apply bind_ok in H as (text & w3 & Hd & H).
  apply b64decode_ok in Hb as [-> Hb]. apply decode_utf8_ok in Hd as [-> Hd].
  apply open_w_ok in Hopen as [m Hm].
  apply (write_bytes_ok _ _ _ _ _ _ Hm) in H.
  exists bs, m. split; [done|]. split; [by eexists|].
  rewrite H. simpl. f_equal. f_equal.
  by apply utf8_decode_go_encode in Hd.
Qed.

Lemma get_blob_ok url w blob w' :
  get_blob url w = (Ok blob, w') -> fs w' = fs w /\ blob_api E url = Some blob.
Proof.
  unfold get_blob, bind, log_request, answer.
  destruct (blob_api E url); [|done]. by intros [= <- <-].
Qed.

(** A fetched entry leaves the decoded bytes of its blob at its path. *)
Lemma fetch_element_ok abs_path element w w' :
  fetch_element abs_path element w = (Ok tt, w') ->
  exists blob bs m,
    blob_api E (te_url element) = Some blob
    /\ blob_encoding blob = "base64"
    /\ Codec.b64decode (blob_content blob) = Codec.B64Bytes bs
    /\ is_Some (Codec.utf8_decode bs)
    /\ lookup_node (fs w') (resolve E abs_path) = Some (File bs m).
Proof.
  unfold fetch_element. intros H.
  apply bind_ok in H as (blob & w1 & Hblob & H).
  apply bind_ok in H as ([] & w2 & Henc & H).
  apply bind_ok in H as ([] & w3 & Hwrite & H).
  apply get_blob_ok in Hblob as [_ Hblob].
  apply write_file_ok in Hwrite as (bs & m & Hb & Hu & Hm).
  assert (blob_encoding blob = "base64") as Hen.
  { destruct (String.eqb_spec (blob_encoding blob) "base64"); [done|].
    by unfold raise in Henc. }
  destruct (String.eqb (te_mode element) "100755").
  - unfold make_executable in H.
    destruct (chmod_or_keeps_content _ _ _ _ _ _ _ Hm H) as [m' Hm'].
    by exists blob, bs, m'.
  - injection H as <-. by exists blob, bs, m.
Qed.

(** *** The directories made for a nested entry *)

Lemma startswith_slash_app d x :
  d <> "" -> PyStr.startswith "/" (d +:+ x) = PyStr.startswith "/" d.
Proof.
  destruct d as [|c d]; [done|]. intros _. unfold PyStr.startswith.
  rewrite app_cons, !prefix_cons, !prefix_nil. reflexivity.
Qed.

Lemma path_join_app a d x :
  d <> "" -> PyStr.path_join a (d +:+ x) = PyStr.path_join a d +:+ x.
Proof.
  intros Hd. unfold PyStr.path_join. rewrite startswith_slash_app by done.
  destruct (PyStr.startswith "/" d); [done|].
  destruct (_ || _); by rewrite !app_assoc_s.
Qed.

Lemma path_join_absolute a d :
  PyStr.startswith "/" a = true -> PyStr.startswith "/" (PyStr.path_join a d) = true.
Proof.
  intros Ha. unfold PyStr.path_join.
  destruct (PyStr.startswith "/" d) eqn:Hd; [done|].
  destruct (_ || _); by apply prefix_app_l.
Qed.

Lemma split_absolute p :
  PyStr.startswith "/" p = true ->
  exists t, PyStr.split "/" p = "" :: t /\ t <> [].
Proof.
  destruct p as [|c p]; [done|]. unfold PyStr.startswith. rewrite prefix_cons.
  destruct (ascii_dec "/" c) as [<-|]; [|done]. intros _.
  exists (PyStr.split_go "/" 0 "" p). split; [apply split_go_slash|apply split_go_nonnil].
Qed.

Lemma join_absolute t :
  t <> [] -> PyStr.startswith "/" (PyStr.join "/" ("" :: t)) = true.
Proof.
  destruct t as [|x t]; [done|]. intros _. rewrite join_cons.
  by apply (prefix_app_l "/" "/").
Qed.

Lemma resolve_absolute p :
  PyStr.startswith "/" p = true -> resolve E p = comps p.
Proof. intros H. unfold resolve. by rewrite H. Qed.

Lemma path_join_absolute_r a p :
  PyStr.startswith "/" p = true -> PyStr.path_join a p = p.
Proof. intros H. unfold PyStr.path_join. by rewrite H. Qed.

Lemma removelast_fields (l : list string) x : x ∈ removelast l -> x ∈ l.
Proof.
  induction l as [|y l IH]; [done|]. destruct l as [|z l].
  - simpl. by intros ?%elem_of_nil.
  - change (removelast (y :: z :: l)) with (y :: removelast (z :: l)).
    intros [->|H]%elem_of_cons; apply elem_of_cons; auto.
Qed.

(** The path whose directories [make_parents] makes starts with the
    components of every proper directory prefix of the entry's path. *)
Lemma parents_path install_path d rest :
  PyStr.startswith "/" install_path = true -> d <> "" ->
  let abs_path := PyStr.path_join install_path (d +:+ "/" +:+ rest) in
  let subdirs := PyStr.join "/" (PyStr.but_last (PyStr.split "/" abs_path)) in
  PyStr.startswith "/" subdirs = true
  /\ exists more, comps subdirs = comps (PyStr.path_join install_path d) ++ more.
Proof.
  intros Ha Hd abs_path subdirs. subst abs_path subdirs.
  rewrite path_join_app by done.
  set (D := PyStr.path_join install_path d).
  assert (PyStr.startswith "/" D = true) as HD by (by apply path_join_absolute).
  rewrite split_app. unfold PyStr.but_last.
  rewrite removelast_app by apply split_nonnil.
  destruct (split_absolute D HD) as (t & Ht & Htn).
  split.
  - rewrite Ht, <- app_comm_cons.
    apply join_absolute. by destruct t.
  - exists (List.filter nonempty (removelast (PyStr.split "/" rest))).
    unfold comps at 1. rewrite split_join.
    + by rewrite List.filter_app.
    + rewrite Ht. done.
    + apply Forall_forall. intros x [Hx|Hx]%elem_of_app.
      * by apply split_fields in Hx.
      * apply removelast_fields in Hx. by apply split_fields in Hx.
Qed.

Lemma nested_path_length d rest :
  Nat.ltb 1 (length (PyStr.split "/" (d +:+ "/" +:+ rest))) = true.
Proof.
  rewrite split_app, length_app. apply Nat.ltb_lt.
  pose proof (split_nonnil d). pose proof (split_nonnil rest).
  destruct (PyStr.split "/" d), (PyStr.split "/" rest); simpl; (done || lia).
Qed.

Lemma make_parents_ok install_path element d rest w w' :
  PyStr.startswith "/" install_path = true ->
  te_path element = d +:+ "/" +:+ rest -> d <> "" ->
  make_parents install_path element w = (Ok tt, w') ->
  lookup_node (fs w') (resolve E (PyStr.path_join install_path d)) = Some Dir.
Proof.
  intros Ha Hp Hd. unfold make_parents. rewrite Hp, nested_path_length.
  destruct (parents_path install_path d rest Ha Hd) as (Habs & more & Hc).
  rewrite path_join_absolute_r by done.
  unfold makedirs. destruct (String.eqb _ "") eqn:He.
  { apply String.eqb_eq in He. by rewrite He in Habs. }
  unfold bind, get_world. rewrite resolve_absolute by done.
  rewrite resolve_absolute by (by apply path_join_absolute).
  rewrite Hc. set (cd := comps (PyStr.path_join install_path d)).
  destruct (mkdirs (fs w) [] (cd ++ more)) as [f|e] eqn:Hm; [|done].
  intros [= <-]. cbn [fs].
  destruct cd as [|c0 cd0] using rev_ind; [done|].
  apply (mkdirs_made _ [] _ _ cd0 c0 more Hm). by rewrite <- app_assoc.
Qed.

End Preservation.

(** ** The Remote Tree Fetcher *)

Section TreeFetcher.
Context {E : Env}.

Lemma startswith_dot_app d x :
  d <> "" -> PyStr.startswith "." (d +:+ x) = PyStr.startswith "." d.
Proof.
  destruct d as [|c d]; [done|]. intros _. unfold PyStr.startswith.
  rewrite app_cons, !prefix_cons, !prefix_nil. reflexivity.
Qed.

Lemma hidden_path element :
  hidden element = true -> exists rest, te_path element = String "." rest.
Proof.
  unfold hidden, PyStr.startswith. destruct (te_path element) as [|c rest]; [done|].
  rewrite prefix_cons. destruct (ascii_dec "." c) as [<-|]; [eauto|done].
Qed.

Lemma dl_github_element_ok_path install_path element w w' :
  dl_github_element install_path element w = (Ok tt, w') -> te_path element <> "".
Proof. unfold dl_github_element. by destruct (te_path element). Qed.

(** Directories stay through a whole listing, whatever its outcome. *)
Lemma listing_keeps_dirs install_path l w r w' k :
  for_each l (dl_github_element install_path) w = (r, w') ->
  lookup_node (fs w) k = Some Dir -> lookup_node (fs w') k = Some Dir.
Proof.
  intros H Hk.
  apply (for_each_invariant (fun w0 => lookup_node (fs w0) k = Some Dir)
           l (dl_github_element install_path) w r w'); [|done..].
  intros x w0 r0 w1 _ HP Hx.
  apply pres_dl_github_element in Hx. apply Hx; auto.
Qed.

(** A fetched entry with a nested path leaves each directory above it. *)
Lemma element_makes_parents install_path element d rest w w' :
  PyStr.startswith "/" install_path = true ->
  hidden element = false -> is_dir_entry element = false ->
  te_path element = d +:+ "/" +:+ rest -> d <> "" ->
  dl_github_element install_path element w = (Ok tt, w') ->
  lookup_node (fs w') (resolve E (PyStr.path_join install_path d)) = Some Dir.
Proof.
  intros Ha Hh Hd Hp Hne H.
  pose proof (dl_github_element_ok_path _ _ _ _ H) as Hpath.
  rewrite dl_github_element_fetched in H by done.
  apply bind_ok in H as ([] & w1 & Hmk & Hfetch).
  apply (make_parents_ok _ _ d rest _ _ Ha Hp Hne) in Hmk.
  apply pres_fetch_element in Hfetch. apply Hfetch; auto.
Qed.

Lemma dl_github_repo_ok install_path url w w' :
  dl_github_repo install_path url w = (Ok tt, w') ->
  exists tree w1,
    tree_api E (url +:+ "?recursive=1") = Some tree
    /\ for_each tree (dl_github_element install_path) w1 = (Ok tt, w').
Proof.
  unfold dl_github_repo. intros H. apply bind_ok in H as (tree & w1 & Ht & H).
  exists tree, w1. split; [|done].
  unfold get_tree, bind, log_request, answer in Ht.
  destruct (tree_api E _); [|done]. by injection Ht as ->.
Qed.

(** C8.  Entries whose path begins with '.' are never materialized: the
    loop body does nothing at all for such an entry (no request, no
    write, the world is unchanged), and a run over a listing is the run
    over the listing without them. *)
Theorem hidden_entries_skipped install_path url w :
  (forall rest mode blob_url w0,
      dl_github_element install_path
        (mkTreeEntry (String "." rest) mode blob_url) w0 = (Ok tt, w0))
  /\ dl_github_repo install_path url w
     = bind (get_tree (url +:+ "?recursive=1"))
         (fun tree =>
            for_each (List.filter (fun e => negb (hidden e)) tree)
                     (dl_github_element install_path)) w.
Proof.
  split; [done|]. unfold dl_github_repo, bind.
  destruct (get_tree _ w) as [[tree|e] w1]; [|done].
  apply for_each_filter. intros x w0 Hx. apply negb_false_iff in Hx.
  apply dl_github_element_skipped; [|by rewrite Hx].
  apply hidden_path in Hx as [rest ->]. done.
Qed.

(** C7, as amended.  A directory entry (mode "040000", path not
    beginning with '.') is itself skipped: the loop body changes nothing
    for it.  After a run that completes, with an absolute install path,
    its directory exists under the install path whenever the listing
    holds a file entry below it; its parents are made with it. *)
Theorem directory_made_by_file_below install_path url w w' tree e f rest :
  PyStr.startswith "/" install_path = true ->
  tree_api E (url +:+ "?recursive=1") = Some tree ->
  dl_github_repo install_path url w = (Ok tt, w') ->
  e ∈ tree -> is_dir_entry e = true -> hidden e = false ->
  f ∈ tree -> is_dir_entry f = false ->
  te_path f = te_path e +:+ "/" +:+ rest ->
  (forall w0, dl_github_element install_path e w0 = (Ok tt, w0))
  /\ lookup_node (fs w')
       (resolve E (PyStr.path_join install_path (te_path e))) = Some Dir.
Proof.
  intros Ha Ht Hrun He Hde Hhe Hf Hdf Hp.
  apply dl_github_repo_ok in Hrun as (tree' & w1 & Ht' & Hrun).
  assert (tree' = tree) as -> by congruence.
  assert (te_path e <> "") as Hne.
  { apply list_elem_of_split in He as (pre & post & ->).
    apply for_each_app_ok in Hrun as (w2 & _ & Hrun).
    rewrite for_each_cons in Hrun. apply bind_ok in Hrun as ([] & w3 & Hrun & _).
    by apply dl_github_element_ok_path in Hrun. }
  split.
  { intros w0. apply dl_github_element_skipped; [done|]. by rewrite Hde, orb_true_r. }
  apply list_elem_of_split in Hf as (pre & post & ->).
  apply for_each_app_ok in Hrun as (w2 & _ & Hrun).
  rewrite for_each_cons in Hrun. apply bind_ok in Hrun as ([] & w3 & Hstep & Hpost).
  eapply listing_keeps_dirs; [done|].
  eapply element_makes_parents; [done| |done|done|done|done].
  unfold hidden. rewrite Hp, startswith_dot_app by done. apply Hhe.
Qed.

(** X22.  After a run that completes, the file of a fetched entry (not
    hidden, not a directory entry) holds exactly the bytes its base64
    blob decodes to, and these bytes are well-formed UTF-8; this as
    long as no later entry of the listing names the same file.  With
    an absolute install path, every directory above a nested entry
    exists.  The paths are without "." and "..", so that they name
    the same file only when their components agree. *)
Theorem fetched_file_holds_decoded_blob
  install_path url w w' pre e post blob bs :
  dot_free (cwd E) = true -> dot_free install_path = true ->
  (forall e', e' ∈ pre ++ e :: post -> fetched e' = true ->
              dot_free (te_path e') = true) ->
  tree_api E (url +:+ "?recursive=1") = Some (pre ++ e :: post) ->
  dl_github_repo install_path url w = (Ok tt, w') ->
  hidden e = false -> is_dir_entry e = false ->
  blob_api E (te_url e) = Some blob ->
  Codec.b64decode (blob_content blob) = Codec.B64Bytes bs ->
  Forall (fun e' =>
            hidden e' || is_dir_entry e' = true
            \/ resolve E (PyStr.path_join install_path (te_path e'))
               <> resolve E (PyStr.path_join install_path (te_path e)))
         post ->
  is_Some (Codec.utf8_decode bs)
  /\ (exists m,
        lookup_node (fs w')
          (resolve E (PyStr.path_join install_path (te_path e)))
        = Some (File bs m))
  /\ (forall d rest,
        PyStr.startswith "/" install_path = true ->
        te_path e = d +:+ "/" +:+ rest -> d <> "" ->
        lookup_node (fs w') (resolve E (PyStr.path_join install_path d))
        = Some Dir).
Proof.
  intros _ _ _ Ht Hrun Hh Hd Hblob Hb Hpost.
  apply dl_github_repo_ok in Hrun as (tree' & w1 & Ht' & Hrun).
  assert (tree' = pre ++ e :: post) as -> by congruence.
  apply for_each_app_ok in Hrun as (w2 & _ & Hrun).
  rewrite for_each_cons in Hrun. apply bind_ok in Hrun as ([] & w3 & Hstep & Hrest).
  pose proof (dl_github_element_ok_path _ _ _ _ Hstep) as Hpath.
  pose proof Hstep as Hstep'.
  rewrite dl_github_element_fetched in Hstep' by done.
  apply bind_ok in Hstep' as ([] & w2' & _ & Hfetch).
  apply fetch_element_ok in Hfetch as (blob' & bs' & m & Hblob' & _ & Hb' & Hu & Hfile).
  assert (blob' = blob) as -> by congruence.
  assert (bs' = bs) as -> by congruence.
  split; [done|]. split.
  - set (k := resolve E (PyStr.path_join install_path (te_path e))) in *.
    apply (for_each_invariant
             (fun w0 => exists m0, lookup_node (fs w0) k = Some (File bs m0))
             post (dl_github_element install_path) w3 (Ok tt) w');
      [|by eexists|done].
    intros x w0 r0 w4 Hx [m0 Hm0] Hbody. exists m0.
    rewrite Forall_forall in Hpost. destruct (Hpost x Hx) as [Hskip|Hne].
    + destruct (te_path x) as [|c0 rest0] eqn:Hpx.
      * unfold dl_github_element in Hbody. rewrite Hpx in Hbody.
        by injection Hbody as <- <-.
      * rewrite dl_github_element_skipped in Hbody by (done || congruence).
        by injection Hbody as <- <-.
    + apply pres_dl_github_element in Hbody. apply Hbody; auto.
  - intros d rest Ha Hp Hne.
    eapply listing_keeps_dirs; [done|].
    by eapply element_makes_parents.
Qed.

End TreeFetcher.

(** ** The Dependency Installer *)

Section Installer.
Context {E : Env}.

Lemma exec_error_os f k e : exec_error f k = Some e -> os_error e.
Proof.
  unfold exec_error, os_error.
  destruct (lookup_node f k) as [[|c m]|]; try (intros [= <-]; tauto).
  destruct (Z.eqb _ _); [intros [= <-]; tauto|].
  destruct (is_program E c); [done|intros [= <-]; tauto].
Qed.

Lemma exec_failure_os f cands : os_error (exec_failure f cands).
Proof.
  induction cands as [|p cands IH]; cbn [exec_failure].
  - unfold os_error. tauto.
  - destruct (exec_error f (resolve E p)) as [e|] eqn:He; [|done].
    apply exec_error_os in He. by destruct e.
Qed.

Lemma spawn_raises argv w e w' :
  spawn argv w = (Raise e, w') ->
  argv <> [] -> os_error e \/ exists msg, e = ValueError msg.
Proof.
  unfold spawn. destruct argv as [|prog args]; [done|]. intros H _.
  destruct (existsb has_nul (prog :: args)); [injection H as <- <-; eauto|].
  unfold bind, get_world in H.
  destruct (which (fs w) prog); [done|]. injection H as <- <-.
  left. apply exec_failure_os.
Qed.

Lemma os_error_not_called e : os_error e -> e <> CalledProcessError.
Proof. unfold os_error. intros H ->. intuition discriminate. Qed.

Lemma spawn_not_called argv w e w' :
  spawn argv w = (Raise e, w') -> argv <> [] -> e <> CalledProcessError.
Proof.
  intros H Hne. destruct (spawn_raises _ _ _ _ H Hne) as [Ho|[msg ->]]; [|done].
  by apply os_error_not_called.
Qed.

Lemma check_output_raises argv w e w' :
  check_output argv w = (Raise e, w') -> argv <> [] -> installer_error e.
Proof.
  unfold check_output. intros H Hne. unfold installer_error.
  apply bind_any in H as [(e0 & Hs & [= <-])|(st & w1 & _ & H)].
  - destruct (spawn_raises _ _ _ _ Hs Hne); auto.
  - destruct (Z.eqb st 0); [done|]. injection H as <- <-. auto.
Qed.

Lemma split_go_no_dot acc s :
  PyStr.mem_char "." s = false ->
  PyStr.split_go "." 0 acc s = [acc +:+ s].
Proof.
  revert acc. induction s as [|c s IH]; intros acc H.
  - simpl. f_equal. induction acc as [|x acc IHa]; [done|].
    by rewrite app_cons, <- IHa.
  - rewrite mem_char_cons in H. destruct (Ascii.eqb_spec "." c) as [|Hc]; [done|].
    rewrite split_go_cons, prefix_cons. destruct (ascii_dec "." c); [done|].
    rewrite IH by done. by rewrite app_assoc_s.
Qed.

(** A name without a dot that cannot be imported is not found, and
    nothing is raised. *)
Lemma find_spec_top_level name w :
  top_level name = true -> pkgs w !! name = None ->
  find_spec_is_none name w = (Ok true, w).
Proof.
  unfold top_level. intros [_ Hd%negb_true_iff]%andb_prop Hp.
  unfold find_spec_is_none, bind, get_world. rewrite Hp.
  assert (PyStr.startswith "." name = false) as ->.
  { destruct name as [|c name]; [done|]. rewrite mem_char_cons in Hd.
    unfold PyStr.startswith. rewrite prefix_cons.
    destruct (ascii_dec "." c) as [<-|]; [done|done]. }
  unfold parent_name, PyStr.split. by rewrite split_go_no_dot.
Qed.

Lemma find_spec_found name w :
  is_Some (pkgs w !! name) -> find_spec_is_none name w = (Ok false, w).
Proof.
  intros [v Hv]. unfold find_spec_is_none, bind, get_world. by rewrite Hv.
Qed.

Lemma import_module_version_missing name w :
  pkgs w !! name = Some None ->
  import_module_version name w = (Raise AttributeError, w).
Proof. intros H. unfold import_module_version, bind, get_world. by rewrite H. Qed.

(** The version check of [pip_install] on a module without
    [__version__]: nothing happens. *)
Lemma version_check_missing package declared pv w :
  PyStr.contains "==" package = true ->
  PyStr.item (PyStr.split "==" package) 1 = Some declared ->
  version_parse E declared = Some pv ->
  pkgs w !! package_name_of package = Some None ->
  (if PyStr.contains "==" package then
     match PyStr.item (PyStr.split "==" package) 1 with
     | None => raise IndexError
     | Some declared =>
         bind (parse declared)
           (fun package_version =>
              catch
                (bind (import_module_version (package_name_of package))
                   (fun v =>
                      bind (parse v)
                        (fun installed_version =>
                           if version_gt E package_version installed_version
                           then run_pip package
                           else ret tt)))
                (fun e => match e with
                          | AttributeError => Some (ret tt)
                          | _ => None
                          end))
     end
   else ret tt) w = (Ok tt, w).
Proof.
  intros Hc Hi Hv Hp. rewrite Hc, Hi. unfold bind at 1, parse at 1. rewrite Hv.
  unfold ret at 1, catch, bind. by rewrite import_module_version_missing.
Qed.

(** C4, as amended.  For a line with an exact-version constraint whose
    declared version parses: when the module is importable and has no
    [__version__], the constraint counts as satisfied and nothing
    happens; when the module, of a name without a dot, is absent, the
    one install call is made, its error propagates if it fails, and
    otherwise, the module now being importable without [__version__],
    nothing more happens. *)
Theorem pip_install_without_version_attribute package declared pv w :
  PyStr.contains "==" package = true ->
  PyStr.item (PyStr.split "==" package) 1 = Some declared ->
  version_parse E declared = Some pv ->
  (pkgs w !! package_name_of package = Some None ->
   pip_install package w = (Ok tt, w))
  /\ (forall w1,
        top_level (package_name_of package) = true ->
        pkgs w !! package_name_of package = None ->
        run_pip package w = (Ok tt, w1) ->
        pkgs w1 !! package_name_of package = Some None ->
        pip_install package w = (Ok tt, w1))
  /\ (forall e w1,
        top_level (package_name_of package) = true ->
        pkgs w !! package_name_of package = None ->
        run_pip package w = (Raise e, w1) ->
        pip_install package w = (Raise e, w1) /\ installer_error e).
Proof.
  intros Hc Hi Hv. split; [|split].
  - intros Hp. unfold pip_install, bind at 1. rewrite find_spec_found by eauto.
    unfold bind at 1, ret at 1. by apply version_check_missing with declared pv.
  - intros w1 Ht Hp Hrun Hp1. unfold pip_install, bind at 1.
    rewrite find_spec_top_level by done. unfold bind at 1. rewrite Hrun.
    by apply version_check_missing with declared pv.
  - intros e w1 Ht Hp Hrun. split.
    + unfold pip_install, bind at 1. rewrite find_spec_top_level by done.
      unfold bind at 1. by rewrite Hrun.
    + by apply check_output_raises in Hrun.
Qed.

End Installer.

(** ** The statements at concrete inputs *)

Section Concrete.
Import Examples.

(** X22 at the repository with a/b/c.py: the file holds "hello" and
    the directories a and a/b exist. *)
Lemma fetched_file_holds_decoded_blob_nested :
  let w' := snd (@dl_github_repo nested_repo "/plugins/p" tree_url
                   (world_of base_fs)) in
  is_Some (Codec.utf8_decode (String.list_byte_of_string "hello"))
  /\ (exists m,
        lookup_node (fs w') ["plugins"; "p"; "a"; "b"; "c.py"]
        = Some (File (String.list_byte_of_string "hello") m))
  /\ lookup_node (fs w') ["plugins"; "p"; "a"] = Some Dir
  /\ lookup_node (fs w') ["plugins"; "p"; "a"; "b"] = Some Dir.
Proof.
  intros w'.
  destruct (@fetched_file_holds_decoded_blob nested_repo
              "/plugins/p" tree_url (world_of base_fs) w'
              [mkTreeEntry "a" "040000" "https://api.example/blobs/0";
               mkTreeEntry "a/b" "040000" "https://api.example/blobs/1"]
              (mkTreeEntry "a/b/c.py" "100644" "https://api.example/blobs/2")
              []
              (mkBlob "base64" "aGVsbG8=")
              (String.list_byte_of_string "hello"))
    as (Hu & Hfile & Hdirs).
  - vm_compute. reflexivity.
  - vm_compute. reflexivity.
  - intros e' He' _. apply list_elem_of_In in He'. simpl in He'.
    destruct He' as [<- | [<- | [<- | []]]]; vm_compute; reflexivity.
  - vm_compute. reflexivity.
  - vm_compute. reflexivity.
  - vm_compute. reflexivity.
  - vm_compute. reflexivity.
  - vm_compute. reflexivity.
  - vm_compute. reflexivity.
  - constructor.
  - split; [exact Hu|]. split; [exact Hfile|]. split.
    + apply (Hdirs "a" "b/c.py"); [reflexivity|reflexivity|discriminate].
    + apply (Hdirs "a/b" "c.py"); [reflexivity|reflexivity|discriminate].
Defined.

(** C1.  A binary payload is not stored: the blob "/w==" is the single
    byte 0xff; the run aborts with UnicodeDecodeError and the file
    logo.bin is left empty. *)
Lemma binary_blob_not_written :
  let r := @dl_github_repo binary_repo "/plugins/p" tree_url
             (world_of base_fs) in
  Codec.b64decode "/w==" = Codec.B64Bytes [xff]
  /\ fst r = Raise UnicodeDecodeError
  /\ lookup_node (fs (snd r)) ["plugins"; "p"; "logo.bin"] = Some (File [] 420)
  /\ ~ (exists m, lookup_node (fs (snd r)) ["plugins"; "p"; "logo.bin"]
                  = Some (File [xff] m)).
Proof.
  vm_compute. repeat split. intros [m H]. discriminate H.
Qed.

(** C7 at the repository with a/b/c.py: the directory entry a/b is
    skipped and its directory exists, made for the file below it. *)
Lemma directory_made_by_file_below_nested :
  let w' := snd (@dl_github_repo nested_repo "/plugins/p" tree_url
                   (world_of base_fs)) in
  (forall w0,
      @dl_github_element nested_repo "/plugins/p"
        (mkTreeEntry "a/b" "040000" "https://api.example/blobs/1") w0
      = (Ok tt, w0))
  /\ lookup_node (fs w') ["plugins"; "p"; "a"; "b"] = Some Dir.
Proof.
  intros w'.
  apply (@directory_made_by_file_below nested_repo
           "/plugins/p" tree_url (world_of base_fs) w' nested_tree
           (mkTreeEntry "a/b" "040000" "https://api.example/blobs/1")
           (mkTreeEntry "a/b/c.py" "100644" "https://api.example/blobs/2")
           "c.py").
  - vm_compute. reflexivity.
  - vm_compute. reflexivity.
  - vm_compute. reflexivity.
  - apply list_elem_of_In. simpl. auto.
  - vm_compute. reflexivity.
  - vm_compute. reflexivity.
  - apply list_elem_of_In. simpl. auto.
  - vm_compute. reflexivity.
  - vm_compute. reflexivity.
Defined.

(** C7 fails for a directory without file entries: the run completes
    and the directory does not exist. *)
Lemma empty_directory_not_made :
  let r := @dl_github_repo empty_dir_repo "/plugins/p" tree_url
             (world_of base_fs) in
  fst r = Ok tt
  /\ lookup_node (fs (snd r)) ["plugins"; "p"; "assets"] = None
  /\ children (fs (snd r)) ["plugins"; "p"] = [].
Proof. cbv zeta. split; [|split]; vm_compute; reflexivity. Qed.

(** C4 at an interpreter whose module requests has no [__version__]. *)
Lemma pip_install_without_version_attribute_requests :
  @pip_install offline "requests==2.0.0" requests_world = (Ok tt, requests_world).
Proof.
  refine (proj1 (@pip_install_without_version_attribute offline
                   "requests==2.0.0" "2.0.0" [2; 0; 0] requests_world
                   _ _ _) _).
  - vm_compute. reflexivity.
  - vm_compute. reflexivity.
  - vm_compute. reflexivity.
  - vm_compute. reflexivity.
Defined.

(** C4 fails when the distribution just installed is not importable
    under the name of the line: PyYAML provides the module yaml; the
    install call succeeds and ModuleNotFoundError propagates. *)
Lemma pip_install_raises_on_unimportable_name :
  let r := @pip_install pip_env "PyYAML==5.1" (world_of base_fs) in
  fst r = Raise ModuleNotFoundError
  /\ procs (snd r) = [["/usr/bin/python3"; "-m"; "pip"; "install"; "PyYAML==5.1"]]
  /\ pkgs (snd r) !! "yaml" = Some (Some "5.1")
  /\ ~ installer_error ModuleNotFoundError.
Proof.
  vm_compute. repeat split. intros [H|[H|[msg H]]]; [discriminate H| |discriminate H].
  intuition discriminate.
Qed.

(** C10 at /home/user/.cache/p, which holds main.py and helper.py. *)
Lemma get_main_file_dot_c_install_path_cache :
  @get_main_file offline ["main"] "/home/user/.cache/p" (world_of cache_plugin)
  = (Ok None, world_of cache_plugin).
Proof.
  apply (@get_main_file_dot_c_install_path offline ["main"]
           "/home/user/.cache/p" (world_of cache_plugin)
           (children cache_plugin ["home"; "user"; ".cache"; "p"])).
  - vm_compute. reflexivity.
  - vm_compute. reflexivity.
  - vm_compute. reflexivity.
  - vm_compute. lia.
Defined.

End Concrete.

(** ** Where the code departs from the claims *)

Section Departures.
Import Examples.

(** The sub-folder URL gets a slash inserted unless the parent URL has
    exactly two characters, the first of which is a slash. *)
Lemma child_url_inserts_slash url name :
  String.length url <> 2 -> child_url url name = url +:+ "/" +:+ name.
Proof.
  intros Hlen. unfold child_url.
  destruct (String.eqb_spec (PyStr.drop_last url) "/") as [H|]; [|done].
  by destruct url as [|a [|b [|c url]]].
Qed.

Lemma star_iter_head step fuel st :
  exists tl, Re.star_iter step fuel st = st :: tl.
Proof. destruct fuel; eexists; reflexivity. Qed.

Lemma ends_set_hit cs pos d s :
  PyStr.mem_char d cs = true -> Re.ends (Re.Set_ cs) (pos, String d s) = [(S pos, s)].
Proof.
  intros H.
  change (Re.ends (Re.Set_ cs) (pos, String d s))
    with (if PyStr.mem_char d cs then [(S pos, s)] else []).
  by rewrite H.
Qed.

Lemma ends_plus_set cs pos d s :
  PyStr.mem_char d cs = true ->
  exists tl, Re.ends (Re.Plus (Re.Set_ cs)) (pos, String d s) = (S pos, s) :: tl.
Proof.
  intros H.
  change (Re.ends (Re.Plus (Re.Set_ cs)) (pos, String d s))
    with (flat_map (Re.star_iter (Re.ends (Re.Set_ cs))
                      (String.length (String d s)))
                   (Re.ends (Re.Set_ cs) (pos, String d s))).
  rewrite (ends_set_hit cs pos d s H).
  destruct (star_iter_head (Re.ends (Re.Set_ cs))
              (String.length (String d s)) (S pos, s)) as [tl Htl].
  exists (tl ++ []). cbn [flat_map]. by rewrite Htl.
Qed.

(** Two characters in a row, the first in the first set and the second
    in the second, are a match. *)
Lemma matches_at_adjacent pos c1 c2 rest :
  PyStr.mem_char c1 "api.github.com/repos/" = true ->
  PyStr.mem_char c2 "/contents/" = true ->
  Re.matches_at contents_url_pattern (pos, String c1 (String c2 rest)) = true.
Proof.
  intros H1 H2. unfold Re.matches_at, contents_url_pattern.
  change (Re.ends (Re.Seq ?r1 ?r2) ?st)
    with (flat_map (Re.ends r2) (Re.ends r1 st)).
  destruct (ends_plus_set _ pos c1 (String c2 rest) H1) as [tl ->].
  cbn [flat_map].
  destruct (ends_plus_set _ (S pos) c2 rest H2) as [tl' ->].
  reflexivity.
Qed.

Lemma matches_at_double_slash pos rest :
  Re.matches_at contents_url_pattern (pos, String "/" (String "/" rest)) = true.
Proof. by apply matches_at_adjacent. Qed.

Lemma prefix_double_slash s :
  String.prefix "//" s = true -> exists rest, s = String "/" (String "/" rest).
Proof.
  destruct s as [|a [|b rest]]; [done| |].
  - rewrite prefix_cons. by destruct (ascii_dec "/" a).
  - rewrite !prefix_cons. destruct (ascii_dec "/" a) as [<-|]; [|done].
    destruct (ascii_dec "/" b) as [<-|]; [|done]. eauto.
Qed.

Lemma search_from_double_slash pos s :
  PyStr.contains "//" s = true -> Re.search_from contents_url_pattern pos s = true.
Proof.
  revert pos. induction s as [|c s IH]; intros pos; [done|].
  rewrite contains_cons, search_from_cons.
  destruct (String.prefix "//" (String c s)) eqn:P.
  - intros _. apply prefix_double_slash in P as [rest ->].
    by rewrite matches_at_double_slash.
  - intros H. destruct (Re.matches_at _ _); [done|]. by apply IH.
Qed.

(** Every URL with two slashes in a row passes the check of
    [dl_folder_from_github]. *)
Lemma double_slash_url_accepted url :
  PyStr.contains "//" url = true -> Re.search contents_url_pattern url = true.
Proof. apply search_from_double_slash. Qed.

(** C2.  The file main.css is a plain file whose name ends in none of
    ".cpp", ".c", ".go"; it is left out of the scan all the same, and
    the resolver answers "not found" for the possible name "main". *)
Theorem source_file_pattern_excludes_css :
  let w := world_of css_plugin in
  PyStr.endswith ".cpp" "main.css" || PyStr.endswith ".c" "main.css"
    || PyStr.endswith ".go" "main.css" = false
  /\ fst (@isfile offline "/plugins/p/main.css" w) = Ok true
  /\ fst (@is_candidate offline "/plugins/p" "main.css" w) = Ok false
  /\ @get_main_file offline ["main"] "/plugins/p" w = (Ok None, w).
Proof. vm_compute. repeat split. Qed.

(** C3.  The URL ftp://example.org/x has nothing of an
    api.../repos/.../contents/... path; it passes the check and is
    requested. *)
Theorem unsupported_url_is_requested :
  let url := "ftp://example.org/x" in
  let r := @dl_folder_from_github offline 1000 "/plugins/p" url
             (world_of base_fs) in
  PyStr.contains "api" url = false
  /\ PyStr.contains "repos" url = false
  /\ PyStr.contains "contents" url = false
  /\ Re.search contents_url_pattern url = true
  /\ fst r = Raise URLError
  /\ requests (snd r) = [url].
Proof. vm_compute. repeat split. Qed.

(** C5.  Without a Makefile: the directory with my.plugin.go starts no
    build, and the directory with setup.go.txt, which has no ".go"
    file, starts one. *)
Theorem go_build_decided_by_second_field :
  let r1 := @handle_compilation offline "/plugins/p"
              (world_of (go_plugin_local_go "my.plugin.go")) in
  let r2 := @handle_compilation offline "/plugins/p"
              (world_of (go_plugin_local_go "setup.go.txt")) in
  PyStr.endswith ".go" "my.plugin.go" = true
  /\ fst r1 = Ok tt /\ procs (snd r1) = []
  /\ PyStr.endswith ".go" "setup.go.txt" = false
  /\ fst r2 = Ok tt /\ procs (snd r2) = [["/home/user/go"; "build"]].
Proof. vm_compute. repeat split. Qed.

(** C6.  With go in /usr/bin, which is on the execution path, and no
    file named go in the working directory, the build of main.go fails
    with the "is golang installed ?" error and no program is started. *)
Theorem go_on_path_is_not_found :
  let w := world_of (go_plugin "main.go") in
  let r := @handle_compilation offline "/plugins/p" w in
  @which offline (fs w) "go" = Some "/usr/bin/go"
  /\ @abspath offline "go" = "/home/user/go"
  /\ fst r = Raise (PyException
                      "Could not 'go build' the plugin, is golang installed ?")
  /\ procs (snd r) = [].
Proof. vm_compute. repeat split. Qed.

(** C9.  The parent URL ends with a slash; the sub-folder "sub" is
    requested at the URL with a second slash inserted. *)
Theorem child_url_doubles_slash :
  let r := @dl_folder_from_github folder_remote 1000 "/plugins/p" folder_url
             (world_of base_fs) in
  PyStr.endswith "/" folder_url = true
  /\ child_url folder_url "sub"
     = "https://api.github.com/repos/o/r/contents/d//sub"
  /\ fst r = Ok tt
  /\ requests (snd r)
     = [folder_url; "https://api.github.com/repos/o/r/contents/d//sub"].
Proof. vm_compute. repeat split. Qed.

End Departures.

(** ** The examples of the specification *)

Section SpecExamples.
Import Examples.

Example split_slash : PyStr.split "/" "/a/b/c.py" = [""; "a"; "b"; "c.py"].
Proof. reflexivity. Qed.

Example split_exact : PyStr.split "==" "requests==2.0.0" = ["requests"; "2.0.0"].
Proof. reflexivity. Qed.

Example b64_hello :
  Codec.b64decode "aGVsbG8=" = Codec.B64Bytes (String.list_byte_of_string "hello").
Proof. reflexivity. Qed.

Example utf8_euro :
  Codec.utf8_decode [xe2; x82; xac] = Some [8364%N]
  /\ Codec.utf8_encode [8364%N] = [xe2; x82; xac].
Proof. split; reflexivity. Qed.

(** An unsupported encoding tag aborts the fetch; no file is written. *)
Example unsupported_encoding_aborts :
  let r := @dl_github_repo utf16_repo "/plugins/p" tree_url (world_of base_fs) in
  fst r = Raise AssertionError
  /\ children (fs (snd r)) ["plugins"; "p"] = [].
Proof. cbv zeta. split; vm_compute; reflexivity. Qed.

(** A single wrapping directory is unwrapped and main.py found. *)
Example wrapper_is_unwrapped :
  @get_main_file offline ["main"] "/plugins/p" (world_of wrapped_plugin)
  = (Ok (Some "/plugins/p/main.py"), world_of unwrapped_plugin).
Proof. vm_compute. reflexivity. Qed.

(** A single file is the main file, whatever the possible names. *)
Example single_file_is_main :
  @get_main_file offline [] "/plugins/p" (world_of single_file_plugin)
  = (Ok (Some "/plugins/p/plugin.rb"), world_of single_file_plugin).
Proof. vm_compute. reflexivity. Qed.

(** A Makefile next to main.go: only make is run. *)
Example makefile_before_go :
  procs (snd (@handle_compilation offline "/plugins/p"
                (world_of (<[ ["plugins"; "p"; "Makefile"] := plain [] ]>
                             (go_plugin "main.go")))))
  = [["make"]].
Proof. vm_compute. reflexivity. Qed.

(** A package that is not installed is installed by one call. *)
Example absent_package_installed_once :
  procs (snd (@pip_install pip_env "PyYAML==5.1" (world_of base_fs)))
  = [["/usr/bin/python3"; "-m"; "pip"; "install"; "PyYAML==5.1"]].
Proof. vm_compute. reflexivity. Qed.

(** A path with a NUL character cannot be passed to a program: mkdir
    is not started and ValueError is raised. *)
Example create_dir_nul_byte :
  let r := @create_dir offline ("/plugins/p/a" +:+ String "000"%char "b")
             (world_of base_fs) in
  fst r = Raise (ValueError "embedded null byte") /\ procs (snd r) = [].
Proof. vm_compute. split; reflexivity. Qed.

(** A file named go in the working directory that has the execute
    bits and holds no program: OSError, which the except clause of
    the build does not name. *)
Example go_build_exec_format_error :
  fst (@handle_compilation offline "/plugins/p"
         (world_of (<[ ["home"; "user"; "go"] := File [] 493 ]>
                      (go_plugin "main.go"))))
  = Raise OSError.
Proof. vm_compute. reflexivity. Qed.

(** The only make on the execution path has no execute bit:
    PermissionError. *)
Example make_not_executable :
  fst (@check_output offline ["make"]
         (world_of (<[ ["usr"; "bin"; "make"] := plain [] ]> base_fs)))
  = Raise PermissionError.
Proof. vm_compute. reflexivity. Qed.

(** A dotted name whose parent package is missing: the lookup raises
    and pip is not started. *)
Example pip_install_dotted_name :
  let r := @pip_install pip_env "zope.interface==5.0" (world_of base_fs) in
  fst r = Raise ModuleNotFoundError /\ procs (snd r) = [].
Proof. vm_compute. split; reflexivity. Qed.

End SpecExamples.

(** * More of utils.py *)

(** ** The tree fetcher, continued *)

Section TreeFetcherMore.
Context {E : Env}.

Lemma keeps_requests_ret {A : Type} (a : A) : keeps_requests (ret a).
Proof. by intros w r w' [= <- <-]. Qed.

Lemma keeps_requests_raise {A : Type} e : keeps_requests (@raise A e).
Proof. by intros w r w' [= <- <-]. Qed.

Lemma keeps_requests_bind {A B : Type} (m : M A) (k : A -> M B) :
  keeps_requests m -> (forall a, keeps_requests (k a)) -> keeps_requests (bind m k).
Proof.
  intros Hm Hk w r w' H.
  apply bind_any in H as [(e & Hx & _)|(a & w1 & Hx & Hrest)].
  - by apply Hm in Hx.
  - apply Hm in Hx. apply Hk in Hrest. congruence.
Qed.

Lemma keeps_requests_makedirs p : keeps_requests (makedirs p).
Proof.
  unfold makedirs. destruct (String.eqb p ""); [apply keeps_requests_raise|].
  intros w r w'. unfold bind, get_world.
  destruct (mkdirs _ _ _); by intros [= <- <-].
Qed.

Lemma keeps_requests_open_w p : keeps_requests (open_w p).
Proof.
  unfold open_w. destruct (String.eqb p ""); [apply keeps_requests_raise|].
  destruct (has_nul p); [apply keeps_requests_raise|].
  destruct (PyStr.endswith "/" p); [apply keeps_requests_raise|].
  intros w r w'. unfold bind, get_world.
  destruct (lookup_node (fs w) (resolve E p)) as [[|c m]|]; try by intros [= <- <-].
  destruct (lookup_node (fs w) (removelast (resolve E p))) as [[|]|];
    by intros [= <- <-].
Qed.

Lemma keeps_requests_write_bytes p bs : keeps_requests (write_bytes p bs).
Proof.
  intros w r w'. unfold write_bytes, bind, get_world.
  destruct (lookup_node (fs w) (resolve E p)) as [[|c m]|]; by intros [= <- <-].
Qed.

Lemma keeps_requests_chmod_or p bits : keeps_requests (chmod_or p bits).
Proof.
  intros w r w'. unfold chmod_or, bind, get_world.
  destruct (lookup_node (fs w) (resolve E p)) as [[|c m]|]; by intros [= <- <-].
Qed.

Lemma keeps_requests_write_file p c : keeps_requests (write_file p c).
Proof.
  unfold write_file.
  apply keeps_requests_bind; [apply keeps_requests_open_w|]. intros _.
  apply keeps_requests_bind.
  { unfold b64decode. destruct (Codec.b64decode c);
      [apply keeps_requests_ret|apply keeps_requests_raise..]. }
  intros bs. apply keeps_requests_bind.
  { unfold decode_utf8. destruct (Codec.utf8_decode bs);
      [apply keeps_requests_ret|apply keeps_requests_raise]. }
  intros text. apply keeps_requests_write_bytes.
Qed.

Lemma keeps_requests_make_parents install_path element :
  keeps_requests (make_parents install_path element).
Proof.
  unfold make_parents. destruct (Nat.ltb _ _);
    [apply keeps_requests_makedirs|apply keeps_requests_ret].
Qed.

Lemma get_blob_requests url w r w' :
  get_blob url w = (r, w') -> requests w' = requests w ++ [url].
Proof.
  unfold get_blob, bind, log_request, answer.
  destruct (blob_api E url); by intros [= <- <-].
Qed.

(** A fetched entry makes exactly one request, whatever comes of it
    once its parent directories are made. *)
Lemma fetch_element_requests abs_path element w r w' :
  fetch_element abs_path element w = (r, w') ->
  requests w' = requests w ++ [te_url element].
Proof.
  unfold fetch_element. intros H.
  apply bind_any in H as [(e & Hx & _)|(blob & w1 & Hx & H)];
    [by apply get_blob_requests in Hx|].
  apply get_blob_requests in Hx. rewrite <- Hx.
  revert H. apply keeps_requests_bind.
  { destruct (String.eqb _ _); [apply keeps_requests_ret|apply keeps_requests_raise]. }
  intros _. apply keeps_requests_bind; [apply keeps_requests_write_file|].
  intros _. destruct (String.eqb _ _);
    [apply keeps_requests_chmod_or|apply keeps_requests_ret].
Qed.

Lemma fetched_flags element :
  fetched element = true -> hidden element = false /\ is_dir_entry element = false.
Proof.
  unfold fetched. intros [H1 H2]%andb_prop.
  by apply negb_true_iff in H1, H2.
Qed.

Lemma not_fetched_flags element :
  fetched element = false -> hidden element || is_dir_entry element = true.
Proof.
  unfold fetched. destruct (hidden element), (is_dir_entry element); done.
Qed.

Lemma dl_github_element_ok_requests install_path element w w' :
  dl_github_element install_path element w = (Ok tt, w') ->
  requests w' = requests w ++ (if fetched element then [te_url element] else []).
Proof.
  intros H. pose proof (dl_github_element_ok_path _ _ _ _ H) as Hp.
  destruct (fetched element) eqn:Hf.
  - apply fetched_flags in Hf as [Hh Hd].
    rewrite dl_github_element_fetched in H by done.
    apply bind_ok in H as ([] & w1 & Hmk & Hfetch).
    apply keeps_requests_make_parents in Hmk.
    apply fetch_element_requests in Hfetch. congruence.
  - apply not_fetched_flags in Hf.
    rewrite dl_github_element_skipped in H by done.
    injection H as <-. by rewrite app_nil_r.
Qed.

Lemma listing_ok_requests install_path l w w' :
  for_each l (dl_github_element install_path) w = (Ok tt, w') ->
  requests w' = requests w ++ List.map te_url (List.filter fetched l).
Proof.
  revert w. induction l as [|x l IH]; intros w H.
  - injection H as <-. by rewrite app_nil_r.
  - rewrite for_each_cons in H. apply bind_ok in H as ([] & w1 & Hx & Hrest).
    apply dl_github_element_ok_requests in Hx. apply IH in Hrest.
    rewrite Hrest, Hx. cbn [List.filter]. destruct (fetched x).
    + by rewrite <- app_assoc.
    + by rewrite app_nil_r.
Qed.

(** X7.  One request for the listing, then one per fetched entry, in the
    order of the listing. *)
Theorem dl_github_repo_requests install_path url w w' tree :
  tree_api E (url +:+ "?recursive=1") = Some tree ->
  dl_github_repo install_path url w = (Ok tt, w') ->
  requests w'
  = requests w ++ (url +:+ "?recursive=1")
                  :: List.map te_url (List.filter fetched tree).
Proof.
  intros Ht H. unfold dl_github_repo in H.
  apply bind_ok in H as (tree' & w1 & Hg & H).
  unfold get_tree, bind, log_request, answer in Hg. rewrite Ht in Hg.
  injection Hg as <- <-. apply listing_ok_requests in H.
  rewrite H. cbn [requests]. by rewrite <- app_assoc.
Qed.

(** X8.  Whatever the outcome of a run, an object that was there is still
    there, unchanged, unless it is a file that a fetched entry names.
    The paths are without "." and "..", so that they name the same
    file only when their components agree. *)
Theorem dl_github_repo_keeps_other_objects install_path url w r w' tree k n :
  dot_free (cwd E) = true -> dot_free install_path = true ->
  (forall e, e ∈ tree -> fetched e = true -> dot_free (te_path e) = true) ->
  tree_api E (url +:+ "?recursive=1") = Some tree ->
  dl_github_repo install_path url w = (r, w') ->
  lookup_node (fs w) k = Some n ->
  n = Dir
  \/ (forall e, e ∈ tree -> fetched e = true ->
        resolve E (PyStr.path_join install_path (te_path e)) <> k) ->
  lookup_node (fs w') k = Some n.
Proof.
  intros _ _ _ Ht H Hk Hn. unfold dl_github_repo in H.
  apply bind_any in H as [(e & Hg & _)|(tree' & w1 & Hg & H)].
  - unfold get_tree, bind, log_request, answer in Hg. by rewrite Ht in Hg.
  - unfold get_tree, bind, log_request, answer in Hg. rewrite Ht in Hg.
    injection Hg as <- <-.
    match type of H with for_each _ _ ?x = _ => set (w1 := x) in H end.
    refine (for_each_invariant (fun w0 => lookup_node (fs w0) k = Some n)
              tree (dl_github_element install_path) w1 r w' _ Hk H).
    intros x w0 r0 w2 Hx HP Hbody.
    destruct (fetched x) eqn:Hf.
    + apply pres_dl_github_element in Hbody. apply Hbody; [done|].
      destruct Hn as [->|Hn]; [by left|]. right. intros Heq.
      by apply (Hn x Hx Hf).
    + apply not_fetched_flags in Hf.
      destruct (te_path x) as [|c0 rest0] eqn:Hpx.
      * unfold dl_github_element in Hbody. rewrite Hpx in Hbody.
        by injection Hbody as <- <-.
      * rewrite dl_github_element_skipped in Hbody by (done || congruence).
        by injection Hbody as <- <-.
Qed.

Lemma chmod_or_ok p bits w w' c m :
  lookup_node (fs w) (resolve E p) = Some (File c m) ->
  chmod_or p bits w = (Ok tt, w') ->
  lookup_node (fs w') (resolve E p) = Some (File c (Z.lor m bits)).
Proof.
  intros L. unfold chmod_or, bind, get_world. rewrite L.
  intros [= <-]. cbn [fs].
  rewrite lookup_node_insert by (eapply lookup_node_nil_dir; done).
  by case_decide.
Qed.

(** X9.  An entry of mode "100755" that is fetched leaves a file with the
    owner's execute bit set. *)
Theorem executable_entry_is_marked install_path element w w' :
  dl_github_element install_path element w = (Ok tt, w') ->
  fetched element = true -> te_mode element = "100755" ->
  exists c m,
    lookup_node (fs w')
      (resolve E (PyStr.path_join install_path (te_path element)))
    = Some (File c m)
    /\ Z.testbit m 6 = true.
Proof.
  intros H Hf Hm. pose proof (dl_github_element_ok_path _ _ _ _ H) as Hp.
  apply fetched_flags in Hf as [Hh Hd].
  rewrite dl_github_element_fetched in H by done.
  apply bind_ok in H as ([] & w1 & _ & H). unfold fetch_element in H.
  apply bind_ok in H as (blob & w2 & _ & H).
  apply bind_ok in H as ([] & w3 & _ & H).
  apply bind_ok in H as ([] & w4 & Hwrite & H).
  apply write_file_ok in Hwrite as (bs & m & _ & _ & Hfile).
  rewrite Hm in H. change (String.eqb "100755" "100755") with true in H.
  unfold make_executable in H. apply (chmod_or_ok _ _ _ _ _ _ Hfile) in H.
  exists bs, (Z.lor m S_IEXEC). split; [done|].
  rewrite Z.lor_spec. apply orb_true_r.
Qed.

(** X10.  A blob whose encoding tag is not "base64" aborts the fetch after
    its request: no file is opened or written for the entry. *)
Theorem unsupported_encoding_writes_nothing install_path element w w1 blob :
  fetched element = true -> te_path element <> "" ->
  make_parents install_path element w = (Ok tt, w1) ->
  blob_api E (te_url element) = Some blob ->
  blob_encoding blob <> "base64" ->
  dl_github_element install_path element w
  = (Raise AssertionError,
     mkWorld (fs w1) (pkgs w1) (requests w1 ++ [te_url element]) (procs w1)).
Proof.
  intros Hf Hp Hmk Hb Henc. apply fetched_flags in Hf as [Hh Hd].
  rewrite dl_github_element_fetched by done.
  unfold bind at 1. rewrite Hmk. unfold fetch_element, bind at 1.
  unfold get_blob, bind at 1, log_request, answer. rewrite Hb.
  unfold ret at 1, bind at 1.
  destruct (String.eqb_spec (blob_encoding blob) "base64"); done.
Qed.

(** *** A relative install path *)

Lemma join_split_go acc s :
  PyStr.join "/" (PyStr.split_go "/" 0 acc s) = acc +:+ s.
Proof.
  revert acc. induction s as [|c s IH]; intros acc.
  - simpl. unfold PyStr.join. simpl.
    induction acc as [|x acc IHa]; [done|]. by rewrite app_cons, <- IHa.
  - destruct (ascii_dec c "/") as [->|Hc].
    + rewrite split_go_slash.
      destruct (PyStr.split_go "/" 0 "" s) as [|y l] eqn:Hs;
        [by apply split_go_nonnil in Hs|].
      rewrite join_cons, <- Hs, IH. reflexivity.
    + rewrite split_go_other, IH by done. by rewrite app_assoc_s.
Qed.

Lemma join_split s : PyStr.join "/" (PyStr.split "/" s) = s.
Proof. apply join_split_go. Qed.

(** The first field of a path that does not begin with a slash begins
    with the path's first character. *)
Lemma split_go_first acc s :
  exists f t, PyStr.split_go "/" 0 acc s = (acc +:+ f) :: t.
Proof.
  revert acc. induction s as [|c s IH]; intros acc.
  - exists "", []. simpl. f_equal.
    induction acc as [|x acc IHa]; [done|]. by rewrite app_cons, <- IHa.
  - destruct (ascii_dec c "/") as [->|Hc].
    + rewrite split_go_slash. exists "", (PyStr.split_go "/" 0 "" s). f_equal.
      induction acc as [|x acc IHa]; [done|]. by rewrite app_cons, <- IHa.
    + rewrite split_go_other by done.
      destruct (IH (acc +:+ String c "")) as (f & t & ->).
      exists (String c f), t. by rewrite app_assoc_s.
Qed.

Lemma join_first_char c x l :
  c <> "/"%char -> PyStr.startswith "/" (PyStr.join "/" (String c x :: l)) = false.
Proof.
  intros Hc. destruct l as [|y l].
  - unfold PyStr.join, PyStr.startswith. cbn [String.concat].
    rewrite prefix_cons. by destruct (ascii_dec "/" c).
  - rewrite join_cons, app_cons. unfold PyStr.startswith. rewrite prefix_cons.
    by destruct (ascii_dec "/" c).
Qed.

Lemma relative_first_char s :
  s <> "" -> PyStr.startswith "/" s = false ->
  exists c s', s = String c s' /\ c <> "/"%char.
Proof.
  destruct s as [|c s']; [done|]. intros _. unfold PyStr.startswith.
  rewrite prefix_cons, prefix_nil. destruct (ascii_dec "/" c); [done|].
  intros _. exists c, s'. split; [done|congruence].
Qed.

(** With a relative install path, the directories made for a nested
    entry are those of the install path followed by the install path
    again. *)
Lemma parents_path_relative install_path d rest :
  install_path <> "" -> PyStr.startswith "/" install_path = false ->
  PyStr.endswith "/" install_path = false ->
  d <> "" -> PyStr.startswith "/" d = false ->
  let abs_path := PyStr.path_join install_path (d +:+ "/" +:+ rest) in
  let subdirs := PyStr.join "/" (PyStr.but_last (PyStr.split "/" abs_path)) in
  exists more,
    PyStr.path_join install_path subdirs = install_path +:+ "/" +:+ subdirs
    /\ comps subdirs = comps install_path ++ comps d ++ more.
Proof.
  intros Hne Hrel Hend Hd Hdrel abs_path subdirs. subst abs_path subdirs.
  rewrite path_join_app by done.
  assert (PyStr.path_join install_path d = install_path +:+ "/" +:+ d) as HD.
  { unfold PyStr.path_join. rewrite Hdrel, Hend.
    destruct (String.eqb_spec install_path ""); done. }
  rewrite HD. set (D := install_path +:+ "/" +:+ d).
  rewrite split_app. unfold PyStr.but_last.
  rewrite removelast_app by apply split_nonnil.
  exists (List.filter nonempty (removelast (PyStr.split "/" rest))).
  destruct (relative_first_char _ Hne Hrel) as (c & s' & Hs & Hc).
  assert (PyStr.startswith "/"
            (PyStr.join "/" (PyStr.split "/" D ++ removelast (PyStr.split "/" rest)))
          = false) as Hrs.
  { unfold D. rewrite Hs, app_cons. unfold PyStr.split.
    rewrite split_go_other by done.
    destruct (split_go_first ("" +:+ String c "") (s' +:+ "/" +:+ d)) as (f & t & ->).
    rewrite <- app_comm_cons. by apply join_first_char. }
  split.
  - unfold PyStr.path_join. rewrite Hrs, Hend.
    destruct (String.eqb_spec install_path ""); done.
  - unfold comps at 1. rewrite split_join.
    + rewrite List.filter_app. unfold D. fold (comps (install_path +:+ "/" +:+ d)).
      by rewrite comps_app, <- app_assoc.
    + pose proof (split_nonnil D). by destruct (PyStr.split "/" D).
    + apply Forall_forall. intros x [Hx|Hx]%elem_of_app.
      * by apply split_fields in Hx.
      * apply removelast_fields in Hx. by apply split_fields in Hx.
Qed.

(** X11.  With a relative install path the parents of a nested entry are
    made under install_path/install_path, not under install_path. *)
Theorem relative_install_path_is_doubled install_path element d rest w w' :
  install_path <> "" -> PyStr.startswith "/" install_path = false ->
  PyStr.endswith "/" install_path = false ->
  d <> "" -> PyStr.startswith "/" d = false ->
  te_path element = d +:+ "/" +:+ rest ->
  make_parents install_path element w = (Ok tt, w') ->
  lookup_node (fs w')
    (comps (cwd E) ++ comps install_path ++ comps install_path ++ comps d)
  = Some Dir.
Proof.
  intros Hne Hrel Hend Hd Hdrel Hp. unfold make_parents.
  rewrite Hp, nested_path_length.
  destruct (parents_path_relative install_path d rest Hne Hrel Hend Hd Hdrel)
    as (more & Hj & Hc).
  rewrite Hj. unfold makedirs.
  destruct (String.eqb _ "") eqn:He.
  { apply String.eqb_eq in He. destruct install_path; done. }
  unfold bind, get_world.
  assert (resolve E (install_path +:+ "/" +:+
            PyStr.join "/" (PyStr.but_last (PyStr.split "/"
               (PyStr.path_join install_path (d +:+ "/" +:+ rest)))))
          = (comps (cwd E) ++ comps install_path ++ comps install_path ++ comps d)
            ++ more) as ->.
  { unfold resolve.
    assert (PyStr.startswith "/" (install_path +:+ "/" +:+
              PyStr.join "/" (PyStr.but_last (PyStr.split "/"
                (PyStr.path_join install_path (d +:+ "/" +:+ rest))))) = false) as ->.
    { destruct (relative_first_char _ Hne Hrel) as (c & s & -> & Hcs).
      rewrite app_cons. unfold PyStr.startswith. rewrite prefix_cons.
      by destruct (ascii_dec "/" c). }
    rewrite comps_app, Hc. by rewrite <- !app_assoc. }
  set (target := comps (cwd E) ++ comps install_path ++ comps install_path ++ comps d).
  destruct (mkdirs (fs w) [] (target ++ more)) as [f|e] eqn:Hm; [|done].
  intros [= <-]. cbn [fs].
  destruct target as [|c0 t0] using rev_ind; [done|].
  apply (mkdirs_made _ [] _ _ t0 c0 more Hm). by rewrite <- app_assoc.
Qed.

End TreeFetcherMore.

(** ** The pattern of the resolver *)

Section PatternFacts.

Lemma ends_chr c p s :
  Re.ends (Re.Chr c) (p, s)
  = match s with
    | String d s' => if Ascii.eqb c d then [(S p, s')] else []
    | EmptyString => []
    end.
Proof. reflexivity. Qed.

Lemma ends_seq r1 r2 st :
  Re.ends (Re.Seq r1 r2) st = flat_map (Re.ends r2) (Re.ends r1 st).
Proof. reflexivity. Qed.

Lemma ends_chr_inv c st st' :
  In st' (Re.ends (Re.Chr c) st) -> snd st = String c (snd st').
Proof.
  destruct st as [p s]. rewrite ends_chr. destruct s as [|d s']; [done|].
  destruct (Ascii.eqb_spec c d) as [->|]; [|done].
  by intros [<-|[]].
Qed.

Lemma ends_seq_inv r1 r2 st st'' :
  In st'' (Re.ends (Re.Seq r1 r2) st) ->
  exists st', In st' (Re.ends r1 st) /\ In st'' (Re.ends r2 st').
Proof. rewrite ends_seq. apply in_flat_map. Qed.

Lemma lit_cons2 c d l :
  Re.lit (String c (String d l)) = Re.Seq (Re.Chr c) (Re.lit (String d l)).
Proof. reflexivity. Qed.

Lemma ends_lit_inv l st st' :
  l <> "" -> In st' (Re.ends (Re.lit l) st) -> snd st = l +:+ snd st'.
Proof.
  revert st. induction l as [|c l IH]; [done|]. intros st _.
  destruct l as [|d l].
  - apply ends_chr_inv.
  - rewrite lit_cons2. intros (st1 & H1 & H2)%ends_seq_inv.
    apply ends_chr_inv in H1. apply IH in H2; [|done].
    rewrite H1, H2. reflexivity.
Qed.

Lemma ends_lit_hit l p s :
  l <> "" -> Re.ends (Re.lit l) (p, l +:+ s) = [(String.length l + p, s)].
Proof.
  revert p. induction l as [|c l IH]; [done|]. intros p _.
  destruct l as [|d l].
  - change (Re.lit (String c "")) with (Re.Chr c). rewrite app_cons, ends_chr.
    by rewrite Ascii.eqb_refl.
  - rewrite lit_cons2, ends_seq, app_cons, ends_chr, Ascii.eqb_refl.
    cbn [flat_map]. rewrite IH by done. rewrite app_nil_r.
    cbn [String.length]. do 2 f_equal. lia.
Qed.

Lemma star_iter_suffix step fuel st st' :
  (forall a b, In b (step a) -> exists c, snd a = String c (snd b)) ->
  In st' (Re.star_iter step fuel st) -> exists pre, snd st = pre +:+ snd st'.
Proof.
  intros Hstep. revert st. induction fuel as [|f IH]; intros st.
  - intros [<-|[]]. by exists "".
  - cbn [Re.star_iter]. intros [<-|H]; [by exists ""|].
    apply in_flat_map in H as (st1 & H1 & H2).
    destruct (Nat.ltb _ _); [|done].
    apply Hstep in H1 as [c Hc]. apply IH in H2 as [pre Hpre].
    exists (String c pre). rewrite Hc, Hpre. reflexivity.
Qed.

Lemma ends_any_step a b :
  In b (Re.ends Re.Any a) -> exists c, snd a = String c (snd b).
Proof.
  destruct a as [p s].
  change (Re.ends Re.Any (p, s))
    with (match s with
          | String d s' => if Ascii.eqb d Re.newline then [] else [(S p, s')]
          | EmptyString => []
          end).
  destruct s as [|d s']; [done|]. destruct (Ascii.eqb d Re.newline); [done|].
  intros [<-|[]]. by exists d.
Qed.

Lemma contains_app_r sub a b :
  PyStr.contains sub b = true -> PyStr.contains sub (a +:+ b) = true.
Proof.
  intros H. induction a as [|c a IH]; [done|].
  rewrite app_cons, contains_cons, IH. by destruct (String.prefix _ _).
Qed.

Lemma contains_prefix sub s : String.prefix sub s = true -> PyStr.contains sub s = true.
Proof.
  intros H. destruct s as [|c s].
  - change (PyStr.contains sub "")
      with (if String.prefix sub "" then true else false). by rewrite H.
  - by rewrite contains_cons, H.
Qed.

Lemma prefix_self_app l s : String.prefix l (l +:+ s) = true.
Proof.
  induction l as [|c l IH]; [apply prefix_nil|].
  rewrite app_cons, prefix_cons. by destruct (ascii_dec c c).
Qed.

Lemma endswith_cons p c s :
  PyStr.endswith p (String c s)
  = if String.eqb p (String c s) then true else PyStr.endswith p s.
Proof. reflexivity. Qed.

Lemma endswith_refl p : PyStr.endswith p p = true.
Proof.
  destruct p as [|c p]; [reflexivity|]. by rewrite endswith_cons, String.eqb_refl.
Qed.

Lemma endswith_app_r p a b :
  PyStr.endswith p b = true -> PyStr.endswith p (a +:+ b) = true.
Proof.
  intros H. induction a as [|c a IH]; [done|].
  rewrite app_cons, endswith_cons, IH. by destruct (String.eqb _ _).
Qed.

Lemma endswith_split p s :
  PyStr.endswith p s = true -> exists pre, s = pre +:+ p.
Proof.
  induction s as [|c s IH].
  - simpl. destruct (String.eqb_spec p ""); [|done]. intros _. exists "". by subst.
  - rewrite endswith_cons. destruct (String.eqb_spec p (String c s)) as [->|].
    + intros _. by exists "".
    + intros [pre ->]%IH. by exists (String c pre).
Qed.

Lemma search_from_split r pos s :
  Re.search_from r pos s = true ->
  exists pre suf, s = pre +:+ suf
                  /\ Re.matches_at r (String.length pre + pos, suf) = true.
Proof.
  revert pos. induction s as [|c s IH]; intros pos.
  - simpl. destruct (Re.matches_at r (pos, "")) eqn:Hm; [|done].
    intros _. by exists "", "".
  - rewrite search_from_cons. destruct (Re.matches_at r (pos, String c s)) eqn:Hm.
    + intros _. by exists "", (String c s).
    + intros (pre & suf & -> & H)%IH. exists (String c pre), suf.
      split; [done|]. cbn [String.length].
      by replace (S (String.length pre) + pos) with (String.length pre + S pos) by lia.
Qed.

Lemma search_from_app r pos pre suf :
  Re.matches_at r (String.length pre + pos, suf) = true ->
  Re.search_from r pos (pre +:+ suf) = true.
Proof.
  revert pos. induction pre as [|c pre IH]; intros pos H.
  - destruct suf; simpl in *; by rewrite H.
  - rewrite app_cons, search_from_cons.
    destruct (Re.matches_at r (pos, String c (pre +:+ suf))); [done|].
    apply IH. cbn [String.length] in H.
    by replace (String.length pre + S pos) with (S (String.length pre) + pos) by lia.
Qed.

Lemma nonnil_in {A : Type} (l : list A) :
  match l with [] => false | _ :: _ => true end = true -> exists x, In x l.
Proof. destruct l as [|x l]; [done|]. intros _. exists x. by left. Qed.

Lemma in_nonnil {A : Type} (l : list A) x :
  In x l -> match l with [] => false | _ :: _ => true end = true.
Proof. by destruct l. Qed.

Lemma ends_eol_inv st st' :
  In st' (Re.ends Re.Eol st) -> snd st = "" \/ snd st = String Re.newline "".
Proof.
  destruct st as [p s].
  change (Re.ends Re.Eol (p, s))
    with (match s with
          | EmptyString => [(p, s)]
          | String d EmptyString => if Ascii.eqb d Re.newline then [(p, s)] else []
          | _ => []
          end).
  destruct s as [|d [|e s]]; [by left| |done].
  destruct (Ascii.eqb_spec d Re.newline) as [->|]; [by right|done].
Qed.

Lemma ends_bol_inv st st' : In st' (Re.ends Re.Bol st) -> st' = st.
Proof.
  destruct st as [p s].
  change (Re.ends Re.Bol (p, s)) with (match p with O => [(p, s)] | S _ => [] end).
  destruct p; [|done]. by intros [<-|[]].
Qed.

(** What the pattern matches, at one position. *)
Lemma matches_at_excluded pos suf :
  Re.matches_at source_file_pattern (pos, suf) = true -> excluded suf = true.
Proof.
  unfold Re.matches_at, source_file_pattern. intros [st H]%nonnil_in.
  rewrite !ends_alt in H. unfold excluded.
  apply in_app_or in H as [H|H]; [|apply in_app_or in H as [H|H]].
  - apply ends_seq_inv in H as (st1 & Hbol & H).
    apply ends_bol_inv in Hbol as ->.
    apply ends_seq_inv in H as (st2 & Hstar & H).
    apply ends_lit_inv in H; [|done].
    change (Re.ends (Re.Star Re.Any) (pos, suf))
      with (Re.star_iter (Re.ends Re.Any) (String.length suf) (pos, suf)) in Hstar.
    apply (star_iter_suffix _ _ _ _ ends_any_step) in Hstar as [pre Hpre].
    assert (PyStr.contains ".c" suf = true) as ->; [|done].
    cbn [snd] in Hpre. rewrite Hpre, H. apply contains_app_r, contains_prefix.
    apply (prefix_app_l ".c" ".cpp"). reflexivity.
  - apply ends_lit_inv in H; [|done]. simpl in H. rewrite H.
    by rewrite (contains_prefix ".c" _ (prefix_self_app ".c" _)).
  - apply ends_seq_inv in H as (st1 & H & Heol).
    apply ends_lit_inv in H; [|done]. simpl in H.
    apply ends_eol_inv in Heol as [He|He]; rewrite H, He.
    + change (".go" +:+ "") with ".go". rewrite endswith_refl. by rewrite orb_true_r.
    + rewrite endswith_refl. by rewrite !orb_true_r.
Qed.

Lemma excluded_app_r pre suf : excluded suf = true -> excluded (pre +:+ suf) = true.
Proof.
  unfold excluded. intros [[H|H]%orb_prop|H]%orb_prop.
  - by rewrite contains_app_r.
  - rewrite (endswith_app_r _ pre suf H). by rewrite orb_true_r.
  - rewrite (endswith_app_r _ pre suf H). by rewrite !orb_true_r.
Qed.

Lemma matches_at_go_end pos tail :
  tail = "" \/ tail = String Re.newline "" ->
  Re.matches_at source_file_pattern (pos, ".go" +:+ tail) = true.
Proof.
  intros Htail. unfold Re.matches_at, source_file_pattern.
  apply (in_nonnil _ (3 + pos, tail)).
  rewrite !ends_alt. apply in_or_app. right. apply in_or_app. right.
  rewrite ends_seq, (ends_lit_hit ".go" pos tail) by done.
  cbn [flat_map]. rewrite app_nil_r.
  destruct Htail as [->| ->]; by left.
Qed.

Lemma search_source_file_pattern s :
  Re.search source_file_pattern s = excluded s.
Proof.
  destruct (excluded s) eqn:Hex.
  - unfold excluded in Hex.
    apply orb_prop in Hex as [[H|H]%orb_prop|H].
    + by apply search_dot_c.
    + apply endswith_split in H as [pre ->].
      apply search_from_app. change ".go" with (".go" +:+ "").
      apply matches_at_go_end. by left.
    + apply endswith_split in H as [pre ->].
      apply search_from_app. apply matches_at_go_end. by right.
  - destruct (Re.search source_file_pattern s) eqn:Hs; [|done].
    apply search_from_split in Hs as (pre & suf & -> & Hm).
    apply matches_at_excluded in Hm. apply (excluded_app_r pre) in Hm. congruence.
Qed.

(** X4.  The pattern of [get_main_file] is found in a string exactly when
    the string contains ".c" or ends with ".go", or with ".go" and a
    newline: the dot of ".c" is literal, and nothing has to follow the
    "c". *)
Theorem source_file_pattern_matches s :
  Re.search source_file_pattern s = true
  <-> PyStr.contains ".c" s = true
      \/ PyStr.endswith ".go" s = true
      \/ PyStr.endswith (".go" +:+ String Re.newline "") s = true.
Proof.
  rewrite search_source_file_pattern. unfold excluded.
  rewrite !orb_true_iff. tauto.
Qed.

End PatternFacts.

Section ResolverMore.
Context {E : Env}.

Lemma candidates_filter install_path content w :
  candidates install_path content w
  = (Ok (List.filter (scanned install_path w) content), w).
Proof.
  induction content as [|f content IH]; [done|].
  cbn [candidates List.filter]. unfold bind at 1.
  unfold is_candidate, bind at 1, isfile at 1, ret at 1.
  unfold bind. rewrite IH. unfold ret, scanned, is_plain_file.
  rewrite search_source_file_pattern.
  by destruct (lookup_node _ _) as [[|]|], (excluded _).
Qed.

Lemma filter_sublist {A : Type} (f : A -> bool) (l : list A) :
  sublist (List.filter f l) l.
Proof.
  induction l as [|x l IH]; [constructor|].
  cbn [List.filter]. destruct (f x); by constructor.
Qed.

(** X5.  The scan of a listing never fails and leaves the world alone; its
    candidates come in the order of the listing, and they are the
    plain files whose joined path neither contains ".c" nor ends with
    ".go" (or ".go" and a newline). *)
Theorem candidates_are_scanned install_path content w :
  exists l,
    candidates install_path content w = (Ok l, w)
    /\ sublist l content
    /\ forall f,
         f ∈ l
         <-> f ∈ content
             /\ is_plain_file w (PyStr.path_join install_path f) = true
             /\ excluded (PyStr.path_join install_path f) = false.
Proof.
  exists (List.filter (scanned install_path w) content).
  split; [apply candidates_filter|]. split; [apply filter_sublist|].
  intros f. rewrite !list_elem_of_In, filter_In. unfold scanned.
  rewrite andb_true_iff, negb_true_iff. tauto.
Qed.

Lemma matches_any_true possible_filenames filename :
  matches_any possible_filenames filename = true ->
  exists n, n ∈ possible_filenames /\ PyStr.contains n filename = true.
Proof.
  induction possible_filenames as [|n l IH]; [done|]. cbn [matches_any].
  destruct (PyStr.contains n filename) eqn:Hc.
  - intros _. exists n. split; [apply elem_of_cons; auto|done].
  - intros (m & Hm & Hcm)%IH. exists m. split; [apply elem_of_cons; auto|done].
Qed.

Lemma matches_any_false possible_filenames filename n :
  matches_any possible_filenames filename = false ->
  n ∈ possible_filenames -> PyStr.contains n filename = false.
Proof.
  induction possible_filenames as [|m l IH]; [by intros _ ?%elem_of_nil|].
  cbn [matches_any]. destruct (PyStr.contains m filename) eqn:Hc; [done|].
  intros H [->|Hn]%elem_of_cons; [done|]. by apply IH.
Qed.

(** The scan answers the first file, in the order of the listing, whose
    name contains one of the possible names. *)
Lemma scan_first_match possible_filenames install_path files :
  match scan possible_filenames install_path files with
  | Some p =>
      exists pre f post,
        files = pre ++ f :: post
        /\ p = PyStr.path_join install_path f
        /\ (exists n, n ∈ possible_filenames /\ PyStr.contains n f = true)
        /\ (forall g n, g ∈ pre -> n ∈ possible_filenames ->
                        PyStr.contains n g = false)
  | None =>
      forall f n, f ∈ files -> n ∈ possible_filenames ->
                  PyStr.contains n f = false
  end.
Proof.
  induction files as [|f files IH]; [by intros f n ?%elem_of_nil|].
  cbn [scan]. destruct (matches_any possible_filenames f) eqn:Hm.
  - exists [], f, files. repeat split; [by apply matches_any_true|].
    by intros g n ?%elem_of_nil.
  - destruct (scan possible_filenames install_path files) as [p|].
    + destruct IH as (pre & g & post & -> & -> & Hg & Hpre).
      exists (f :: pre), g, post. repeat split; [done|].
      intros h n [->|Hh]%elem_of_cons Hn; [by eapply matches_any_false|by eapply Hpre].
    + intros g n [->|Hg]%elem_of_cons Hn; [by eapply matches_any_false|by eapply IH].
Qed.

(** X6.  In a directory that does not hold exactly one entry, the main
    file is the first scanned file whose name contains a possible
    name; nothing on disk changes. *)
Theorem get_main_file_first_match possible_filenames install_path w content :
  listdir install_path w = (Ok content, w) ->
  length content <> 1 ->
  exists r,
    get_main_file possible_filenames install_path w = (Ok r, w)
    /\ match r with
       | Some p =>
           exists pre f post,
             List.filter (scanned install_path w) content = pre ++ f :: post
             /\ p = PyStr.path_join install_path f
             /\ (exists n, n ∈ possible_filenames /\ PyStr.contains n f = true)
             /\ (forall g n, g ∈ pre -> n ∈ possible_filenames ->
                             PyStr.contains n g = false)
       | None =>
           forall f n, f ∈ List.filter (scanned install_path w) content ->
                       n ∈ possible_filenames -> PyStr.contains n f = false
       end.
Proof.
  intros Hl Hlen.
  exists (scan possible_filenames install_path
            (List.filter (scanned install_path w) content)).
  split; [|apply scan_first_match].
  unfold get_main_file, bind at 1. rewrite Hl.
  assert (match content with
          | [c0] =>
              bind (isdir (PyStr.path_join install_path c0))
                (fun d =>
                   if negb d then ret (inl (PyStr.path_join install_path c0))
                   else
                     bind (listdir (PyStr.path_join install_path c0))
                       (fun inner =>
                          bind (for_each inner
                                  (fun f =>
                                     rename
                                       (PyStr.path_join
                                          (PyStr.path_join install_path c0) f)
                                       (PyStr.path_join install_path f)))
                            (fun _ =>
                               bind (rmdir (PyStr.path_join install_path c0))
                                 (fun _ =>
                                    bind (listdir install_path)
                                      (fun content' => ret (inr content'))))))
          | _ => ret (inr content)
          end = ret (inr content)) as ->.
  { by destruct content as [|a [|b l]]. }
  unfold bind at 1, ret at 1. unfold bind.
  by rewrite candidates_filter.
Qed.

End ResolverMore.

(** ** The folder fetcher *)

Section UrlPattern.

Lemma adjacent_pair_cons c1 c2 t :
  adjacent_pair (String c1 (String c2 t))
  = (PyStr.mem_char c1 "api.github.com/repos/" && PyStr.mem_char c2 "/contents/")
    || adjacent_pair (String c2 t).
Proof. reflexivity. Qed.

Lemma adjacent_pair_app_r pre suf :
  adjacent_pair suf = true -> adjacent_pair (pre +:+ suf) = true.
Proof.
  intros H. induction pre as [|c pre IH]; [done|].
  rewrite app_cons. destruct (pre +:+ suf) as [|d t] eqn:Ht; [done|].
  rewrite adjacent_pair_cons, IH. apply orb_true_r.
Qed.

Lemma search_from_adjacent pos s :
  adjacent_pair s = true -> Re.search_from contents_url_pattern pos s = true.
Proof.
  revert pos. induction s as [|c1 s IH]; intros pos; [done|].
  destruct s as [|c2 t]; [done|].
  rewrite adjacent_pair_cons, search_from_cons.
  destruct (PyStr.mem_char c1 _ && PyStr.mem_char c2 _) eqn:Hp.
  - apply andb_prop in Hp as [H1 H2]. intros _.
    by rewrite matches_at_adjacent.
  - intros H. destruct (Re.matches_at _ _); [done|]. by apply IH.
Qed.

Lemma ends_set_inv cs st st' :
  In st' (Re.ends (Re.Set_ cs) st) ->
  exists c, PyStr.mem_char c cs = true /\ snd st = String c (snd st').
Proof.
  destruct st as [p s].
  change (Re.ends (Re.Set_ cs) (p, s))
    with (match s with
          | String d s' => if PyStr.mem_char d cs then [(S p, s')] else []
          | EmptyString => []
          end).
  destruct s as [|d s']; [done|]. destruct (PyStr.mem_char d cs) eqn:Hd; [|done].
  intros [<-|[]]. by exists d.
Qed.

Lemma star_iter_set_consumed cs fuel st st' :
  In st' (Re.star_iter (Re.ends (Re.Set_ cs)) fuel st) ->
  exists pre, all_in cs pre = true /\ snd st = pre +:+ snd st'.
Proof.
  revert st. induction fuel as [|f IH]; intros st.
  - intros [<-|[]]. by exists "".
  - cbn [Re.star_iter]. intros [<-|H]; [by exists ""|].
    apply in_flat_map in H as (st1 & H1 & H2).
    destruct (Nat.ltb _ _); [|done].
    apply ends_set_inv in H1 as (c & Hc & Hs). apply IH in H2 as (pre & Hpre & Hs').
    exists (String c pre). split; [by cbn [all_in]; rewrite Hc|].
    rewrite Hs, Hs'. reflexivity.
Qed.

Lemma ends_plus_set_inv cs st st' :
  In st' (Re.ends (Re.Plus (Re.Set_ cs)) st) ->
  exists c pre, PyStr.mem_char c cs = true /\ all_in cs pre = true
                /\ snd st = String c (pre +:+ snd st').
Proof.
  change (Re.ends (Re.Plus (Re.Set_ cs)) st)
    with (flat_map (Re.star_iter (Re.ends (Re.Set_ cs)) (String.length (snd st)))
                   (Re.ends (Re.Set_ cs) st)).
  intros (st1 & H1 & H2)%in_flat_map.
  apply ends_set_inv in H1 as (c & Hc & Hs).
  apply star_iter_set_consumed in H2 as (pre & Hpre & Hs').
  exists c, pre. repeat split; [done..|]. by rewrite Hs, Hs'.
Qed.

Lemma adjacent_pair_run c pre d rest :
  PyStr.mem_char c "api.github.com/repos/" = true ->
  all_in "api.github.com/repos/" pre = true ->
  PyStr.mem_char d "/contents/" = true ->
  adjacent_pair (String c (pre +:+ String d rest)) = true.
Proof.
  revert c. induction pre as [|c' pre IH]; intros c Hc Hpre Hd.
  - change ("" +:+ String d rest) with (String d rest).
    by rewrite adjacent_pair_cons, Hc, Hd.
  - cbn [all_in] in Hpre. apply andb_prop in Hpre as [Hc' Hpre].
    rewrite app_cons, adjacent_pair_cons, IH by done. apply orb_true_r.
Qed.

Lemma matches_at_adjacent_inv pos suf :
  Re.matches_at contents_url_pattern (pos, suf) = true -> adjacent_pair suf = true.
Proof.
  unfold Re.matches_at, contents_url_pattern. intros [st H]%nonnil_in.
  apply ends_seq_inv in H as (st1 & H1 & H2).
  apply ends_plus_set_inv in H1 as (c & pre & Hc & Hpre & Hs).
  apply ends_plus_set_inv in H2 as (d & pre' & Hd & _ & Hs').
  cbn [snd] in Hs. rewrite Hs, Hs'. by apply adjacent_pair_run.
Qed.

Lemma search_contents_url_pattern s :
  Re.search contents_url_pattern s = adjacent_pair s.
Proof.
  destruct (adjacent_pair s) eqn:Ha.
  - by apply search_from_adjacent.
  - destruct (Re.search contents_url_pattern s) eqn:Hs; [|done].
    apply search_from_split in Hs as (pre & suf & -> & Hm).
    apply matches_at_adjacent_inv in Hm.
    apply (adjacent_pair_app_r pre) in Hm. congruence.
Qed.

Lemma adjacent_pair_spec s :
  adjacent_pair s = true
  <-> exists pre c1 c2 suf,
        s = pre +:+ String c1 (String c2 suf)
        /\ PyStr.mem_char c1 "api.github.com/repos/" = true
        /\ PyStr.mem_char c2 "/contents/" = true.
Proof.
  split.
  - induction s as [|c1 t IH]; [done|].
    destruct t as [|c2 t]; [done|].
    rewrite adjacent_pair_cons. intros [[H1 H2]%andb_prop|H]%orb_prop.
    + by exists "", c1, c2, t.
    + destruct (IH H) as (pre & d1 & d2 & suf & -> & H1 & H2).
      by exists (String c1 pre), d1, d2, suf.
  - intros (pre & c1 & c2 & suf & -> & H1 & H2).
    apply adjacent_pair_app_r. by rewrite adjacent_pair_cons, H1, H2.
Qed.

(** X12.  The URL pattern of [dl_folder_from_github] is found in a string
    exactly when a character of "api.github.com/repos/" is directly
    followed by a character of "/contents/": the brackets make two
    character sets, not the two texts. *)
Theorem contents_url_pattern_matches s :
  Re.search contents_url_pattern s = true
  <-> exists pre c1 c2 suf,
        s = pre +:+ String c1 (String c2 suf)
        /\ PyStr.mem_char c1 "api.github.com/repos/" = true
        /\ PyStr.mem_char c2 "/contents/" = true.
Proof.
  rewrite search_contents_url_pattern. apply adjacent_pair_spec.
Qed.

End UrlPattern.

Section FolderFetcher.
Context {E : Env}.

Lemma dl_folder_from_github_succ depth install_path url :
  dl_folder_from_github (S depth) install_path url
  = if negb (Re.search contents_url_pattern url)
    then raise (ValueError "Unsupported url")
    else
      bind (get_contents url)
        (fun json_content =>
           match json_content with
           | ContentsObject (Some _) (Some git_url) =>
               dl_github_repo install_path git_url
           | ContentsObject (Some _) None => raise KeyError
           | ContentsObject None _ => raise (ValueError "Could not parse json")
           | ContentsList l => for_each l (folder_entry depth install_path url)
           end).
Proof. reflexivity. Qed.

(** X13.  A URL without such a pair of characters is refused before any
    request: the world is unchanged. *)
Theorem url_without_pair_is_refused depth install_path url w :
  adjacent_pair url = false ->
  dl_folder_from_github (S depth) install_path url w
  = (Raise (ValueError "Unsupported url"), w).
Proof.
  intros H. rewrite dl_folder_from_github_succ, search_contents_url_pattern, H.
  reflexivity.
Qed.

Lemma pres_urlretrieve url dest :
  pres (stable_except (resolve E dest)) (urlretrieve url dest).
Proof.
  unfold urlretrieve. apply pres_bind; [apply stable_trans| |].
  { intros w r w' [= <- <-]. apply stable_refl. }
  intros _. apply pres_bind; [apply stable_trans| |].
  { unfold answer. destruct (raw_get E url);
      [apply pres_ret|apply pres_raise]; apply stable_refl. }
  intros bs. apply pres_bind; [apply stable_trans|apply pres_open_w|].
  intros _. apply pres_write_bytes.
Qed.

Lemma urlretrieve_ok url dest w w' :
  urlretrieve url dest w = (Ok tt, w') ->
  exists bs m, raw_get E url = Some bs
               /\ lookup_node (fs w') (resolve E dest) = Some (File bs m).
Proof.
  unfold urlretrieve. intros H.
  apply bind_ok in H as ([] & w1 & _ & H).
  apply bind_ok in H as (bs & w2 & Ha & H).
  apply bind_ok in H as ([] & w3 & Hopen & H).
  unfold answer in Ha. destruct (raw_get E url) as [bs'|]; [|done].
  injection Ha as -> ->.
  apply open_w_ok in Hopen as [m Hm].
  apply (write_bytes_ok _ _ _ _ _ _ Hm) in H.
  by exists bs, m.
Qed.

(** X14.  A file of a folder listing is written byte for byte as it is
    served, whatever the bytes; later file entries with other names
    leave it alone. *)
Theorem folder_file_written_verbatim
  depth install_path url w w' pre i post download_url bs :
  contents_api E url = Some (ContentsList (pre ++ i :: post)) ->
  dl_folder_from_github (S depth) install_path url w = (Ok tt, w') ->
  ce_download_url i = Some (Some download_url) ->
  raw_get E download_url = Some bs ->
  Forall (fun j =>
            is_file_entry j = true
            /\ resolve E (PyStr.path_join install_path (ce_name j))
               <> resolve E (PyStr.path_join install_path (ce_name i)))
         post ->
  exists m,
    lookup_node (fs w') (resolve E (PyStr.path_join install_path (ce_name i)))
    = Some (File bs m).
Proof.
  intros Hc Hrun Hi Hraw Hpost. rewrite dl_folder_from_github_succ in Hrun.
  destruct (negb _); [done|].
  apply bind_ok in Hrun as (json & w1 & Hg & Hrun).
  unfold get_contents, bind, log_request, answer in Hg. rewrite Hc in Hg.
  injection Hg as <- <-.
  apply for_each_app_ok in Hrun as (w2 & _ & Hrun).
  rewrite for_each_cons in Hrun. apply bind_ok in Hrun as ([] & w3 & Hstep & Hrest).
  unfold folder_entry in Hstep. rewrite Hi in Hstep.
  apply urlretrieve_ok in Hstep as (bs' & m & Hraw' & Hfile).
  assert (bs' = bs) as -> by congruence.
  set (k := resolve E (PyStr.path_join install_path (ce_name i))) in *.
  refine (for_each_invariant
            (fun w0 => exists m0, lookup_node (fs w0) k = Some (File bs m0))
            post (folder_entry depth install_path url) w3 (Ok tt) w' _ _ Hrest);
    [|by exists m].
  intros j w0 r0 w4 Hj [m0 Hm0] Hbody. exists m0.
  rewrite Forall_forall in Hpost. destruct (Hpost j Hj) as [Hfile_j Hne].
  unfold folder_entry in Hbody. unfold is_file_entry in Hfile_j.
  destruct (ce_download_url j) as [[u|]|]; [|done..].
  apply pres_urlretrieve in Hbody. apply Hbody; auto.
Qed.

End FolderFetcher.

(** ** The build orchestrator *)

Section BuildMore.
Context {E : Env}.

Lemma split_go_char_hit sc acc s :
  PyStr.split_go (String sc "") 0 acc (String sc s)
  = acc :: PyStr.split_go (String sc "") 0 "" s.
Proof.
  rewrite split_go_cons, prefix_cons, prefix_nil.
  by destruct (ascii_dec sc sc).
Qed.

Lemma split_go_char_miss sc acc c s :
  c <> sc ->
  PyStr.split_go (String sc "") 0 acc (String c s)
  = PyStr.split_go (String sc "") 0 (acc +:+ String c "") s.
Proof.
  intros H. rewrite split_go_cons, prefix_cons.
  destruct (ascii_dec sc c); [congruence|done].
Qed.

Lemma split_go_char_nonnil sc acc s : PyStr.split_go (String sc "") 0 acc s <> [].
Proof.
  revert acc. induction s as [|c s IH]; intros acc; [done|].
  destruct (ascii_dec c sc) as [->|Hc].
  - by rewrite split_go_char_hit.
  - rewrite split_go_char_miss by done. apply IH.
Qed.

(** A name that contains the separator has at least two fields. *)
Lemma split_go_char_two sc acc s :
  PyStr.contains (String sc "") s = true ->
  exists a b t, PyStr.split_go (String sc "") 0 acc s = a :: b :: t.
Proof.
  revert acc. induction s as [|c s IH]; intros acc; [done|].
  rewrite contains_cons, prefix_cons, prefix_nil.
  destruct (ascii_dec sc c) as [<-|Hc].
  - intros _. rewrite split_go_char_hit.
    destruct (PyStr.split_go (String sc "") 0 "" s) as [|b t] eqn:Hs;
      [by apply split_go_char_nonnil in Hs|].
    by exists acc, b, t.
  - intros H. rewrite split_go_char_miss by congruence. by apply IH.
Qed.

Lemma makefile_loop_found content otherwise :
  "Makefile" ∈ content -> makefile_loop content otherwise = check_output ["make"].
Proof.
  induction content as [|name content IH]; [by intros ?%elem_of_nil|].
  cbn [makefile_loop]. destruct (String.eqb_spec name "Makefile") as [|Hn]; [done|].
  intros [Heq|H]%elem_of_cons; [congruence|by apply IH].
Qed.

Lemma makefile_loop_absent content otherwise :
  "Makefile" ∉ content -> makefile_loop content otherwise = otherwise.
Proof.
  induction content as [|name content IH]; [done|]. intros Hn.
  cbn [makefile_loop]. destruct (String.eqb_spec name "Makefile") as [->|_].
  - exfalso. apply Hn. apply elem_of_cons. auto.
  - apply IH. intros H. apply Hn. apply elem_of_cons. auto.
Qed.

(** X17.  With a Makefile among the entries, the whole of
    [handle_compilation] is the one call of make; nothing is tried for
    Go sources, whatever else the directory holds. *)
Theorem makefile_runs_only_make directory w content :
  listdir directory w = (Ok content, w) ->
  "Makefile" ∈ content ->
  handle_compilation directory w = check_output ["make"] w.
Proof.
  intros Hl Hm. unfold handle_compilation, bind. rewrite Hl.
  by rewrite makefile_loop_found.
Qed.

Lemma for_each_noop {A : Type} (l : list A) (body : A -> M unit) w :
  (forall x, x ∈ l -> body x w = (Ok tt, w)) -> for_each l body w = (Ok tt, w).
Proof.
  induction l as [|x l IH]; intros H; [done|].
  rewrite for_each_cons. unfold bind. rewrite H by (apply elem_of_cons; auto).
  apply IH. intros y Hy. apply H. apply elem_of_cons. auto.
Qed.

(** X18.  Without a Makefile and without a name whose second dot-separated
    field is "go", nothing is started and nothing changes. *)
Theorem no_build_descriptor_is_noop directory w content :
  listdir directory w = (Ok content, w) ->
  "Makefile" ∉ content ->
  (forall f, f ∈ content -> second_field_is_go f = false) ->
  handle_compilation directory w = (Ok tt, w).
Proof.
  intros Hl Hm Hgo. unfold handle_compilation, bind. rewrite Hl.
  rewrite makefile_loop_absent by done.
  apply for_each_noop. intros f Hf.
  apply list_elem_of_In, filter_In in Hf as [Hf Hdot].
  apply list_elem_of_In, Hgo in Hf. unfold second_field_is_go in Hf.
  destruct (PyStr.item (PyStr.split "." f) 1) as [second|] eqn:Hi.
  - by rewrite Hf.
  - destruct (split_go_char_two "." "" f Hdot) as (a & b & t & Hs).
    unfold PyStr.split in Hi. by rewrite Hs in Hi.
Qed.

(** *** The Go build *)

Lemma abspath_has_slash p :
  PyStr.startswith "/" (cwd E) = true -> PyStr.contains "/" (abspath p) = true.
Proof.
  intros H. unfold abspath, PyStr.path_join.
  destruct (PyStr.startswith "/" p) eqn:Hp; [by apply contains_prefix|].
  destruct (_ || _); by apply contains_prefix, prefix_app_l.
Qed.

Lemma abspath_no_nul p : has_nul p = false -> has_nul (abspath p) = false.
Proof.
  intros Hp. unfold abspath, PyStr.path_join, has_nul in *.
  destruct (PyStr.startswith "/" p); [done|].
  destruct (_ || _); rewrite !mem_char_app, (cwd_no_nul E), Hp; done.
Qed.

(** X19.  The go program is looked for at the working directory only: when
    nothing is there, the build fails with the "is golang installed ?"
    error, whatever the execution path holds, and nothing changes. *)
Theorem go_build_looks_in_working_directory w :
  PyStr.startswith "/" (cwd E) = true ->
  lookup_node (fs w) (resolve E (abspath "go")) = None ->
  go_build w = (Raise (PyException go_build_message), w).
Proof.
  intros Hcwd Hgo. unfold go_build, catch, check_output, bind at 1, spawn.
  assert (existsb has_nul [abspath "go"; "build"] = false) as ->.
  { cbn [existsb]. change (has_nul "build") with false.
    rewrite !orb_false_r. by apply abspath_no_nul. }
  unfold bind, get_world, which, exec_candidates.
  rewrite abspath_has_slash by done. cbn [List.find exec_failure].
  unfold is_exec_file, exec_error. by rewrite Hgo.
Qed.

(** X20.  A failing Go build never lets FileNotFoundError or
    CalledProcessError out: it raises the one descriptive exception, or
    an exception of the subprocess call that the except clause does
    not name. *)
Theorem go_build_errors w e w' :
  go_build w = (Raise e, w') ->
  e <> FileNotFoundError /\ e <> CalledProcessError
  /\ (e = PyException go_build_message
      \/ check_output [abspath "go"; "build"] w = (Raise e, w')).
Proof.
  unfold go_build, catch.
  destruct (check_output [abspath "go"; "build"] w) as [[[]|e0] w1] eqn:Hc; [done|].
  destruct e0; intros [= <- <-]; (split; [done|]); (split; [done|]);
    first [by left | by right].
Qed.

End BuildMore.

(** ** Requirements and directories *)

Section InstallerMore.
Context {E : Env}.

(** X21.  With an exact constraint and a module whose version parses, the
    package is installed again exactly when the declared version is
    greater than the installed one. *)
Theorem pip_install_upgrade_rule package declared pv v iv w :
  PyStr.contains "==" package = true ->
  PyStr.item (PyStr.split "==" package) 1 = Some declared ->
  version_parse E declared = Some pv ->
  pkgs w !! package_name_of package = Some (Some v) ->
  version_parse E v = Some iv ->
  pip_install package w
  = if version_gt E pv iv then run_pip package w else (Ok tt, w).
Proof.
  intros Hc Hi Hpv Hv Hiv. unfold pip_install, bind at 1.
  rewrite find_spec_found by eauto. unfold bind at 1, ret at 1. rewrite Hc, Hi.
  unfold bind at 1, parse at 1. rewrite Hpv. unfold ret at 1, catch.
  unfold bind at 1, import_module_version, bind at 1, get_world. rewrite Hv.
  unfold ret at 1, bind at 1, parse at 1. rewrite Hiv. unfold ret at 1.
  destruct (version_gt E pv iv); [|done].
  destruct (run_pip package w) as [[[]|e] w1] eqn:Hr; [done|].
  destruct (check_output_raises _ _ _ _ Hr) as [-> | [Ho | [msg ->]]]; try done.
  unfold os_error in Ho. by destruct Ho as [-> | [-> | [-> | [-> | [-> | ->]]]]].
Qed.

Lemma bind_ret_unit (m : M unit) w : bind m (fun _ => ret tt) w = m w.
Proof. unfold bind, ret. by destruct (m w) as [[[]|e] w1]. Qed.

Lemma for_each_ext_in {A : Type} (l : list A) (f g : A -> M unit) w :
  (forall x w0, x ∈ l -> f x w0 = g x w0) -> for_each l f w = for_each l g w.
Proof.
  revert w. induction l as [|x l IH]; intros w H; [done|].
  rewrite !for_each_cons. unfold bind. rewrite H by (apply elem_of_cons; auto).
  destruct (g x w) as [[[]|e] w1]; [|done].
  apply IH. intros y w0 Hy. apply H. apply elem_of_cons; auto.
Qed.

(** X15.  A directory without a name containing "requirements": nothing is
    read or installed. *)
Theorem no_requirements_file_is_noop directory w content :
  listdir directory w = (Ok content, w) ->
  (forall f, f ∈ content -> PyStr.contains "requirements" f = false) ->
  handle_requirements directory w = (Ok tt, w).
Proof.
  intros Hl Hn. unfold handle_requirements, bind. rewrite Hl.
  apply for_each_noop. intros f Hf. by rewrite (Hn f Hf).
Qed.

(** X16.  The lines of a requirements file that reach [pip_install] are
    all the lines except those that are exactly a newline or exactly
    one space, in the order of the file. *)
Theorem requirements_lines_installed directory w filename ls :
  listdir directory w = (Ok [filename], w) ->
  PyStr.contains "requirements" filename = true ->
  read_lines (PyStr.path_join directory filename) w = (Ok ls, w) ->
  handle_requirements directory w
  = for_each (List.filter is_requirement ls) pip_install w.
Proof.
  intros Hl Hc Hr. unfold handle_requirements, bind at 1. rewrite Hl.
  rewrite for_each_cons. cbn [for_each]. rewrite Hc.
  rewrite bind_ret_unit. unfold bind. rewrite Hr.
  rewrite (for_each_filter is_requirement).
  - apply for_each_ext_in. intros line w0 Hline.
    apply list_elem_of_In, filter_In in Hline as [_ Hk].
    unfold is_requirement in Hk. apply negb_true_iff in Hk. by rewrite Hk.
  - intros line w0. unfold is_requirement. intros Hk%negb_false_iff. by rewrite Hk.
Qed.

(** X3.  [create_dir] never reports a mkdir that exits with a failure
    status: an exception of [create_dir] is one that the call of
    mkdir itself raised, before or instead of running the program, and
    it is never CalledProcessError. *)
Theorem create_dir_errors abs_path w e w' :
  create_dir abs_path w = (Raise e, w') ->
  e <> CalledProcessError
  /\ call ["mkdir"; "-p"; abs_path] w = (Raise e, w').
Proof.
  unfold create_dir, bind at 1, isdir. destruct (negb _); [|done].
  unfold bind.
  destruct (call ["mkdir"; "-p"; abs_path] w) as [[st|e0] w1] eqn:Hs; [done|].
  intros [= <- <-]. split; [|done]. by apply spawn_not_called in Hs.
Qed.

End InstallerMore.

(** ** The debug log *)

Section DebugLog.
Context {E : Env}.

Lemma eqb_slash_long x t : t <> "" -> String.eqb "/" (String x t) = false.
Proof.
  intros Ht. apply String.eqb_neq. intros [= _ H]. by subst.
Qed.

Lemma endswith_slash_app a c b :
  PyStr.endswith "/" (a +:+ String c b) = PyStr.endswith "/" (String c b).
Proof.
  induction a as [|x a IH]; [done|].
  rewrite app_cons, endswith_cons, IH, eqb_slash_long; [done|].
  by destruct a.
Qed.

Lemma debug_log_path_is_file :
  PyStr.endswith "/" (PyStr.path_join (cwd E) "plugin_debug.log") = false.
Proof.
  unfold PyStr.path_join.
  change (PyStr.startswith "/" "plugin_debug.log") with false.
  cbv iota. destruct (_ || _).
  - by rewrite endswith_slash_app.
  - change (cwd E +:+ "/" +:+ "plugin_debug.log")
      with (cwd E +:+ "/plugin_debug.log").
    by rewrite endswith_slash_app.
Qed.

Lemma debug_log_path_nonempty :
  String.eqb (PyStr.path_join (cwd E) "plugin_debug.log") "" = false.
Proof.
  unfold PyStr.path_join.
  change (PyStr.startswith "/" "plugin_debug.log") with false.
  cbv iota. destruct (_ || _); by destruct (cwd E).
Qed.

Lemma debug_log_path_no_nul :
  has_nul (PyStr.path_join (cwd E) "plugin_debug.log") = false.
Proof. by apply (abspath_no_nul "plugin_debug.log"). Qed.

(** A call of [plug_debug] on an existing log keeps what is there and
    adds the line at the end; nothing else changes on disk. *)
Lemma plug_debug_appends line w c m :
  lookup_node (fs w) debug_log = Some (File c m) ->
  exists w',
    plug_debug line w = (Ok tt, w')
    /\ lookup_node (fs w') debug_log
       = Some (File (c ++ String.list_byte_of_string line) m)
    /\ stable_except debug_log (fs w) (fs w').
Proof.
  intros L. unfold plug_debug, debug_log in *.
  pose proof debug_log_path_is_file as Hend.
  pose proof debug_log_path_nonempty as Hnonempty.
  pose proof debug_log_path_no_nul as Hnul.
  set (p := PyStr.path_join (cwd E) "plugin_debug.log") in *.
  unfold bind at 1, open_a. rewrite Hnonempty, Hnul, Hend.
  unfold bind at 1, get_world. rewrite L. unfold ret at 1.
  destruct (write_bytes p (String.list_byte_of_string line) w) as [r w'] eqn:Hw.
  pose proof (pres_write_bytes _ _ _ _ _ Hw) as Hst.
  unfold write_bytes, bind, get_world in Hw. rewrite L in Hw.
  injection Hw as <- <-. eexists. split; [reflexivity|]. split; [|exact Hst].
  cbn [fs]. rewrite lookup_node_insert by (eapply lookup_node_nil_dir; done).
  by case_decide.
Qed.

(** X2.  Two calls of [plug_debug] leave the two lines after the previous
    content of the log, in the order of the calls. *)
Theorem plug_debug_accumulates line1 line2 w c m :
  lookup_node (fs w) debug_log = Some (File c m) ->
  exists w',
    bind (plug_debug line1) (fun _ => plug_debug line2) w = (Ok tt, w')
    /\ lookup_node (fs w') debug_log
       = Some (File (c ++ String.list_byte_of_string line1
                       ++ String.list_byte_of_string line2) m).
Proof.
  intros L.
  destruct (plug_debug_appends line1 w c m L) as (w1 & H1 & L1 & _).
  destruct (plug_debug_appends line2 w1 _ m L1) as (w2 & H2 & L2 & _).
  exists w2. split.
  - unfold bind. by rewrite H1.
  - by rewrite L2, <- app_assoc.
Qed.

(** X1.  Without a log, [plug_debug] creates it in the working directory
    with the line as its content. *)
Theorem plug_debug_creates line w :
  lookup_node (fs w) debug_log = None ->
  lookup_node (fs w) (removelast debug_log) = Some Dir ->
  exists w',
    plug_debug line w = (Ok tt, w')
    /\ lookup_node (fs w') debug_log
       = Some (File (String.list_byte_of_string line) (create_mode E)).
Proof.
  intros L Lp. unfold plug_debug, debug_log in *.
  pose proof debug_log_path_is_file as Hend.
  pose proof debug_log_path_nonempty as Hnonempty.
  pose proof debug_log_path_no_nul as Hnul.
  set (p := PyStr.path_join (cwd E) "plugin_debug.log") in *.
  unfold bind at 1, open_a. rewrite Hnonempty, Hnul, Hend.
  unfold bind at 1, get_world. rewrite L, Lp. unfold set_fs at 1.
  assert (resolve E p <> []) as Hne by (intros Hnil; by rewrite Hnil in L).
  unfold write_bytes, bind, get_world. cbn [fs].
  rewrite lookup_node_insert by done. case_decide; [|done].
  eexists. split; [reflexivity|]. cbn [fs].
  rewrite lookup_node_insert by done. by case_decide.
Qed.

End DebugLog.

(** ** The properties above on the example worlds *)

Section ConcreteMore.
Import Examples.

(** X7 at the repository with a/b/c.py. *)
Lemma dl_github_repo_requests_nested :
  requests (snd (@dl_github_repo nested_repo "/plugins/p" tree_url
                   (world_of base_fs)))
  = requests (world_of base_fs)
    ++ (tree_url +:+ "?recursive=1")
       :: List.map te_url (List.filter fetched nested_tree).
Proof.
  apply (@dl_github_repo_requests nested_repo "/plugins/p" tree_url).
  - vm_compute. reflexivity.
  - vm_compute. reflexivity.
Defined.

(** X8 at the repository with a/b/c.py and the file /usr/bin/go. *)
Lemma dl_github_repo_keeps_other_objects_nested :
  lookup_node
    (fs (snd (@dl_github_repo nested_repo "/plugins/p" tree_url
                (world_of base_fs))))
    ["usr"; "bin"; "go"]
  = Some exe.
Proof.
  apply (@dl_github_repo_keeps_other_objects nested_repo "/plugins/p" tree_url
           (world_of base_fs)
           (fst (@dl_github_repo nested_repo "/plugins/p" tree_url
                   (world_of base_fs)))
           _ nested_tree).
  - vm_compute. reflexivity.
  - vm_compute. reflexivity.
  - intros e He _. apply list_elem_of_In in He. simpl in He.
    destruct He as [<- | [<- | [<- | []]]]; vm_compute; reflexivity.
  - vm_compute. reflexivity.
  - vm_compute. reflexivity.
  - vm_compute. reflexivity.
  - right. intros e He _. apply list_elem_of_In in He. simpl in He.
    destruct He as [<-|[<-|[<-|[]]]]; vm_compute; intros H; discriminate H.
Defined.

(** X9 at the entry run.sh of mode 100755. *)
Lemma executable_entry_is_marked_run_sh :
  exists c m,
    lookup_node
      (fs (snd (@dl_github_element exec_repo "/plugins/p"
                  (mkTreeEntry "run.sh" "100755" "https://api.example/blobs/6")
                  (world_of base_fs))))
      (@resolve exec_repo (PyStr.path_join "/plugins/p" "run.sh"))
    = Some (File c m)
    /\ Z.testbit m 6 = true.
Proof.
  apply (@executable_entry_is_marked exec_repo "/plugins/p"
           (mkTreeEntry "run.sh" "100755" "https://api.example/blobs/6")
           (world_of base_fs)).
  - vm_compute. reflexivity.
  - vm_compute. reflexivity.
  - vm_compute. reflexivity.
Defined.

(** X10 at a blob tagged utf-16. *)
Lemma unsupported_encoding_writes_nothing_readme :
  @dl_github_element utf16_repo "/plugins/p"
    (mkTreeEntry "readme" "100644" "https://api.example/blobs/5")
    (world_of base_fs)
  = (Raise AssertionError,
     mkWorld base_fs ∅ ["https://api.example/blobs/5"] []).
Proof.
  apply (@unsupported_encoding_writes_nothing utf16_repo "/plugins/p"
           (mkTreeEntry "readme" "100644" "https://api.example/blobs/5")
           (world_of base_fs) (world_of base_fs)
           (mkBlob "utf-16" "aGVsbG8=")).
  - vm_compute. reflexivity.
  - discriminate.
  - vm_compute. reflexivity.
  - vm_compute. reflexivity.
  - discriminate.
Defined.

(** X11 at the install path plugins/p and the entry a/c.py. *)
Lemma relative_install_path_is_doubled_plugins :
  lookup_node
    (fs (snd (@make_parents offline "plugins/p"
                (mkTreeEntry "a/c.py" "100644" "https://api.example/blobs/7")
                (world_of base_fs))))
    ["home"; "user"; "plugins"; "p"; "plugins"; "p"; "a"]
  = Some Dir.
Proof.
  apply (@relative_install_path_is_doubled offline "plugins/p"
           (mkTreeEntry "a/c.py" "100644" "https://api.example/blobs/7")
           "a" "c.py" (world_of base_fs)).
  - discriminate.
  - vm_compute. reflexivity.
  - vm_compute. reflexivity.
  - discriminate.
  - vm_compute. reflexivity.
  - vm_compute. reflexivity.
  - vm_compute. reflexivity.
Defined.

(** X6 at a directory of four entries, with the possible name main. *)
Lemma get_main_file_first_match_mixed :
  exists r,
    @get_main_file offline ["main"] "/plugins/p" (world_of mixed_plugin)
    = (Ok r, world_of mixed_plugin)
    /\ match r with
       | Some p =>
           exists pre f post,
             List.filter (@scanned offline "/plugins/p" (world_of mixed_plugin))
               (children mixed_plugin ["plugins"; "p"])
             = pre ++ f :: post
             /\ p = PyStr.path_join "/plugins/p" f
             /\ (exists n, n ∈ ["main"] /\ PyStr.contains n f = true)
             /\ (forall g n, g ∈ pre -> n ∈ ["main"] ->
                             PyStr.contains n g = false)
       | None =>
           forall f n,
             f ∈ List.filter (@scanned offline "/plugins/p" (world_of mixed_plugin))
                   (children mixed_plugin ["plugins"; "p"]) ->
             n ∈ ["main"] -> PyStr.contains n f = false
       end.
Proof.
  apply (@get_main_file_first_match offline ["main"] "/plugins/p"
           (world_of mixed_plugin) (children mixed_plugin ["plugins"; "p"])).
  - vm_compute. reflexivity.
  - vm_compute. lia.
Defined.

(** X13 at the URL my.zip. *)
Lemma url_without_pair_is_refused_zip :
  @dl_folder_from_github offline 1000 "/plugins/p" "my.zip" (world_of base_fs)
  = (Raise (ValueError "Unsupported url"), world_of base_fs).
Proof.
  apply (@url_without_pair_is_refused offline 999 "/plugins/p" "my.zip").
  vm_compute. reflexivity.
Defined.

(** X14 at a listing with logo.png and LICENSE. *)
Lemma folder_file_written_verbatim_logo :
  exists m,
    lookup_node
      (fs (snd (@dl_folder_from_github files_remote 1000 "/plugins/p" files_url
                  (world_of base_fs))))
      (@resolve files_remote (PyStr.path_join "/plugins/p" "logo.png"))
    = Some (File [xff; xd8; xff] m).
Proof.
  apply (@folder_file_written_verbatim files_remote 999 "/plugins/p" files_url
           (world_of base_fs) _ []
           (mkContentsEntry "logo.png"
              (Some (Some "https://raw.example/logo.png")) false)
           [mkContentsEntry "LICENSE"
              (Some (Some "https://raw.example/LICENSE")) false]
           "https://raw.example/logo.png").
  - vm_compute. reflexivity.
  - vm_compute. reflexivity.
  - vm_compute. reflexivity.
  - vm_compute. reflexivity.
  - constructor; [|constructor]. split; [reflexivity|].
    vm_compute. intros H. discriminate H.
Defined.

(** X17 at a directory with main.go and a Makefile. *)
Lemma makefile_runs_only_make_example :
  @handle_compilation offline "/plugins/p" (world_of makefile_plugin)
  = @check_output offline ["make"] (world_of makefile_plugin).
Proof.
  apply (@makefile_runs_only_make offline "/plugins/p" (world_of makefile_plugin)
           (children makefile_plugin ["plugins"; "p"])).
  - vm_compute. reflexivity.
  - apply list_elem_of_In. vm_compute. auto.
Defined.

(** X18 at a directory that holds only plugin.py. *)
Lemma no_build_descriptor_is_noop_python :
  @handle_compilation offline "/plugins/p" (world_of (go_plugin "plugin.py"))
  = (Ok tt, world_of (go_plugin "plugin.py")).
Proof.
  apply (@no_build_descriptor_is_noop offline "/plugins/p"
           (world_of (go_plugin "plugin.py")) ["plugin.py"]).
  - vm_compute. reflexivity.
  - intros [H|H]%elem_of_cons; [discriminate H|by apply elem_of_nil in H].
  - intros f ->%list_elem_of_singleton. reflexivity.
Defined.

(** X19 with go in /usr/bin only. *)
Lemma go_build_looks_in_working_directory_example :
  @go_build offline (world_of (go_plugin "main.go"))
  = (Raise (PyException go_build_message), world_of (go_plugin "main.go")).
Proof.
  apply (@go_build_looks_in_working_directory offline).
  - vm_compute. reflexivity.
  - vm_compute. reflexivity.
Defined.

(** X20 with no go in the working directory. *)
Lemma go_build_errors_example :
  @go_build offline (world_of (go_plugin "main.go"))
  = (Raise (PyException go_build_message), world_of (go_plugin "main.go"))
  /\ PyException go_build_message <> FileNotFoundError
  /\ PyException go_build_message <> CalledProcessError.
Proof.
  split; [vm_compute; reflexivity|].
  destruct (@go_build_errors offline (world_of (go_plugin "main.go"))
              (PyException go_build_message) (world_of (go_plugin "main.go")))
    as (H1 & H2 & _).
  - vm_compute. reflexivity.
  - split; [exact H1|exact H2].
Defined.

(** X21 at the line requests==2.0.0 with requests 1.0 installed. *)
Lemma pip_install_upgrade_rule_requests :
  @pip_install offline "requests==2.0.0" old_requests_world
  = @run_pip offline "requests==2.0.0" old_requests_world.
Proof.
  apply (@pip_install_upgrade_rule offline "requests==2.0.0" "2.0.0"
           [2; 0; 0] "1.0" [1; 0] old_requests_world).
  - vm_compute. reflexivity.
  - vm_compute. reflexivity.
  - vm_compute. reflexivity.
  - vm_compute. reflexivity.
  - vm_compute. reflexivity.
Defined.

(** X15 at a directory that holds only main.go. *)
Lemma no_requirements_file_is_noop_example :
  @handle_requirements offline "/plugins/p" (world_of (go_plugin "main.go"))
  = (Ok tt, world_of (go_plugin "main.go")).
Proof.
  apply (@no_requirements_file_is_noop offline "/plugins/p"
           (world_of (go_plugin "main.go")) ["main.go"]).
  - vm_compute. reflexivity.
  - intros f ->%list_elem_of_singleton. reflexivity.
Defined.

(** X16 at a requirements.txt with a name, an empty line and a line of two
    spaces. *)
Lemma requirements_lines_installed_example :
  @handle_requirements offline "/plugins/p" (world_of requirements_plugin)
  = for_each
      (List.filter is_requirement
         ["requests" +:+ newline_string; newline_string;
          "  " +:+ newline_string])
      (@pip_install offline) (world_of requirements_plugin).
Proof.
  apply (@requirements_lines_installed offline "/plugins/p"
           (world_of requirements_plugin) "requirements.txt").
  - vm_compute. reflexivity.
  - vm_compute. reflexivity.
  - vm_compute. reflexivity.
Defined.

(** X3 when no mkdir program is on the execution path. *)
Lemma create_dir_errors_no_mkdir :
  @create_dir offline "/home/user/.cache/p/sub" (world_of cache_plugin)
  = (Raise FileNotFoundError, world_of cache_plugin)
  /\ FileNotFoundError <> CalledProcessError
  /\ @call offline ["mkdir"; "-p"; "/home/user/.cache/p/sub"]
       (world_of cache_plugin)
     = (Raise FileNotFoundError, world_of cache_plugin).
Proof.
  split; [vm_compute; reflexivity|].
  apply (@create_dir_errors offline "/home/user/.cache/p/sub"
           (world_of cache_plugin) FileNotFoundError (world_of cache_plugin)).
  vm_compute. reflexivity.
Defined.

(** X2 when the log holds the letter a. *)
Lemma plug_debug_accumulates_example :
  exists w',
    bind (@plug_debug offline "b") (fun _ => @plug_debug offline "c") log_world
    = (Ok tt, w')
    /\ lookup_node (fs w') (@debug_log offline)
       = Some (File (String.list_byte_of_string "a"
                       ++ String.list_byte_of_string "b"
                       ++ String.list_byte_of_string "c") 420).
Proof.
  apply (@plug_debug_accumulates offline "b" "c" log_world).
  vm_compute. reflexivity.
Defined.

(** X1 when the working directory exists and holds no plugin_debug.log. *)
Lemma plug_debug_creates_example :
  exists w',
    @plug_debug offline "started" (world_of base_fs) = (Ok tt, w')
    /\ lookup_node (fs w') (@debug_log offline)
       = Some (File (String.list_byte_of_string "started") 420).
Proof.
  apply (@plug_debug_creates offline "started" (world_of base_fs)).
  - vm_compute. reflexivity.
  - vm_compute. reflexivity.
Defined.

End ConcreteMore.
